(** * Marbles ("bets") trading chaincode: a shallow embedding

    Source: [hyperledger/part2/part2_chaincode.go].

    The chaincode keeps three families of records in the ledger's key-value
    state: one JSON record per bet (keyed by the bet's name), the list of
    all bet names under the key ["_betindex"], and the book of open trades
    under the key ["_opentrades"].  Every function of the Go file except
    [main] (which only starts the shim) is rendered below as a
    computation in a small state-and-error monad over the ledger stub.

    Modelling conventions.
    - Byte slices and Go strings are [string] (a list of 8-bit characters).
    - Go [int] and [int64] are 64-bit; values are kept in [Z] and the
      parsers [Atoi] and [ParseInt] reject anything outside the range.
    - Slices are lists; a nil slice and an empty slice are both [[]].
    - The host store never fails: [GetState], [PutState] and [DelState]
      always return a nil error, and [GetState] of an absent key returns
      no bytes.  The [err != nil] branches that only relay a host failure
      are therefore unreachable and are left out.
    - [encoding/json] and [strings.ToLower] are library code; the
      chaincode is written against the interface [GoLib].  A concrete
      instance ([goLib], an executable JSON reader and printer) is used to
      run the code on concrete ledgers.
    - The clock read by [makeTimestamp] is an explicit argument [now]. *)

From Stdlib Require Import ZArith String Ascii List Lia Bool DecimalString.
From stdpp Require Import gmap strings list fin_maps.

Open Scope Z_scope.

(** ** Go primitives *)

Abbreviation bytes := string.

(** [len(s)] for a slice. *)
Definition len {A : Type} (l : list A) : Z := Z.of_nat (length l).

(** The double-quote character, for the JSON text the code assembles. *)
Definition dq : string := String "034"%char EmptyString.

Definition minInt64 : Z := - 2 ^ 63.
Definition maxInt64 : Z := 2 ^ 63 - 1.

Definition is_digit (c : ascii) : bool :=
  let n := nat_of_ascii c in (48 <=? n)%nat && (n <=? 57)%nat.

Definition digit_val (c : ascii) : Z := Z.of_nat (nat_of_ascii c) - 48.

(** Base-10 digits of [strconv.ParseUint]: every byte must be a digit. *)
Fixpoint parse_digits (s : string) (acc : Z) : option Z :=
  match s with
  | EmptyString => Some acc
  | String c s' =>
      if is_digit c then parse_digits s' (acc * 10 + digit_val c) else None
  end.

(** [strconv.ParseInt(s, 10, 64)]: an optional sign, at least one digit,
    only digits, and a value that fits in 64 bits; [None] stands for a
    non-nil error (syntax or range). *)
Definition ParseInt (s : string) : option Z :=
  match s with
  | EmptyString => None
  | String c s' =>
      let neg := Ascii.eqb c "-"%char in
      let body := if neg || Ascii.eqb c "+"%char then s' else s in
      match body with
      | EmptyString => None
      | _ =>
          match parse_digits body 0 with
          | None => None
          | Some un =>
              let n := if neg then - un else un in
              if (minInt64 <=? n) && (n <=? maxInt64) then Some n else None
          end
      end
  end.

(** [strconv.Atoi]: [ParseInt(s, 10, 0)] on a 64-bit platform. *)
Definition Atoi (s : string) : option Z := ParseInt s.

(** [strconv.Itoa] and [strconv.FormatInt(_, 10)]. *)
Definition Itoa (n : Z) : string := NilZero.string_of_int (Z.to_int n).

(** ** Data model (the struct declarations of the source) *)

Module Bet.
Record t : Type := mk {
  Name : string;
  Color : string;
  Size : Z;
  User : string
}.
(** [Bet{}] *)
Definition zero : t := mk "" "" 0 "".
Definition set_User (b : t) (u : string) : t :=
  mk (Name b) (Color b) (Size b) u.
End Bet.

(** The struct names its integer field [Amount] (JSON key ["amount"]);
    every function of the file reads and writes it as [.Size].  The
    record keeps the name the functions use. *)
Module Description.
Record t : Type := mk {
  Color : string;
  Size : Z
}.
Definition zero : t := mk "" 0.
End Description.

Module AnOpenTrade.
Record t : Type := mk {
  User : string;
  Timestamp : Z;
  Want : Description.t;
  Willing : list Description.t
}.
Definition zero : t := mk "" 0 Description.zero [].
Definition set_Willing (o : t) (w : list Description.t) : t :=
  mk (User o) (Timestamp o) (Want o) w.
End AnOpenTrade.

Module AllTrades.
Record t : Type := mk {
  OpenTrades : list AnOpenTrade.t
}.
Definition zero : t := mk [].
End AllTrades.

Definition betIndexStr : string := "_betindex".
Definition openTradesStr : string := "_opentrades".

(** ** Library interface

    [UnmarshalX b] is the value left in a fresh zero [X] by
    [json.Unmarshal(b, &x)]; the chaincode discards the error every time.
    [MarshalX v] is the byte slice returned by [json.Marshal(v)]. *)
Class GoLib : Type := {
  ToLower : string -> string;
  UnmarshalBet : bytes -> Bet.t;
  MarshalBet : Bet.t -> bytes;
  UnmarshalIndex : bytes -> list string;
  MarshalIndex : list string -> bytes;
  UnmarshalTrades : bytes -> AllTrades.t;
  MarshalTrades : AllTrades.t -> bytes;
  MarshalTrade : AnOpenTrade.t -> bytes;
  MarshalDescription : Description.t -> bytes
}.

(** ** The ledger stub and the monad of chaincode computations *)

Inductive write : Type :=
| Put (key : string) (value : bytes)
| Del (key : string).

(** [ledger] is the world state seen by [GetState]; [writes] is the log
    of every [PutState] and [DelState] issued so far, oldest first. *)
Record stub : Type := mkStub {
  ledger : gmap string bytes;
  writes : list write
}.

Definition emptyStub : stub := mkStub ∅ [].

Inductive outcome (A : Type) : Type :=
| Ok (a : A)            (* the function returned with a nil error *)
| Err (msg : string)    (* the function returned [errors.New(msg)] *)
| Panic (msg : string)  (* a run-time panic (index out of range) *)
| OutOfFuel.            (* the loop budget of the model ran out *)
Arguments Ok {A} a.
Arguments Err {A} msg.
Arguments Panic {A} msg.
Arguments OutOfFuel {A}.

Definition M (A : Type) : Type := stub -> outcome A * stub.

#[export] Instance M_ret : MRet M := fun A a s => (Ok a, s).
#[export] Instance M_bind : MBind M := fun A B k m s =>
  match m s with
  | (Ok a, s') => k a s'
  | (Err e, s') => (Err e, s')
  | (Panic e, s') => (Panic e, s')
  | (OutOfFuel, s') => (OutOfFuel, s')
  end.

(** [return nil, errors.New(msg)] *)
Definition throw {A : Type} (msg : string) : M A := fun s => (Err msg, s).
Definition panic {A : Type} (msg : string) : M A := fun s => (Panic msg, s).
Definition out_of_fuel {A : Type} : M A := fun s => (OutOfFuel, s).

(** [v, e := f(...)] followed by a test of [e]: the error becomes a value. *)
Definition attempt {A : Type} (m : M A) : M (A + string) := fun s =>
  match m s with
  | (Ok a, s') => (Ok (inl a), s')
  | (Err e, s') => (Ok (inr e), s')
  | (Panic e, s') => (Panic e, s')
  | (OutOfFuel, s') => (OutOfFuel, s')
  end.

(** [res, err := f(...); g(stub); return res, err]: [g] runs whatever [f]
    returned and its own result is dropped. *)
Definition and_then_always {A B : Type} (m : M A) (g : M B) : M A := fun s =>
  match m s with
  | (Ok a, s') =>
      match g s' with
      | (Ok _, s'') | (Err _, s'') => (Ok a, s'')
      | (Panic e, s'') => (Panic e, s'')
      | (OutOfFuel, s'') => (OutOfFuel, s'')
      end
  | (Err e, s') =>
      match g s' with
      | (Ok _, s'') | (Err _, s'') => (Err e, s'')
      | (Panic e', s'') => (Panic e', s'')
      | (OutOfFuel, s'') => (OutOfFuel, s'')
      end
  | r => r
  end.

Definition GetState (key : string) : M bytes := fun s =>
  (Ok (default "" (ledger s !! key)), s).

Definition PutState (key : string) (value : bytes) : M unit := fun s =>
  (Ok tt, mkStub (<[key := value]> (ledger s)) (writes s ++ [Put key value])).

Definition DelState (key : string) : M unit := fun s =>
  (Ok tt, mkStub (delete key (ledger s)) (writes s ++ [Del key])).

(** [a[i]] with Go's bounds check. *)
Definition index {A : Type} (l : list A) (i : Z) : M A :=
  if (0 <=? i) && (i <? len l) then
    match l !! Z.to_nat i with
    | Some a => mret a
    | None => panic "index out of range"
    end
  else panic "index out of range".

(** [append(a[:i], a[i+1:]...)] *)
Definition splice {A : Type} (l : list A) (i : Z) : list A :=
  take (Z.to_nat i) l ++ drop (Z.to_nat (i + 1)) l.

(** ** The chaincode *)

Section Chaincode.
Context `{L : GoLib}.

(** *** Init - reset all the things *)
Definition Init (args : list string) : M bytes :=
  if negb (len args =? 1) then
    throw "Incorrect number of arguments. Expecting 1"
  else
    a0 ← index args 0;
    match Atoi a0 with
    | None => throw "Expecting integer value for asset holding"
    | Some Aval =>
        PutState "abc" (Itoa Aval);;
        PutState betIndexStr (MarshalIndex []);;
        PutState openTradesStr (MarshalTrades AllTrades.zero);;
        mret ""
    end.

(** *** Read - read a variable from chaincode state *)
Definition read (args : list string) : M bytes :=
  if negb (len args =? 1) then
    throw "Incorrect number of arguments. Expecting name of the var to query"
  else
    name ← index args 0;
    valAsbytes ← GetState name;
    mret valAsbytes.

(** *** Delete - remove a key/value pair from state *)

(** [for i, val := range betIndex]: [rng] is what is left of the slice
    the range was started on, [betIndex] the variable the body
    assigns; the body breaks right after the removal. *)
Fixpoint Delete_range (name : string) (rng : list string) (i : Z)
    (betIndex : list string) : list string :=
  match rng with
  | [] => betIndex
  | val :: rng' =>
      if String.eqb val name then splice betIndex i
      else Delete_range name rng' (i + 1) betIndex
  end.

Definition Delete (args : list string) : M bytes :=
  if negb (len args =? 1) then
    throw "Incorrect number of arguments. Expecting 1"
  else
    name ← index args 0;
    DelState name;;
    betsAsBytes ← GetState betIndexStr;
    let betIndex := UnmarshalIndex betsAsBytes in
    let betIndex := Delete_range name betIndex 0 betIndex in
    PutState betIndexStr (MarshalIndex betIndex);;
    mret "".

(** *** Write - write variable into chaincode state *)
Definition Write (args : list string) : M bytes :=
  if negb (len args =? 2) then
    throw "Incorrect number of arguments. Expecting 2. name of the variable and value to set"
  else
    name ← index args 0;
    value ← index args 1;
    PutState name value;;
    mret "".

(** *** Init Bet - create a new bet, store into chaincode state *)

(** The JSON text [init_bet] assembles by hand. *)
Definition bet_json (name color : string) (size user : Z) : bytes :=
  "{" +:+ dq +:+ "name" +:+ dq +:+ ": " +:+ dq +:+ name +:+ dq +:+
  ", " +:+ dq +:+ "color" +:+ dq +:+ ": " +:+ dq +:+ color +:+ dq +:+
  ", " +:+ dq +:+ "size" +:+ dq +:+ ": " +:+ Itoa size +:+
  ", " +:+ dq +:+ "user" +:+ dq +:+ ": " +:+ dq +:+ Itoa user +:+ dq +:+ "}".

Definition init_bet (args : list string) : M bytes :=
  if negb (len args =? 4) then
    throw "Incorrect number of arguments. Expecting 4"
  else
    a0 ← index args 0;
    a1 ← index args 1;
    a2 ← index args 2;
    a3 ← index args 3;
    if (String.length a0 <=? 0)%nat then
      throw "1st argument must be a non-empty string"
    else if (String.length a1 <=? 0)%nat then
      throw "2nd argument must be a non-empty string"
    else if (String.length a2 <=? 0)%nat then
      throw "3rd argument must be a non-empty string"
    else if (String.length a3 <=? 0)%nat then
      throw "4th argument must be a non-empty string"
    else
      let name := a0 in
      let color := ToLower a1 in
      match Atoi a3 with
      | None => throw "4th argument must be a numeric string, 1 or 2"
      | Some user =>
          match Atoi a2 with
          | None => throw "3rd argument must be a numeric string"
          | Some size =>
              (* check if bet already exists *)
              betAsBytes ← GetState name;
              let res := UnmarshalBet betAsBytes in
              if String.eqb (Bet.Name res) name then
                throw "This bet arleady exists"
              else
                let str := bet_json name color size user in
                PutState name str;;
                (* get the bet index, append, store *)
                betsAsBytes ← GetState betIndexStr;
                let betIndex := UnmarshalIndex betsAsBytes in
                let betIndex := betIndex ++ [name] in
                PutState betIndexStr (MarshalIndex betIndex);;
                mret ""
          end
      end.

(** *** Set User Permission on Bet *)
Definition set_user (args : list string) : M bytes :=
  if len args <? 2 then
    throw "Incorrect number of arguments. Expecting 2"
  else
    a0 ← index args 0;
    a1 ← index args 1;
    betAsBytes ← GetState a0;
    let res := UnmarshalBet betAsBytes in
    let res := Bet.set_User res a1 in
    PutState a0 (MarshalBet res);;
    mret "".

(** *** Make Timestamp - create a timestamp in ms *)
Definition makeTimestamp (unixNano : Z) : Z := Z.quot unixNano 1000000.

(** *** Open Trade *)

(** [for i := 3; i < len(args); i++ { ...; i++ }] *)
Fixpoint open_trade_loop (fuel : nat) (args : list string) (i : Z)
    (open : AnOpenTrade.t) : M AnOpenTrade.t :=
  match fuel with
  | O => out_of_fuel
  | S fuel' =>
      if i <? len args then
        a ← index args (i + 1);
        match Atoi a with
        | None => throw ("is not a numeric string " +:+ a)
        | Some will_size =>
            c ← index args i;
            let trade_away := Description.mk c will_size in
            PutState "_debug2" (MarshalDescription trade_away);;
            let open :=
              AnOpenTrade.set_Willing open
                (AnOpenTrade.Willing open ++ [trade_away]) in
            open_trade_loop fuel' args (i + 1 + 1) open
        end
      else mret open
  end.

Definition open_trade (now : Z) (args : list string) : M bytes :=
  if len args <? 5 then
    throw "Incorrect number of arguments. Expecting like 5?"
  else if len args mod 2 =? 0 then
    throw "Incorrect number of arguments. Expecting an odd number"
  else
    a2 ← index args 2;
    match Atoi a2 with
    | None => throw "3rd argument must be a numeric string"
    | Some size1 =>
        a0 ← index args 0;
        a1 ← index args 1;
        let open :=
          AnOpenTrade.mk a0 (makeTimestamp now) (Description.mk a1 size1) [] in
        PutState "_debug1" (MarshalTrade open);;
        open ← open_trade_loop (length args) args 3 open;
        (* get the open trade struct, append, store *)
        tradesAsBytes ← GetState openTradesStr;
        let trades := UnmarshalTrades tradesAsBytes in
        let trades := AllTrades.mk (AllTrades.OpenTrades trades ++ [open]) in
        PutState openTradesStr (MarshalTrades trades);;
        mret ""
    end.

(** *** findBet4Trade - look for a matching bet that this user owns *)

(** The test of the [if] inside the loop. *)
Definition bet_matches (res : Bet.t) (user color : string) (size : Z) : bool :=
  String.eqb (ToLower (Bet.User res)) (ToLower user)
  && String.eqb (ToLower (Bet.Color res)) (ToLower color)
  && (Bet.Size res =? size).

(** [for i := range betIndex] over the names not yet looked at. *)
Fixpoint findBet4Trade_range (rng : list string) (user color : string)
    (size : Z) : M Bet.t :=
  match rng with
  | [] => throw "Did not find bet to use in this trade"
  | name :: rng' =>
      betAsBytes ← GetState name;
      let res := UnmarshalBet betAsBytes in
      if bet_matches res user color size then mret res
      else findBet4Trade_range rng' user color size
  end.

Definition findBet4Trade (user color : string) (size : Z) : M Bet.t :=
  betsAsBytes ← GetState betIndexStr;
  let betIndex := UnmarshalIndex betsAsBytes in
  findBet4Trade_range betIndex user color size.

(** *** Perform Trade - close an open trade and move ownership *)

(** The test that rejects the closer's bet. *)
Definition requirements_unmet (closersBet : Bet.t) (want : Description.t) : bool :=
  negb (String.eqb (Bet.Color closersBet) (Description.Color want))
  || negb (Bet.Size closersBet =? Description.Size want).

(** [for i := range trades.OpenTrades]: the range is fixed when the loop
    starts ([n] iterations are left, the next one at [i]); the body
    reads and assigns the current [trades.OpenTrades] and does not
    break after a removal. *)
Fixpoint perform_trade_range (args : list string) (timestamp size : Z)
    (n : nat) (i : Z) (OpenTrades : list AnOpenTrade.t) : M unit :=
  match n with
  | O => mret tt
  | S n' =>
      ti ← index OpenTrades i;
      if AnOpenTrade.Timestamp ti =? timestamp then
        a2 ← index args 2;
        betAsBytes ← GetState a2;
        let closersBet := UnmarshalBet betAsBytes in
        if requirements_unmet closersBet (AnOpenTrade.Want ti) then
          throw "bet in input does not meet trade requriements"
        else
          a4 ← index args 4;
          r ← attempt (findBet4Trade (AnOpenTrade.User ti) a4 size);
          match r with
          | inl bet =>
              a1 ← index args 1;
              attempt (set_user [a2; AnOpenTrade.User ti]);;
              attempt (set_user [Bet.Name bet; a1]);;
              let OpenTrades := splice OpenTrades i in
              PutState openTradesStr (MarshalTrades (AllTrades.mk OpenTrades));;
              perform_trade_range args timestamp size n' (i + 1) OpenTrades
          | inr _ =>
              perform_trade_range args timestamp size n' (i + 1) OpenTrades
          end
      else perform_trade_range args timestamp size n' (i + 1) OpenTrades
  end.

Definition perform_trade (args : list string) : M bytes :=
  if len args <? 6 then
    throw "Incorrect number of arguments. Expecting 6"
  else
    a0 ← index args 0;
    match ParseInt a0 with
    | None => throw "1st argument must be a numeric string"
    | Some timestamp =>
        a5 ← index args 5;
        match Atoi a5 with
        | None => throw "6th argument must be a numeric string"
        | Some size =>
            tradesAsBytes ← GetState openTradesStr;
            let trades := UnmarshalTrades tradesAsBytes in
            perform_trade_range args timestamp size
              (length (AllTrades.OpenTrades trades)) 0
              (AllTrades.OpenTrades trades);;
            mret ""
        end
    end.

(** *** Remove Open Trade - close an open trade *)
Fixpoint remove_trade_range (timestamp : Z) (n : nat) (i : Z)
    (OpenTrades : list AnOpenTrade.t) : M unit :=
  match n with
  | O => mret tt
  | S n' =>
      ti ← index OpenTrades i;
      if AnOpenTrade.Timestamp ti =? timestamp then
        PutState openTradesStr
          (MarshalTrades (AllTrades.mk (splice OpenTrades i)))
        (* break *)
      else remove_trade_range timestamp n' (i + 1) OpenTrades
  end.

Definition remove_trade (args : list string) : M bytes :=
  if len args <? 1 then
    throw "Incorrect number of arguments. Expecting 1"
  else
    a0 ← index args 0;
    match ParseInt a0 with
    | None => throw "1st argument must be a numeric string"
    | Some timestamp =>
        tradesAsBytes ← GetState openTradesStr;
        let trades := UnmarshalTrades tradesAsBytes in
        remove_trade_range timestamp
          (length (AllTrades.OpenTrades trades)) 0
          (AllTrades.OpenTrades trades);;
        mret ""
    end.

(** *** Clean Up Open Trades *)

(** The inner loop, over [trades.OpenTrades[i].Willing] (here [Willing])
    for the trade of [user]:

    [for x := 0; x < len(Willing); { ...; x++; if x >= len(Willing) { break } }] *)
Fixpoint cleanTrades_options (fuel : nat) (user : string)
    (Willing : list Description.t) (x : Z) (didWork : bool)
    : M (list Description.t * bool) :=
  match fuel with
  | O => out_of_fuel
  | S fuel' =>
      if x <? len Willing then
        wx ← index Willing x;
        r ← attempt (findBet4Trade user (Description.Color wx) (Description.Size wx));
        let '(Willing, x, didWork) :=
          match r with
          | inr _ => (splice Willing x, x - 1, true)   (* remove this option *)
          | inl _ => (Willing, x, didWork)             (* this option is fine *)
          end in
        let x := x + 1 in
        if x >=? len Willing then mret (Willing, didWork)
        else cleanTrades_options fuel' user Willing x didWork
      else mret (Willing, didWork)
  end.

(** The outer loop, over [trades.OpenTrades]:

    [for i := 0; i < len(OpenTrades); { ...; i++; if i >= len(OpenTrades) { break } }] *)
Fixpoint cleanTrades_trades (fuel : nat) (OpenTrades : list AnOpenTrade.t)
    (i : Z) (didWork : bool) : M (list AnOpenTrade.t * bool) :=
  match fuel with
  | O => out_of_fuel
  | S fuel' =>
      if i <? len OpenTrades then
        ti ← index OpenTrades i;
        '(Willing, didWork) ←
          cleanTrades_options (S (length (AnOpenTrade.Willing ti)))
            (AnOpenTrade.User ti) (AnOpenTrade.Willing ti) 0 didWork;
        let OpenTrades :=
          <[Z.to_nat i := AnOpenTrade.set_Willing ti Willing]> OpenTrades in
        let '(OpenTrades, i, didWork) :=
          if len Willing =? 0 then (splice OpenTrades i, i - 1, true)
          else (OpenTrades, i, didWork) in
        let i := i + 1 in
        if i >=? len OpenTrades then mret (OpenTrades, didWork)
        else cleanTrades_trades fuel' OpenTrades i didWork
      else mret (OpenTrades, didWork)
  end.

(** The two loops of [cleanTrades] on the book read from the ledger:
    the trades left and the final [didWork]. *)
Definition cleanTrades_scan : M (list AnOpenTrade.t * bool) :=
  tradesAsBytes ← GetState openTradesStr;
  let trades := UnmarshalTrades tradesAsBytes in
  cleanTrades_trades (S (length (AllTrades.OpenTrades trades)))
    (AllTrades.OpenTrades trades) 0 false.

Definition cleanTrades : M unit :=
  '(OpenTrades, didWork) ← cleanTrades_scan;
  if didWork : bool then
    PutState openTradesStr (MarshalTrades (AllTrades.mk OpenTrades))
  else mret tt.

(** *** Invoke - our entry point for invocations *)
Definition Invoke (now : Z) (function : string) (args : list string) : M bytes :=
  if String.eqb function "init" then Init args
  else if String.eqb function "delete" then
    and_then_always (Delete args) cleanTrades
  else if String.eqb function "write" then Write args
  else if String.eqb function "init_bet" then init_bet args
  else if String.eqb function "set_user" then
    and_then_always (set_user args) cleanTrades
  else if String.eqb function "open_trade" then open_trade now args
  else if String.eqb function "perform_trade" then
    and_then_always (perform_trade args) cleanTrades
  else if String.eqb function "remove_trade" then remove_trade args
  else throw "Received unknown function invocation".

(** *** Run - our entry point for invocations (legacy) *)
Definition Run (now : Z) (function : string) (args : list string) : M bytes :=
  Invoke now function args.

(** *** Query - our entry point for queries *)
Definition Query (function : string) (args : list string) : M bytes :=
  if String.eqb function "read" then read args
  else throw "Received unknown function query".

(** ** Reconciliation as the specification words it

    "For every OpenOrder in the OrderBook, for every Description in its
    offered list, call findItem; if not found, drop that Description.
    After filtering, if offered is now empty, drop the entire order."
    A stable filter, to be compared with the loops above. *)

(** Does [findBet4Trade] return a nil error on stub [s]? *)
Definition resolves (s : stub) (user : string) (d : Description.t) : bool :=
  match findBet4Trade user (Description.Color d) (Description.Size d) s with
  | (Ok _, _) => true
  | _ => false
  end.

Definition has_offers (o : AnOpenTrade.t) : bool :=
  negb (len (AnOpenTrade.Willing o) =? 0).

Definition prune_offers (s : stub) (o : AnOpenTrade.t) : AnOpenTrade.t :=
  AnOpenTrade.set_Willing o
    (List.filter (resolves s (AnOpenTrade.User o)) (AnOpenTrade.Willing o)).

Definition reconcile_spec (s : stub) (OpenTrades : list AnOpenTrade.t)
    : list AnOpenTrade.t :=
  List.filter has_offers (List.map (prune_offers s) OpenTrades).

(** The book as a later invocation reads it. *)
Definition order_book (s : stub) : list AnOpenTrade.t :=
  AllTrades.OpenTrades (UnmarshalTrades (default "" (ledger s !! openTradesStr))).

(** The bet index as a later invocation reads it. *)
Definition bet_index (s : stub) : list string :=
  UnmarshalIndex (default "" (ledger s !! betIndexStr)).

(** The bet stored under [name], as a later invocation parses it. *)
Definition bet_at (s : stub) (name : string) : Bet.t :=
  UnmarshalBet (default "" (ledger s !! name)).

End Chaincode.

(** ** A concrete library: JSON text and ASCII case folding

    An executable reading of [encoding/json] for the four record types
    of the chaincode, used to run the code on concrete ledgers.  It is
    exact on ASCII text: [Unmarshal] rejects text that is not one valid
    JSON value (the destination then keeps its zero value), matches
    object keys without regard to case, skips members whose value has
    the wrong type, and decodes a repeated key into the value already
    there.  Bytes above 127 are copied unchanged, surrogate pairs of
    [\u] escapes are not joined, and an empty list is always printed
    as [[]] (Go prints a nil slice as [null]). *)
Module Json.

#[warnings="-register-all"] Inductive value : Type :=
| JNull
| JBool (b : bool)
| JNum (literal : string)
| JStr (s : string)
| JArr (elems : list value)
| JObj (members : list (string * value)).

Definition is_ws (c : ascii) : bool :=
  match c with
  | " "%char | "009"%char | "010"%char | "013"%char => true
  | _ => false
  end.

Fixpoint skip_ws (s : string) : string :=
  match s with
  | String c s' => if is_ws c then skip_ws s' else s
  | EmptyString => s
  end.

Definition hex_val (c : ascii) : option N :=
  let n := N_of_ascii c in
  (if (48 <=? n) && (n <=? 57) then Some (n - 48)
   else if (97 <=? n) && (n <=? 102) then Some (n - 87)
   else if (65 <=? n) && (n <=? 70) then Some (n - 55)
   else None)%N.

Definition byte (n : N) : string := String (ascii_of_N n) EmptyString.

(** UTF-8 encoding of a code point of the basic plane. *)
Definition utf8 (n : N) : string :=
  (if n <? 128 then byte n
   else if n <? 2048 then
     byte (192 + n / 64) +:+ byte (128 + n mod 64)
   else if (55296 <=? n) && (n <=? 57343) then
     byte 239 +:+ byte 191 +:+ byte 189
   else
     byte (224 + n / 4096) +:+ byte (128 + (n / 64) mod 64)
     +:+ byte (128 + n mod 64))%N.

(** The rest of a string literal, after its opening quote. *)
Fixpoint read_string (s : string) : option (string * string) :=
  match s with
  | EmptyString => None
  | String "034"%char rest => Some (EmptyString, rest)
  | String "\"%char (String e rest) =>
      let simple (c : ascii) :=
        match read_string rest with
        | Some (str, rest') => Some (String c str, rest')
        | None => None
        end in
      match e with
      | "034"%char => simple "034"%char
      | "\"%char => simple "\"%char
      | "/"%char => simple "/"%char
      | "b"%char => simple "008"%char
      | "f"%char => simple "012"%char
      | "n"%char => simple "010"%char
      | "r"%char => simple "013"%char
      | "t"%char => simple "009"%char
      | "u"%char =>
          match rest with
          | String h1 (String h2 (String h3 (String h4 rest'))) =>
              match hex_val h1, hex_val h2, hex_val h3, hex_val h4 with
              | Some a, Some b, Some c, Some d =>
                  match read_string rest' with
                  | Some (str, rest'') =>
                      Some (utf8 (((a * 16 + b) * 16 + c) * 16 + d)%N +:+ str, rest'')
                  | None => None
                  end
              | _, _, _, _ => None
              end
          | _ => None
          end
      | _ => None
      end
  | String c rest =>
      if (nat_of_ascii c <? 32)%nat then None
      else
        match read_string rest with
        | Some (str, rest') => Some (String c str, rest')
        | None => None
        end
  end.

Definition is_num_char (c : ascii) : bool :=
  is_digit c ||
  match c with
  | "-"%char | "+"%char | "."%char | "e"%char | "E"%char => true
  | _ => false
  end.

Fixpoint span_num (s : string) : string * string :=
  match s with
  | String c s' =>
      if is_num_char c then
        let '(n, rest) := span_num s' in (String c n, rest)
      else (EmptyString, s)
  | EmptyString => (EmptyString, s)
  end.

Fixpoint all_digits (s : string) : bool :=
  match s with
  | EmptyString => true
  | String c s' => is_digit c && all_digits s'
  end.

Fixpoint span_digits (s : string) : string * string :=
  match s with
  | String c s' =>
      if is_digit c then
        let '(n, rest) := span_digits s' in (String c n, rest)
      else (EmptyString, s)
  | EmptyString => (EmptyString, s)
  end.

(** The exponent part of a number literal, or nothing. *)
Definition valid_exp (s : string) : bool :=
  match s with
  | EmptyString => true
  | String c s' =>
      if Ascii.eqb c "e"%char || Ascii.eqb c "E"%char then
        let body :=
          match s' with
          | String sg s'' =>
              if Ascii.eqb sg "+"%char || Ascii.eqb sg "-"%char then s'' else s'
          | EmptyString => s'
          end in
        negb (String.eqb body EmptyString) && all_digits body
      else false
  end.

(** The fraction and exponent parts, or nothing. *)
Definition valid_frac_exp (s : string) : bool :=
  match s with
  | String "."%char s' =>
      let '(ds, rest) := span_digits s' in
      negb (String.eqb ds EmptyString) && valid_exp rest
  | _ => valid_exp s
  end.

(** The JSON grammar of numbers. *)
Definition valid_number (s : string) : bool :=
  let body :=
    match s with
    | String "-"%char s' => s'
    | _ => s
    end in
  match body with
  | String "0"%char rest => valid_frac_exp rest
  | String c _ =>
      if is_digit c then
        let '(_, rest) := span_digits body in valid_frac_exp rest
      else false
  | EmptyString => false
  end.

Definition strip_prefix (p s : string) : option string :=
  if String.prefix p s then
    Some (String.substring (String.length p) (String.length s - String.length p) s)
  else None.

Fixpoint read_value (fuel : nat) (s : string) : option (value * string) :=
  match fuel with
  | O => None
  | S fuel' =>
      match skip_ws s with
      | EmptyString => None
      | String "{"%char rest =>
          match skip_ws rest with
          | String "}"%char rest' => Some (JObj [], rest')
          | rest' =>
              match read_members fuel' rest' with
              | Some (ms, rest'') => Some (JObj ms, rest'')
              | None => None
              end
          end
      | String "["%char rest =>
          match skip_ws rest with
          | String "]"%char rest' => Some (JArr [], rest')
          | rest' =>
              match read_elements fuel' rest' with
              | Some (vs, rest'') => Some (JArr vs, rest'')
              | None => None
              end
          end
      | String "034"%char rest =>
          match read_string rest with
          | Some (str, rest') => Some (JStr str, rest')
          | None => None
          end
      | s0 =>
          match strip_prefix "true" s0, strip_prefix "false" s0,
                strip_prefix "null" s0 with
          | Some rest, _, _ => Some (JBool true, rest)
          | _, Some rest, _ => Some (JBool false, rest)
          | _, _, Some rest => Some (JNull, rest)
          | _, _, _ =>
              let '(n, rest) := span_num s0 in
              if valid_number n then Some (JNum n, rest) else None
          end
      end
  end
with read_elements (fuel : nat) (s : string) : option (list value * string) :=
  match fuel with
  | O => None
  | S fuel' =>
      match read_value fuel' s with
      | Some (v, rest) =>
          match skip_ws rest with
          | String ","%char rest' =>
              match read_elements fuel' rest' with
              | Some (vs, rest'') => Some (v :: vs, rest'')
              | None => None
              end
          | String "]"%char rest' => Some ([v], rest')
          | _ => None
          end
      | None => None
      end
  end
with read_members (fuel : nat) (s : string)
    : option (list (string * value) * string) :=
  match fuel with
  | O => None
  | S fuel' =>
      match skip_ws s with
      | String "034"%char rest =>
          match read_string rest with
          | Some (key, rest1) =>
              match skip_ws rest1 with
              | String ":"%char rest2 =>
                  match read_value fuel' rest2 with
                  | Some (v, rest3) =>
                      match skip_ws rest3 with
                      | String ","%char rest4 =>
                          match read_members fuel' rest4 with
                          | Some (ms, rest5) => Some ((key, v) :: ms, rest5)
                          | None => None
                          end
                      | String "}"%char rest4 => Some ([(key, v)], rest4)
                      | _ => None
                      end
                  | None => None
                  end
              | _ => None
              end
          | None => None
          end
      | _ => None
      end
  end.

(** The whole text must be one value. *)
Definition read (s : string) : option value :=
  match read_value (S (2 * String.length s)) s with
  | Some (v, rest) =>
      if String.eqb (skip_ws rest) EmptyString then Some v else None
  | None => None
  end.

(** *** Decoding into the chaincode's types

    Each decoder takes the JSON value and the destination's current
    content, as [json.Unmarshal] does. *)

Definition lower_char (c : ascii) : ascii :=
  let n := nat_of_ascii c in
  if (65 <=? n)%nat && (n <=? 90)%nat then ascii_of_nat (n + 32) else c.

Fixpoint lower (s : string) : string :=
  match s with
  | EmptyString => EmptyString
  | String c s' => String (lower_char c) (lower s')
  end.

Definition dec_string (j : value) (cur : string) : string :=
  match j with
  | JStr s => s
  | _ => cur
  end.

Definition dec_int (j : value) (cur : Z) : Z :=
  match j with
  | JNum literal =>
      match ParseInt literal with
      | Some n => n
      | None => cur
      end
  | _ => cur
  end.

Fixpoint dec_elems {A : Type} (dec : value -> A -> A) (zero : A)
    (js : list value) (cur : list A) : list A :=
  match js with
  | [] => []
  | j :: js' => dec j (hd zero cur) :: dec_elems dec zero js' (tl cur)
  end.

Definition dec_slice {A : Type} (dec : value -> A -> A) (zero : A)
    (j : value) (cur : list A) : list A :=
  match j with
  | JArr js => dec_elems dec zero js cur
  | JNull => []
  | _ => cur
  end.

Definition dec_Bet (j : value) (cur : Bet.t) : Bet.t :=
  match j with
  | JObj ms =>
      fold_left (fun b '(k, v) =>
        let k := lower k in
        if String.eqb k "name" then
          Bet.mk (dec_string v (Bet.Name b)) (Bet.Color b) (Bet.Size b) (Bet.User b)
        else if String.eqb k "color" then
          Bet.mk (Bet.Name b) (dec_string v (Bet.Color b)) (Bet.Size b) (Bet.User b)
        else if String.eqb k "size" then
          Bet.mk (Bet.Name b) (Bet.Color b) (dec_int v (Bet.Size b)) (Bet.User b)
        else if String.eqb k "user" then
          Bet.mk (Bet.Name b) (Bet.Color b) (Bet.Size b) (dec_string v (Bet.User b))
        else b) ms cur
  | _ => cur
  end.

Definition dec_Description (j : value) (cur : Description.t) : Description.t :=
  match j with
  | JObj ms =>
      fold_left (fun d '(k, v) =>
        let k := lower k in
        if String.eqb k "color" then
          Description.mk (dec_string v (Description.Color d)) (Description.Size d)
        else if String.eqb k "amount" then
          Description.mk (Description.Color d) (dec_int v (Description.Size d))
        else d) ms cur
  | _ => cur
  end.

Definition dec_Trade (j : value) (cur : AnOpenTrade.t) : AnOpenTrade.t :=
  match j with
  | JObj ms =>
      fold_left (fun o '(k, v) =>
        let k := lower k in
        if String.eqb k "user" then
          AnOpenTrade.mk (dec_string v (AnOpenTrade.User o))
            (AnOpenTrade.Timestamp o) (AnOpenTrade.Want o) (AnOpenTrade.Willing o)
        else if String.eqb k "timestamp" then
          AnOpenTrade.mk (AnOpenTrade.User o)
            (dec_int v (AnOpenTrade.Timestamp o)) (AnOpenTrade.Want o)
            (AnOpenTrade.Willing o)
        else if String.eqb k "want" then
          AnOpenTrade.mk (AnOpenTrade.User o) (AnOpenTrade.Timestamp o)
            (dec_Description v (AnOpenTrade.Want o)) (AnOpenTrade.Willing o)
        else if String.eqb k "willing" then
          AnOpenTrade.mk (AnOpenTrade.User o) (AnOpenTrade.Timestamp o)
            (AnOpenTrade.Want o)
            (dec_slice dec_Description Description.zero v (AnOpenTrade.Willing o))
        else o) ms cur
  | _ => cur
  end.

Definition dec_AllTrades (j : value) (cur : AllTrades.t) : AllTrades.t :=
  match j with
  | JObj ms =>
      fold_left (fun t '(k, v) =>
        if String.eqb (lower k) "open_trades" then
          AllTrades.mk
            (dec_slice dec_Trade AnOpenTrade.zero v (AllTrades.OpenTrades t))
        else t) ms cur
  | _ => cur
  end.

Definition unmarshal {A : Type} (dec : value -> A -> A) (zero : A)
    (b : bytes) : A :=
  match read b with
  | Some j => dec j zero
  | None => zero
  end.

(** *** Printing *)

Definition hex_digit (n : N) : string :=
  (if n <? 10 then byte (48 + n) else byte (87 + n))%N.

Definition enc_char (c : ascii) : string :=
  let n := N_of_ascii c in
  match c with
  | "034"%char => "\" +:+ dq
  | "\"%char => "\\"
  | "010"%char => "\n"
  | "013"%char => "\r"
  | "009"%char => "\t"
  | _ =>
      if (n <? 32)%N || Ascii.eqb c "<"%char || Ascii.eqb c ">"%char
         || Ascii.eqb c "&"%char
      then "\u00" +:+ hex_digit (n / 16) +:+ hex_digit (n mod 16)
      else String c EmptyString
  end.

Fixpoint enc_chars (s : string) : string :=
  match s with
  | EmptyString => EmptyString
  | String c s' => enc_char c +:+ enc_chars s'
  end.

Definition enc_string (s : string) : string := dq +:+ enc_chars s +:+ dq.

Definition key (k : string) : string := dq +:+ k +:+ dq +:+ ":".

Fixpoint enc_list {A : Type} (enc : A -> string) (l : list A) : string :=
  match l with
  | [] => EmptyString
  | [a] => enc a
  | a :: l' => enc a +:+ "," +:+ enc_list enc l'
  end.

Definition enc_slice {A : Type} (enc : A -> string) (l : list A) : string :=
  "[" +:+ enc_list enc l +:+ "]".

Definition enc_Bet (b : Bet.t) : string :=
  "{" +:+ key "name" +:+ enc_string (Bet.Name b) +:+
  "," +:+ key "color" +:+ enc_string (Bet.Color b) +:+
  "," +:+ key "size" +:+ Itoa (Bet.Size b) +:+
  "," +:+ key "user" +:+ enc_string (Bet.User b) +:+ "}".

Definition enc_Description (d : Description.t) : string :=
  "{" +:+ key "color" +:+ enc_string (Description.Color d) +:+
  "," +:+ key "amount" +:+ Itoa (Description.Size d) +:+ "}".

Definition enc_Trade (o : AnOpenTrade.t) : string :=
  "{" +:+ key "user" +:+ enc_string (AnOpenTrade.User o) +:+
  "," +:+ key "timestamp" +:+ Itoa (AnOpenTrade.Timestamp o) +:+
  "," +:+ key "want" +:+ enc_Description (AnOpenTrade.Want o) +:+
  "," +:+ key "willing" +:+ enc_slice enc_Description (AnOpenTrade.Willing o) +:+
  "}".

Definition enc_AllTrades (t : AllTrades.t) : string :=
  "{" +:+ key "open_trades" +:+ enc_slice enc_Trade (AllTrades.OpenTrades t) +:+ "}".

End Json.

#[export] Instance goLib : GoLib := {|
  ToLower := Json.lower;
  UnmarshalBet := Json.unmarshal Json.dec_Bet Bet.zero;
  MarshalBet := Json.enc_Bet;
  UnmarshalIndex := Json.unmarshal (Json.dec_slice Json.dec_string EmptyString) [];
  MarshalIndex := Json.enc_slice Json.enc_string;
  UnmarshalTrades := Json.unmarshal Json.dec_AllTrades AllTrades.zero;
  MarshalTrades := Json.enc_AllTrades;
  MarshalTrade := Json.enc_Trade;
  MarshalDescription := Json.enc_Description
|}.

(** ** Predicates used by the statements *)

Section Predicates.
Context `{L : GoLib}.

(** An order that reconciliation leaves as it is: every offer
    resolves and there is at least one. *)
Definition settled (s : stub) (o : AnOpenTrade.t) : bool :=
  forallb (resolves s (AnOpenTrade.User o)) (AnOpenTrade.Willing o)
  && has_offers o.

Definition book_settled (s : stub) (OpenTrades : list AnOpenTrade.t) : bool :=
  forallb (settled s) OpenTrades.

(** The ledger after [PutState(key, value)]. *)
Definition put (key : string) (value : bytes) (s : stub) : stub :=
  mkStub (<[key := value]> (ledger s)) (writes s ++ [Put key value]).

End Predicates.

(** ** The operations behind the dispatcher *)

Inductive operation : Type :=
| OpInit (args : list string)
| OpRead (args : list string)
| OpDelete (args : list string)
| OpWrite (args : list string)
| OpInitBet (args : list string)
| OpSetUser (args : list string)
| OpOpenTrade (now : Z) (args : list string)
| OpPerformTrade (args : list string)
| OpRemoveTrade (args : list string).

Definition run_operation `{L : GoLib} (op : operation) : M bytes :=
  match op with
  | OpInit args => Init args
  | OpRead args => read args
  | OpDelete args => Delete args
  | OpWrite args => Write args
  | OpInitBet args => init_bet args
  | OpSetUser args => set_user args
  | OpOpenTrade now args => open_trade now args
  | OpPerformTrade args => perform_trade args
  | OpRemoveTrade args => remove_trade args
  end.

(** The writes [open_trade] issues for debugging. *)
Definition debug_write (w : write) : bool :=
  match w with
  | Put key _ => String.eqb key "_debug1" || String.eqb key "_debug2"
  | Del _ => false
  end.

(** The [PutState]s of the loop of [open_trade], one per offer. *)
Definition debug2_writes `{L : GoLib} (W : list Description.t) : list write :=
  List.map (fun d => Put "_debug2" (MarshalDescription d)) W.

(** [s'] is [s] after some debug writes and nothing else. *)
Definition only_debug_writes (s s' : stub) : Prop :=
  (forall key, key <> "_debug1" -> key <> "_debug2" ->
     ledger s' !! key = ledger s !! key)
  /\ exists w, writes s' = writes s ++ w /\ forallb debug_write w = true.

(** ** Concrete ledgers, built by invocations on the concrete library *)

Definition after {A : Type} (m : M A) (s : stub) : stub := snd (m s).

(** A freshly initialised ledger. *)
Definition fresh : stub := after (Invoke 0 "init" ["0"]) emptyStub.

(** Bet [A] (blue, 10) of user 1 and bet [B] (red, 5) of user 2. *)
Definition two_bets : stub :=
  after (Invoke 0 "init_bet" ["B"; "red"; "5"; "2"])
    (after (Invoke 0 "init_bet" ["A"; "blue"; "10"; "1"]) fresh).

(** User 2 wants (blue, 10) and offers (red, 5); the order's id is 1234567. *)
Definition one_order : stub :=
  after (Invoke 1234567000000 "open_trade" ["2"; "blue"; "10"; "red"; "5"]) two_bets.

(** A book with offers the inventory cannot back: user 2 offers (red, 5)
    and (green, 7); user 1 offers (pink, 1) only. *)
Definition stale_book : stub :=
  after (Invoke 2000000000 "open_trade" ["1"; "red"; "5"; "pink"; "1"])
    (after (Invoke 1000000000 "open_trade"
              ["2"; "blue"; "10"; "red"; "5"; "green"; "7"]) two_bets).

(** A book in which two orders share the id 1000 (same clock reading),
    with another order between them. *)
Definition duplicate_ids : stub :=
  after (Invoke 1000000000 "open_trade" ["2"; "green"; "1"; "red"; "5"])
    (after (Invoke 2000000000 "open_trade" ["2"; "pink"; "1"; "red"; "5"])
       (after (Invoke 1000000000 "open_trade" ["2"; "blue"; "10"; "red"; "5"])
          two_bets)).

(** As [one_order], but the order asks for the colour as ["Blue"]. *)
Definition wants_capital_blue : stub :=
  after (Invoke 1234567000000 "open_trade" ["2"; "Blue"; "10"; "red"; "5"]) two_bets.

(** ** Plain-list readings of the remaining loops, for comparison *)

(** The index without the first entry equal to [name]. *)
Fixpoint remove_first (name : string) (l : list string) : list string :=
  match l with
  | [] => []
  | x :: l' => if String.eqb x name then l' else x :: remove_first name l'
  end.

(** The book without the first order whose id is [timestamp]. *)
Fixpoint remove_first_id (timestamp : Z) (T : list AnOpenTrade.t)
    : list AnOpenTrade.t :=
  match T with
  | [] => []
  | o :: T' =>
      if AnOpenTrade.Timestamp o =? timestamp then T'
      else o :: remove_first_id timestamp T'
  end.

Definition has_id (timestamp : Z) (o : AnOpenTrade.t) : bool :=
  AnOpenTrade.Timestamp o =? timestamp.

(** The argument list of [open_trade] after the wanted pair: colour and
    quantity of each offer, in turn. *)
Fixpoint offer_args (pairs : list (string * string)) : list string :=
  match pairs with
  | [] => []
  | (color, quantity) :: pairs' => color :: quantity :: offer_args pairs'
  end.

(** The offers these arguments stand for, when every quantity parses. *)
Fixpoint parse_offers (pairs : list (string * string))
    : option (list Description.t) :=
  match pairs with
  | [] => Some []
  | (color, quantity) :: pairs' =>
      match Atoi quantity, parse_offers pairs' with
      | Some n, Some W => Some (Description.mk color n :: W)
      | _, _ => None
      end
  end.

(** What reconciliation must not touch in an order. *)
Definition order_key (o : AnOpenTrade.t) : string * Z * Description.t :=
  (AnOpenTrade.User o, AnOpenTrade.Timestamp o, AnOpenTrade.Want o).

(** The ledger after [DelState(key)]. *)
Definition del (key : string) (s : stub) : stub :=
  mkStub (delete key (ledger s)) (writes s ++ [Del key]).

(** As [one_order], with a second order (id 2000) opened after it. *)
Definition two_orders : stub :=
  after (Invoke 2000000000 "open_trade" ["1"; "red"; "5"; "blue"; "10"]) one_order.

(** ** The operations over a host store that can fail

    The functions above leave out the branches that relay a failure of
    the host store.  Below, the nine operations behind the dispatcher
    (and [findBet4Trade], which two of them call) are rendered again
    with those branches.  The host is a stub together with a schedule:
    the next call of [GetState], [PutState] or [DelState] fails exactly
    when the head of the schedule holds an error, and then has no
    effect; an exhausted schedule means the host works from then on.
    [failures] counts the host calls that have failed. *)
Module HostErrors.

Record host : Type := mkHost {
  base : stub;
  faults : list (option string);
  failures : nat
}.

Definition H (A : Type) : Type := host -> outcome A * host.

#[global] Instance H_ret : MRet H := fun A a h => (Ok a, h).
#[global] Instance H_bind : MBind H := fun A B k m h =>
  match m h with
  | (Ok a, h') => k a h'
  | (Err e, h') => (Err e, h')
  | (Panic e, h') => (Panic e, h')
  | (OutOfFuel, h') => (OutOfFuel, h')
  end.

Definition throw {A : Type} (msg : string) : H A := fun h => (Err msg, h).
Definition panic {A : Type} (msg : string) : H A := fun h => (Panic msg, h).
Definition out_of_fuel {A : Type} : H A := fun h => (OutOfFuel, h).

Definition attempt {A : Type} (m : H A) : H (A + string) := fun h =>
  match m h with
  | (Ok a, h') => (Ok (inl a), h')
  | (Err e, h') => (Ok (inr e), h')
  | (Panic e, h') => (Panic e, h')
  | (OutOfFuel, h') => (OutOfFuel, h')
  end.

Definition index {A : Type} (l : list A) (i : Z) : H A :=
  if (0 <=? i) && (i <? len l) then
    match l !! Z.to_nat i with
    | Some a => mret a
    | None => panic "index out of range"
    end
  else panic "index out of range".

(** The host takes the next entry of its schedule. *)
Definition host_call (h : host) : option string * host :=
  match faults h with
  | [] => (None, h)
  | None :: rest => (None, mkHost (base h) rest (failures h))
  | Some e :: rest => (Some e, mkHost (base h) rest (S (failures h)))
  end.

(** [value, err := stub.GetState(key)] *)
Definition GetState (key : string) : H (bytes * option string) := fun h =>
  match host_call h with
  | (Some e, h') => (Ok (EmptyString, Some e), h')
  | (None, h') => (Ok (default "" (ledger (base h') !! key), None), h')
  end.

(** [err := stub.PutState(key, value)] *)
Definition PutState (key : string) (value : bytes) : H (option string) := fun h =>
  match host_call h with
  | (Some e, h') => (Ok (Some e), h')
  | (None, h') =>
      (Ok None, mkHost (put key value (base h')) (faults h') (failures h'))
  end.

(** [err := stub.DelState(key)] *)
Definition DelState (key : string) : H (option string) := fun h =>
  match host_call h with
  | (Some e, h') => (Ok (Some e), h')
  | (None, h') => (Ok None, mkHost (del key (base h')) (faults h') (failures h'))
  end.

(** [if err != nil { return nil, err }] *)
Definition relay (err : option string) : H unit :=
  match err with
  | Some e => throw e
  | None => mret tt
  end.

(** [if err != nil { return nil, errors.New(msg) }] *)
Definition fail_with (err : option string) (msg : string) : H unit :=
  match err with
  | Some _ => throw msg
  | None => mret tt
  end.

Section Chaincode.
Context `{L : GoLib}.

Definition Init (args : list string) : H bytes :=
  if negb (len args =? 1) then
    throw "Incorrect number of arguments. Expecting 1"
  else
    a0 ← index args 0;
    match Atoi a0 with
    | None => throw "Expecting integer value for asset holding"
    | Some Aval =>
        err ← PutState "abc" (Itoa Aval);
        relay err;;
        err ← PutState betIndexStr (MarshalIndex []);
        relay err;;
        err ← PutState openTradesStr (MarshalTrades AllTrades.zero);
        relay err;;
        mret ""
    end.

Definition read (args : list string) : H bytes :=
  if negb (len args =? 1) then
    throw "Incorrect number of arguments. Expecting name of the var to query"
  else
    name ← index args 0;
    '(valAsbytes, err) ← GetState name;
    fail_with err
      ("{" +:+ dq +:+ "Error" +:+ dq +:+ ":" +:+ dq
       +:+ "Failed to get state for " +:+ name +:+ dq +:+ "}");;
    mret valAsbytes.

Definition Delete (args : list string) : H bytes :=
  if negb (len args =? 1) then
    throw "Incorrect number of arguments. Expecting 1"
  else
    name ← index args 0;
    err ← DelState name;
    fail_with err "Failed to delete state";;
    '(betsAsBytes, err) ← GetState betIndexStr;
    fail_with err "Failed to get bet index";;
    let betIndex := UnmarshalIndex betsAsBytes in
    let betIndex := Delete_range name betIndex 0 betIndex in
    _ ← PutState betIndexStr (MarshalIndex betIndex);   (* err is not tested *)
    mret "".

Definition Write (args : list string) : H bytes :=
  if negb (len args =? 2) then
    throw "Incorrect number of arguments. Expecting 2. name of the variable and value to set"
  else
    name ← index args 0;
    value ← index args 1;
    err ← PutState name value;
    relay err;;
    mret "".

Definition init_bet (args : list string) : H bytes :=
  if negb (len args =? 4) then
    throw "Incorrect number of arguments. Expecting 4"
  else
    a0 ← index args 0;
    a1 ← index args 1;
    a2 ← index args 2;
    a3 ← index args 3;
    if (String.length a0 <=? 0)%nat then
      throw "1st argument must be a non-empty string"
    else if (String.length a1 <=? 0)%nat then
      throw "2nd argument must be a non-empty string"
    else if (String.length a2 <=? 0)%nat then
      throw "3rd argument must be a non-empty string"
    else if (String.length a3 <=? 0)%nat then
      throw "4th argument must be a non-empty string"
    else
      let name := a0 in
      let color := ToLower a1 in
      match Atoi a3 with
      | None => throw "4th argument must be a numeric string, 1 or 2"
      | Some user =>
          match Atoi a2 with
          | None => throw "3rd argument must be a numeric string"
          | Some size =>
              '(betAsBytes, err) ← GetState name;
              fail_with err "Failed to get bet name";;
              let res := UnmarshalBet betAsBytes in
              if String.eqb (Bet.Name res) name then
                throw "This bet arleady exists"
              else
                let str := bet_json name color size user in
                err ← PutState name str;
                relay err;;
                '(betsAsBytes, err) ← GetState betIndexStr;
                fail_with err "Failed to get bet index";;
                let betIndex := UnmarshalIndex betsAsBytes in
                let betIndex := betIndex ++ [name] in
                _ ← PutState betIndexStr (MarshalIndex betIndex);   (* not tested *)
                mret ""
          end
      end.

Definition set_user (args : list string) : H bytes :=
  if len args <? 2 then
    throw "Incorrect number of arguments. Expecting 2"
  else
    a0 ← index args 0;
    a1 ← index args 1;
    '(betAsBytes, err) ← GetState a0;
    fail_with err "Failed to get thing";;
    let res := UnmarshalBet betAsBytes in
    let res := Bet.set_User res a1 in
    err ← PutState a0 (MarshalBet res);
    relay err;;
    mret "".

Fixpoint open_trade_loop (fuel : nat) (args : list string) (i : Z)
    (open : AnOpenTrade.t) : H AnOpenTrade.t :=
  match fuel with
  | O => out_of_fuel
  | S fuel' =>
      if i <? len args then
        a ← index args (i + 1);
        match Atoi a with
        | None => throw ("is not a numeric string " +:+ a)
        | Some will_size =>
            c ← index args i;
            let trade_away := Description.mk c will_size in
            _ ← PutState "_debug2" (MarshalDescription trade_away);   (* not tested *)
            let open :=
              AnOpenTrade.set_Willing open
                (AnOpenTrade.Willing open ++ [trade_away]) in
            open_trade_loop fuel' args (i + 1 + 1) open
        end
      else mret open
  end.

Definition open_trade (now : Z) (args : list string) : H bytes :=
  if len args <? 5 then
    throw "Incorrect number of arguments. Expecting like 5?"
  else if len args mod 2 =? 0 then
    throw "Incorrect number of arguments. Expecting an odd number"
  else
    a2 ← index args 2;
    match Atoi a2 with
    | None => throw "3rd argument must be a numeric string"
    | Some size1 =>
        a0 ← index args 0;
        a1 ← index args 1;
        let open :=
          AnOpenTrade.mk a0 (makeTimestamp now) (Description.mk a1 size1) [] in
        _ ← PutState "_debug1" (MarshalTrade open);   (* err is not tested *)
        open ← open_trade_loop (length args) args 3 open;
        '(tradesAsBytes, err) ← GetState openTradesStr;
        fail_with err "Failed to get opentrades";;
        let trades := UnmarshalTrades tradesAsBytes in
        let trades := AllTrades.mk (AllTrades.OpenTrades trades ++ [open]) in
        err ← PutState openTradesStr (MarshalTrades trades);
        relay err;;
        mret ""
    end.

Fixpoint findBet4Trade_range (rng : list string) (user color : string)
    (size : Z) : H Bet.t :=
  match rng with
  | [] => throw "Did not find bet to use in this trade"
  | name :: rng' =>
      '(betAsBytes, err) ← GetState name;
      fail_with err "Failed to get bet";;
      let res := UnmarshalBet betAsBytes in
      if bet_matches res user color size then mret res
      else findBet4Trade_range rng' user color size
  end.

Definition findBet4Trade (user color : string) (size : Z) : H Bet.t :=
  '(betsAsBytes, err) ← GetState betIndexStr;
  fail_with err "Failed to get bet index";;
  let betIndex := UnmarshalIndex betsAsBytes in
  findBet4Trade_range betIndex user color size.

Fixpoint perform_trade_range (args : list string) (timestamp size : Z)
    (n : nat) (i : Z) (OpenTrades : list AnOpenTrade.t) : H unit :=
  match n with
  | O => mret tt
  | S n' =>
      ti ← index OpenTrades i;
      if AnOpenTrade.Timestamp ti =? timestamp then
        a2 ← index args 2;
        '(betAsBytes, err) ← GetState a2;
        fail_with err "Failed to get thing";;
        let closersBet := UnmarshalBet betAsBytes in
        if requirements_unmet closersBet (AnOpenTrade.Want ti) then
          throw "bet in input does not meet trade requriements"
        else
          a4 ← index args 4;
          r ← attempt (findBet4Trade (AnOpenTrade.User ti) a4 size);
          match r with
          | inl bet =>
              a1 ← index args 1;
              attempt (set_user [a2; AnOpenTrade.User ti]);;
              attempt (set_user [Bet.Name bet; a1]);;
              let OpenTrades := splice OpenTrades i in
              err ← PutState openTradesStr (MarshalTrades (AllTrades.mk OpenTrades));
              relay err;;
              perform_trade_range args timestamp size n' (i + 1) OpenTrades
          | inr _ =>
              perform_trade_range args timestamp size n' (i + 1) OpenTrades
          end
      else perform_trade_range args timestamp size n' (i + 1) OpenTrades
  end.

Definition perform_trade (args : list string) : H bytes :=
  if len args <? 6 then
    throw "Incorrect number of arguments. Expecting 6"
  else
    a0 ← index args 0;
    match ParseInt a0 with
    | None => throw "1st argument must be a numeric string"
    | Some timestamp =>
        a5 ← index args 5;
        match Atoi a5 with
        | None => throw "6th argument must be a numeric string"
        | Some size =>
            '(tradesAsBytes, err) ← GetState openTradesStr;
            fail_with err "Failed to get opentrades";;
            let trades := UnmarshalTrades tradesAsBytes in
            perform_trade_range args timestamp size
              (length (AllTrades.OpenTrades trades)) 0
              (AllTrades.OpenTrades trades);;
            mret ""
        end
    end.

Fixpoint remove_trade_range (timestamp : Z) (n : nat) (i : Z)
    (OpenTrades : list AnOpenTrade.t) : H unit :=
  match n with
  | O => mret tt
  | S n' =>
      ti ← index OpenTrades i;
      if AnOpenTrade.Timestamp ti =? timestamp then
        err ← PutState openTradesStr
                (MarshalTrades (AllTrades.mk (splice OpenTrades i)));
        relay err
        (* break *)
      else remove_trade_range timestamp n' (i + 1) OpenTrades
  end.

Definition remove_trade (args : list string) : H bytes :=
  if len args <? 1 then
    throw "Incorrect number of arguments. Expecting 1"
  else
    a0 ← index args 0;
    match ParseInt a0 with
    | None => throw "1st argument must be a numeric string"
    | Some timestamp =>
        '(tradesAsBytes, err) ← GetState openTradesStr;
        fail_with err "Failed to get opentrades";;
        let trades := UnmarshalTrades tradesAsBytes in
        remove_trade_range timestamp
          (length (AllTrades.OpenTrades trades)) 0
          (AllTrades.OpenTrades trades);;
        mret ""
    end.

Definition run_operation (op : operation) : H bytes :=
  match op with
  | OpInit args => Init args
  | OpRead args => read args
  | OpDelete args => Delete args
  | OpWrite args => Write args
  | OpInitBet args => init_bet args
  | OpSetUser args => set_user args
  | OpOpenTrade now args => open_trade now args
  | OpPerformTrade args => perform_trade args
  | OpRemoveTrade args => remove_trade args
  end.

End Chaincode.

(** A host that works: the stub with an empty schedule. *)
Definition working (s : stub) : host := mkHost s [] 0.

(** The stub with the host working for [n] calls and failing, with
    error [e], at the call after them. *)
Definition failing_after (n : nat) (e : string) (s : stub) : host :=
  mkHost s (repeat None n ++ [Some e]) 0.

(** The writes the host accepts when they are issued in turn against a
    schedule. *)
Fixpoint accepted (schedule : list (option string)) (ws : list write)
    {struct ws} : list write :=
  match ws with
  | [] => []
  | w :: ws' =>
      match schedule with
      | [] => w :: ws'
      | None :: rest => w :: accepted rest ws'
      | Some _ :: rest => accepted rest ws'
      end
  end.

End HostErrors.

(** What a computation does to the count of failed host calls and to
    the stub: [mono m] when [m] never lowers the count, [keeps m] when
    [m] leaves the stub as it was. *)
Definition mono {A : Type} (m : HostErrors.H A) : Prop :=
  forall h r h', m h = (r, h') ->
    (HostErrors.failures h <= HostErrors.failures h')%nat.

Definition keeps {A : Type} (m : HostErrors.H A) : Prop :=
  forall h r h', m h = (r, h') -> HostErrors.base h' = HostErrors.base h.

(** [mh], on the store that can fail, and [m], on the store that
    cannot, agree when the host has no failure scheduled: same result,
    same stub afterwards, no failure counted. *)
Definition agrees {A : Type} (mh : HostErrors.H A) (m : M A) : Prop :=
  forall s n,
    mh (HostErrors.mkHost s [] n)
    = (fst (m s), HostErrors.mkHost (snd (m s)) [] n).

(** * Properties *)

(** ** The monad and the primitives *)

Ltac munfold :=
  unfold mbind, M_bind, mret, M_ret, throw, panic, out_of_fuel, attempt,
    GetState, PutState, DelState in *.

Lemma len_app {A : Type} (l1 l2 : list A) : len (l1 ++ l2) = len l1 + len l2.
Proof. unfold len. rewrite length_app. lia. Qed.

Lemma len_cons {A : Type} (a : A) (l : list A) : len (a :: l) = 1 + len l.
Proof. unfold len. cbn [length]. lia. Qed.

Lemma len_nonneg {A : Type} (l : list A) : 0 <= len l.
Proof. unfold len. lia. Qed.

Lemma index_lookup {A : Type} (l : list A) (n : nat) (a : A) :
  l !! n = Some a -> index l (Z.of_nat n) = mret a.
Proof.
  intros H. unfold index.
  pose proof (lookup_lt_Some _ _ _ H) as Hlt.
  replace (0 <=? Z.of_nat n) with true by (symmetry; apply Z.leb_le; lia).
  replace (Z.of_nat n <? len l) with true
    by (symmetry; apply Z.ltb_lt; unfold len; lia).
  cbn. rewrite Nat2Z.id, H. reflexivity.
Qed.

Lemma index_middle {A : Type} (P R : list A) (a : A) :
  index (P ++ a :: R) (len P) = mret a.
Proof.
  unfold len. apply index_lookup.
  rewrite lookup_app_r by lia. rewrite Nat.sub_diag. reflexivity.
Qed.

Lemma splice_middle {A : Type} (P R : list A) (a : A) :
  splice (P ++ a :: R) (len P) = P ++ R.
Proof.
  unfold splice, len.
  replace (Z.to_nat (Z.of_nat (length P) + 1)) with (S (length P)) by lia.
  rewrite Nat2Z.id.
  rewrite take_app_length.
  rewrite drop_app_ge by lia.
  replace (S (length P) - length P)%nat with 1%nat by lia.
  reflexivity.
Qed.

(** ** [findBet4Trade] only reads *)

Section FindBet.
Context `{L : GoLib}.

Lemma findBet4Trade_range_cases (s : stub) (rng : list string)
    (user color : string) (size : Z) :
  (exists b, findBet4Trade_range rng user color size s = (Ok b, s))
  \/ findBet4Trade_range rng user color size s
     = (Err "Did not find bet to use in this trade", s).
Proof.
  induction rng as [|name rng IH]; cbn [findBet4Trade_range].
  - right. reflexivity.
  - munfold.
    destruct (bet_matches _ user color size); [left; eauto | exact IH].
Qed.

Lemma findBet4Trade_cases (s : stub) (user color : string) (size : Z) :
  (exists b, findBet4Trade user color size s = (Ok b, s))
  \/ findBet4Trade user color size s
     = (Err "Did not find bet to use in this trade", s).
Proof.
  unfold findBet4Trade. munfold. apply findBet4Trade_range_cases.
Qed.

Lemma attempt_findBet4Trade (s : stub) (user : string) (d : Description.t) :
  exists r,
    attempt (findBet4Trade user (Description.Color d) (Description.Size d)) s
      = (Ok r, s)
    /\ (if resolves s user d then exists b, r = inl b else exists e, r = inr e).
Proof.
  unfold resolves, attempt.
  destruct (findBet4Trade_cases s user (Description.Color d) (Description.Size d))
    as [[b ->] | ->]; eauto.
Qed.

(** The lookup depends on the ledger only through the index record and
    the records the index names. *)
Lemma findBet4Trade_range_agree (s s' : stub) (rng : list string)
    (user color : string) (size : Z) :
  (forall name, In name rng -> ledger s' !! name = ledger s !! name) ->
  fst (findBet4Trade_range rng user color size s')
  = fst (findBet4Trade_range rng user color size s).
Proof.
  induction rng as [|name rng IH]; intros Hag; cbn [findBet4Trade_range].
  - reflexivity.
  - munfold. rewrite (Hag name) by (left; reflexivity).
    destruct (bet_matches _ user color size); [reflexivity |].
    apply IH. intros n Hn. apply Hag. right. exact Hn.
Qed.

Lemma resolves_agree (s s' : stub) (user : string) (d : Description.t) :
  ledger s' !! betIndexStr = ledger s !! betIndexStr ->
  (forall name, In name (bet_index s) -> ledger s' !! name = ledger s !! name) ->
  resolves s' user d = resolves s user d.
Proof.
  intros Hidx Hag. unfold resolves.
  assert (fst (findBet4Trade user (Description.Color d) (Description.Size d) s')
          = fst (findBet4Trade user (Description.Color d) (Description.Size d) s))
    as Hfst.
  { unfold findBet4Trade. munfold. rewrite Hidx.
    apply findBet4Trade_range_agree. exact Hag. }
  destruct (findBet4Trade _ _ _ s') as [r' t'], (findBet4Trade _ _ _ s) as [r t].
  cbn in Hfst. subst r'. reflexivity.
Qed.

End FindBet.

(** ** The loops of [cleanTrades] are stable filters *)

Ltac len_solve :=
  rewrite ?Z.geb_leb;
  first [apply Z.ltb_lt | apply Z.ltb_ge | apply Z.leb_le | apply Z.leb_gt | idtac];
  rewrite ?len_app, ?len_cons; unfold len; cbn [length]; lia.

Section CleanTrades.
Context `{L : GoLib}.

(** The inner loop started at position [len P] of [P ++ R] keeps [P],
    filters [R], and sets [didWork] when it dropped something. *)
Lemma cleanTrades_options_filter (s : stub) (user : string)
    (R : list Description.t) :
  forall (P : list Description.t) (fuel : nat) (didWork : bool),
    (length R < fuel)%nat ->
    cleanTrades_options fuel user (P ++ R) (len P) didWork s
    = (Ok (P ++ List.filter (resolves s user) R,
           didWork || negb (forallb (resolves s user) R)), s).
Proof.
  induction R as [|d R IH]; intros P fuel didWork Hfuel;
    (destruct fuel as [|fuel]; [cbn in Hfuel; lia |]);
    cbn [cleanTrades_options].
  - rewrite app_nil_r, Z.ltb_irrefl. cbn. rewrite app_nil_r, orb_false_r. reflexivity.
  - replace (len P <? len (P ++ d :: R)) with true
      by (symmetry; len_solve).
    rewrite index_middle.
    destruct (attempt_findBet4Trade s user d) as (r & Hr & Hres).
    unfold mbind at 1, M_bind at 1, mret at 1, M_ret at 1.
    unfold mbind at 1, M_bind at 1. rewrite Hr.
    cbn [List.filter forallb].
    destruct (resolves s user d).
    + destruct Hres as [b ->]. cbn [negb andb].
      destruct R as [|d' R].
      * replace (len P + 1 >=? len (P ++ [d])) with true
          by (symmetry; len_solve).
        cbn. rewrite orb_false_r. reflexivity.
      * replace (len P + 1 >=? len (P ++ d :: d' :: R)) with false
          by (symmetry; len_solve).
        replace (len P + 1) with (len (P ++ [d]))
          by len_solve.
        replace (P ++ d :: d' :: R) with ((P ++ [d]) ++ d' :: R)
          by (rewrite <- app_assoc; reflexivity).
        rewrite IH by (cbn in *; lia).
        rewrite <- app_assoc. reflexivity.
    + destruct Hres as [e ->]. cbn [negb andb].
      rewrite splice_middle.
      replace (len P - 1 + 1) with (len P) by lia.
      rewrite orb_true_r.
      destruct R as [|d' R].
      * rewrite app_nil_r.
        replace (len P >=? len P) with true
          by (symmetry; len_solve).
        cbn. rewrite app_nil_r. reflexivity.
      * replace (len P >=? len (P ++ d' :: R)) with false
          by (symmetry; len_solve).
        rewrite IH by (cbn in *; lia).
        reflexivity.
Qed.

Lemma cleanTrades_options_whole (s : stub) (user : string)
    (W : list Description.t) (didWork : bool) :
  cleanTrades_options (S (length W)) user W 0 didWork s
  = (Ok (List.filter (resolves s user) W,
         didWork || negb (forallb (resolves s user) W)), s).
Proof.
  exact (cleanTrades_options_filter s user W [] (S (length W)) didWork
           (Nat.lt_succ_diag_r _)).
Qed.

Lemma insert_middle {A : Type} (P R : list A) (a b : A) :
  <[Z.to_nat (len P) := b]> (P ++ a :: R) = P ++ b :: R.
Proof.
  unfold len. rewrite Nat2Z.id.
  replace (length P) with (length P + 0)%nat at 1 by lia.
  rewrite insert_app_r. reflexivity.
Qed.

Lemma filter_empty_unsettled (s : stub) (o : AnOpenTrade.t) :
  len (List.filter (resolves s (AnOpenTrade.User o)) (AnOpenTrade.Willing o)) = 0 ->
  settled s o = false.
Proof.
  unfold settled, has_offers.
  destruct (AnOpenTrade.Willing o) as [|d W]; [intros _; apply andb_false_r |].
  cbn [List.filter forallb].
  destruct (resolves s (AnOpenTrade.User o) d); [| reflexivity].
  rewrite len_cons. pose proof (len_nonneg (List.filter (resolves s (AnOpenTrade.User o)) W)).
  lia.
Qed.

Lemma filter_nonempty_offers (s : stub) (o : AnOpenTrade.t) :
  len (List.filter (resolves s (AnOpenTrade.User o)) (AnOpenTrade.Willing o)) <> 0 ->
  has_offers o = true.
Proof.
  unfold has_offers.
  destruct (AnOpenTrade.Willing o) as [|d W]; [intros H; exfalso; apply H; reflexivity |].
  intros _. rewrite len_cons. pose proof (len_nonneg W).
  apply negb_true_iff, Z.eqb_neq. lia.
Qed.

(** The outer loop started at position [len P] of [P ++ R] keeps [P]
    and reconciles [R] as the specification says. *)
Lemma cleanTrades_trades_filter (s : stub) (R : list AnOpenTrade.t) :
  forall (P : list AnOpenTrade.t) (fuel : nat) (didWork : bool),
    (length R < fuel)%nat ->
    cleanTrades_trades fuel (P ++ R) (len P) didWork s
    = (Ok (P ++ reconcile_spec s R, didWork || negb (book_settled s R)), s).
Proof.
  unfold reconcile_spec, book_settled.
  induction R as [|o R IH]; intros P fuel didWork Hfuel;
    (destruct fuel as [|fuel]; [cbn in Hfuel; lia |]);
    cbn [cleanTrades_trades].
  - rewrite app_nil_r, Z.ltb_irrefl. cbn. rewrite app_nil_r, orb_false_r. reflexivity.
  - replace (len P <? len (P ++ o :: R)) with true by (symmetry; len_solve).
    rewrite index_middle.
    unfold mbind at 1, M_bind at 1, mret at 1, M_ret at 1.
    unfold mbind at 1, M_bind at 1.
    rewrite cleanTrades_options_whole.
    rewrite insert_middle.
    cbn [List.map List.filter forallb].
    set (W' := List.filter (resolves s (AnOpenTrade.User o)) (AnOpenTrade.Willing o)).
    assert (has_offers (prune_offers s o) = negb (len W' =? 0)) as Hho by reflexivity.
    rewrite Hho.
    destruct (len W' =? 0) eqn:HW'.
    + apply Z.eqb_eq in HW'.
      rewrite (filter_empty_unsettled s o HW').
      cbn [negb andb]. rewrite orb_true_r.
      rewrite splice_middle.
      replace (len P - 1 + 1) with (len P) by lia.
      destruct R as [|o' R].
      * rewrite app_nil_r.
        replace (len P >=? len P) with true by (symmetry; len_solve).
        cbn. rewrite app_nil_r. reflexivity.
      * replace (len P >=? len (P ++ o' :: R)) with false by (symmetry; len_solve).
        rewrite IH by (cbn in *; lia).
        reflexivity.
    + apply Z.eqb_neq in HW'.
      unfold settled at 1. fold W'.
      rewrite (filter_nonempty_offers s o HW'), andb_true_r.
      cbn [negb].
      change (AnOpenTrade.set_Willing o W') with (prune_offers s o).
      destruct R as [|o' R].
      * replace (len P + 1 >=? len (P ++ [prune_offers s o])) with true
          by (symmetry; len_solve).
        cbn. rewrite andb_true_r. reflexivity.
      * replace (len P + 1 >=? len (P ++ prune_offers s o :: o' :: R)) with false
          by (symmetry; len_solve).
        replace (len P + 1) with (len (P ++ [prune_offers s o])) by len_solve.
        replace (P ++ prune_offers s o :: o' :: R)
          with ((P ++ [prune_offers s o]) ++ o' :: R)
          by (rewrite <- app_assoc; reflexivity).
        rewrite IH by (cbn in *; lia).
        rewrite <- app_assoc. cbn [app].
        rewrite negb_andb, orb_assoc. reflexivity.
Qed.

End CleanTrades.

(** ** What [cleanTrades] leaves behind *)

Section Reconcile.
Context `{L : GoLib}.

Lemma cleanTrades_scan_spec (s : stub) :
  cleanTrades_scan s
  = (Ok (reconcile_spec s (order_book s),
         negb (book_settled s (order_book s))), s).
Proof.
  unfold cleanTrades_scan, order_book.
  unfold mbind, M_bind, GetState.
  exact (cleanTrades_trades_filter s _ [] _ false (Nat.lt_succ_diag_r _)).
Qed.

Lemma cleanTrades_spec (s : stub) :
  cleanTrades s
  = (Ok tt,
     if book_settled s (order_book s) then s
     else put openTradesStr
            (MarshalTrades (AllTrades.mk (reconcile_spec s (order_book s)))) s).
Proof.
  unfold cleanTrades. unfold mbind at 1, M_bind at 1.
  rewrite cleanTrades_scan_spec.
  destruct (book_settled s (order_book s)); reflexivity.
Qed.

Lemma filter_forallb {A : Type} (f : A -> bool) (l : list A) :
  forallb f (List.filter f l) = true.
Proof.
  induction l as [|a l IH]; [reflexivity |].
  cbn. destruct (f a) eqn:Ha; cbn; rewrite ?Ha; exact IH.
Qed.

Lemma filter_id_forallb {A : Type} (f : A -> bool) (l : list A) :
  List.filter f l = l -> forallb f l = true.
Proof.
  intros H. rewrite <- H. apply filter_forallb.
Qed.

Lemma forallb_filter_same {A : Type} (f : A -> bool) (l : list A) :
  forallb f l = true -> List.filter f l = l.
Proof.
  induction l as [|a l IH]; [reflexivity |].
  cbn. intros [Ha Hl]%andb_true_iff. rewrite Ha, IH by exact Hl. reflexivity.
Qed.

Lemma forallb_pointwise {A : Type} (f g : A -> bool) (l : list A) :
  (forall a, f a = g a) -> forallb f l = forallb g l.
Proof.
  intros Hfg. induction l as [|a l IH]; [reflexivity |].
  cbn. rewrite Hfg, IH. reflexivity.
Qed.

(** Every order of the reconciled book is settled. *)
Lemma reconcile_spec_settled (s : stub) (T : list AnOpenTrade.t) :
  book_settled s (reconcile_spec s T) = true.
Proof.
  unfold book_settled, reconcile_spec.
  induction T as [|o T IH]; [reflexivity |].
  cbn [List.map List.filter].
  destruct (has_offers (prune_offers s o)) eqn:Ho; [| exact IH].
  cbn [forallb]. rewrite IH, andb_true_r.
  unfold settled. rewrite Ho, andb_true_r.
  apply filter_forallb.
Qed.

Lemma settled_prune_id (s : stub) (o : AnOpenTrade.t) :
  settled s o = true -> prune_offers s o = o.
Proof.
  unfold settled, prune_offers. intros [Hall _]%andb_true_iff.
  rewrite (forallb_filter_same _ _ Hall). destruct o; reflexivity.
Qed.

(** A settled book is a fixed point: nothing is removed. *)
Lemma settled_reconcile_id (s : stub) (T : list AnOpenTrade.t) :
  book_settled s T = true -> reconcile_spec s T = T.
Proof.
  unfold book_settled, reconcile_spec.
  induction T as [|o T IH]; [reflexivity |].
  cbn [forallb List.map List.filter]. intros [Ho HT]%andb_true_iff.
  rewrite (settled_prune_id s o Ho), IH by exact HT.
  unfold settled in Ho. apply andb_true_iff in Ho as [_ ->]. reflexivity.
Qed.

(** Conversely, if nothing is removed the book was settled. *)
Lemma reconcile_id_settled (s : stub) (T : list AnOpenTrade.t) :
  reconcile_spec s T = T -> book_settled s T = true.
Proof.
  intros H. rewrite <- H. apply reconcile_spec_settled.
Qed.

Lemma settled_In (s : stub) (T : list AnOpenTrade.t) :
  book_settled s T = true ->
  forall o, In o T ->
    AnOpenTrade.Willing o <> []
    /\ forall d, In d (AnOpenTrade.Willing o) ->
         exists b, findBet4Trade (AnOpenTrade.User o) (Description.Color d)
                     (Description.Size d) s = (Ok b, s).
Proof.
  unfold book_settled. rewrite forallb_forall. intros Hall o Ho.
  specialize (Hall o Ho). unfold settled in Hall.
  apply andb_true_iff in Hall as [Hres Hoff]. split.
  - unfold has_offers in Hoff. intros Hnil. rewrite Hnil in Hoff. discriminate.
  - rewrite forallb_forall in Hres. intros d Hd. specialize (Hres d Hd).
    unfold resolves in Hres.
    destruct (findBet4Trade_cases s (AnOpenTrade.User o) (Description.Color d)
                (Description.Size d)) as [[b Hb] | He].
    + eauto.
    + rewrite He in Hres. discriminate.
Qed.

(** Rewriting the book record does not disturb the inventory when the
    reserved key is not listed as a bet. *)
Lemma resolves_put_book (s : stub) (v : bytes) (user : string) (d : Description.t) :
  ~ In openTradesStr (bet_index s) ->
  resolves (put openTradesStr v s) user d = resolves s user d.
Proof.
  intros Hres. apply resolves_agree; cbn [put ledger].
  - apply lookup_insert_ne. discriminate.
  - intros name Hname. apply lookup_insert_ne. intros <-. contradiction.
Qed.

Lemma book_settled_put_book (s : stub) (v : bytes) (T : list AnOpenTrade.t) :
  ~ In openTradesStr (bet_index s) ->
  book_settled (put openTradesStr v s) T = book_settled s T.
Proof.
  intros Hres. unfold book_settled, settled.
  induction T as [|o T IH]; [reflexivity |].
  cbn [forallb]. rewrite IH. f_equal. f_equal.
  apply forallb_pointwise. intros d. apply resolves_put_book. exact Hres.
Qed.

Lemma order_book_put (s : stub) (v : bytes) :
  order_book (put openTradesStr v s) = AllTrades.OpenTrades (UnmarshalTrades v).
Proof.
  unfold order_book, put. cbn [ledger]. rewrite lookup_insert_eq. reflexivity.
Qed.

End Reconcile.

(** ** Reconciliation: the claims *)

Section ReconcileClaims.
Context `{L : GoLib}.

(** C3. After [cleanTrades] returns, the book is the stable filter of
    the book it read: each offer was tested once against the
    inventory and kept exactly when [findBet4Trade] found a bet, each
    order was kept exactly when an offer was left; the loops end
    without a panic.  Every order left has an offer, and every offer
    left resolves.  Only the book record can have been written; when
    the book key is not listed as a bet and the pruned book survives
    a marshal/unmarshal round trip, the same holds of the book and the
    inventory as read back from the ledger afterwards. *)
Theorem cleanTrades_postcondition (s : stub) :
  cleanTrades_scan s
  = (Ok (reconcile_spec s (order_book s),
         negb (book_settled s (order_book s))), s)
  /\ book_settled s (reconcile_spec s (order_book s)) = true
  /\ exists s',
       cleanTrades s = (Ok tt, s')
       /\ (forall key, key <> openTradesStr -> ledger s' !! key = ledger s !! key)
       /\ (~ In openTradesStr (bet_index s) ->
           UnmarshalTrades
             (MarshalTrades (AllTrades.mk (reconcile_spec s (order_book s))))
           = AllTrades.mk (reconcile_spec s (order_book s)) ->
           order_book s' = reconcile_spec s (order_book s)
           /\ forall o, In o (order_book s') ->
                AnOpenTrade.Willing o <> []
                /\ forall d, In d (AnOpenTrade.Willing o) ->
                     exists b,
                       findBet4Trade (AnOpenTrade.User o) (Description.Color d)
                         (Description.Size d) s' = (Ok b, s')).
Proof.
  split; [apply cleanTrades_scan_spec |].
  split; [apply reconcile_spec_settled |].
  eexists. split; [apply cleanTrades_spec |].
  destruct (book_settled s (order_book s)) eqn:Hset.
  - split; [reflexivity |]. intros _ _.
    rewrite (settled_reconcile_id s _ Hset).
    split; [reflexivity |]. apply settled_In. exact Hset.
  - split.
    + intros key Hkey. cbn [put ledger]. apply lookup_insert_ne. congruence.
    + intros Hres Hcodec.
      rewrite order_book_put, Hcodec. cbn [AllTrades.OpenTrades].
      split; [reflexivity |].
      apply settled_In. rewrite book_settled_put_book by exact Hres.
      apply reconcile_spec_settled.
Qed.

(** C6. [cleanTrades] writes the book record exactly when the pass
    removed an offer or an order, and then it writes nothing else; and
    a second call right after the first removes nothing and issues no
    write (given, as for C3, that the book key is not listed as a bet
    and the pruned book survives the round trip through JSON). *)
Theorem cleanTrades_writes_iff_removed (s : stub) :
  exists s',
    cleanTrades s = (Ok tt, s')
    /\ ((reconcile_spec s (order_book s) = order_book s /\ s' = s)
        \/ (reconcile_spec s (order_book s) <> order_book s
            /\ s' = put openTradesStr
                      (MarshalTrades
                         (AllTrades.mk (reconcile_spec s (order_book s)))) s))
    /\ (~ In openTradesStr (bet_index s) ->
        UnmarshalTrades
          (MarshalTrades (AllTrades.mk (reconcile_spec s (order_book s))))
        = AllTrades.mk (reconcile_spec s (order_book s)) ->
        reconcile_spec s' (order_book s') = order_book s'
        /\ cleanTrades s' = (Ok tt, s')).
Proof.
  eexists. split; [apply cleanTrades_spec |].
  destruct (book_settled s (order_book s)) eqn:Hset.
  - split.
    + left. split; [apply settled_reconcile_id; exact Hset | reflexivity].
    + intros _ _. split; [apply settled_reconcile_id; exact Hset |].
      rewrite cleanTrades_spec, Hset. reflexivity.
  - split.
    + right. split; [| reflexivity].
      intros Hid. apply reconcile_id_settled in Hid. congruence.
    + intros Hres Hcodec.
      assert (book_settled
                (put openTradesStr
                   (MarshalTrades (AllTrades.mk (reconcile_spec s (order_book s)))) s)
                (order_book
                   (put openTradesStr
                      (MarshalTrades (AllTrades.mk (reconcile_spec s (order_book s)))) s))
              = true) as Hset'.
      { rewrite order_book_put, Hcodec. cbn [AllTrades.OpenTrades].
        rewrite book_settled_put_book by exact Hres.
        apply reconcile_spec_settled. }
      split; [apply settled_reconcile_id; exact Hset' |].
      rewrite cleanTrades_spec, Hset'. reflexivity.
Qed.

End ReconcileClaims.

Lemma cleanTrades_postcondition_witness :
  exists s',
    cleanTrades stale_book = (Ok tt, s')
    /\ order_book s' = reconcile_spec stale_book (order_book stale_book)
    /\ order_book s'
       = [AnOpenTrade.mk "2" 1000 (Description.mk "blue" 10)
            [Description.mk "red" 5]].
Proof.
  destruct (cleanTrades_postcondition stale_book)
    as (_ & _ & s' & Hrun & _ & Hpost).
  exists s'. split; [exact Hrun |].
  destruct Hpost as [Hbook _].
  - vm_compute. intros [H | [H | []]]; discriminate H.
  - vm_compute. reflexivity.
  - split; [exact Hbook |]. rewrite Hbook. vm_compute. reflexivity.
Defined.

Lemma cleanTrades_writes_iff_removed_witness :
  exists s',
    cleanTrades stale_book = (Ok tt, s')
    /\ writes s' <> writes stale_book
    /\ cleanTrades s' = (Ok tt, s').
Proof.
  destruct (cleanTrades_writes_iff_removed stale_book)
    as (s' & Hrun & Hiff & Hidem).
  exists s'. split; [exact Hrun |]. split.
  - destruct Hiff as [[Hsame _] | [_ ->]].
    + vm_compute in Hsame. discriminate Hsame.
    + cbn [put writes]. intros Heq.
      apply (f_equal (@length write)) in Heq. rewrite length_app in Heq.
      cbn in Heq. lia.
  - apply Hidem.
    + vm_compute. intros [H | [H | []]]; discriminate H.
    + vm_compute. reflexivity.
Defined.

(** ** [perform_trade]: the silent paths *)

Section PerformTrade.
Context `{L : GoLib}.

Lemma index_nat {A : Type} (l : list A) (n : nat) (i : Z) (a : A) :
  i = Z.of_nat n -> l !! n = Some a -> index l i = mret a.
Proof. intros ->. apply index_lookup. Qed.

(** The range loop leaves the stub alone when every order carrying the
    requested id is one the closer's bet satisfies and for which the
    opener has no bet of the requested shape. *)
Lemma perform_trade_range_noop (s : stub) (args : list string)
    (a2 a4 : string) (timestamp size : Z) (T : list AnOpenTrade.t) :
  args !! 2%nat = Some a2 ->
  args !! 4%nat = Some a4 ->
  (forall o, In o T -> AnOpenTrade.Timestamp o = timestamp ->
     requirements_unmet (bet_at s a2) (AnOpenTrade.Want o) = false
     /\ resolves s (AnOpenTrade.User o) (Description.mk a4 size) = false) ->
  forall (n i : nat),
    (i + n = length T)%nat ->
    perform_trade_range args timestamp size n (Z.of_nat i) T s = (Ok tt, s).
Proof.
  intros Ha2 Ha4 Hall n. induction n as [|n IH]; intros i Hlen;
    cbn [perform_trade_range]; [reflexivity |].
  destruct (lookup_lt_is_Some_2 T i ltac:(lia)) as [ti Hti].
  rewrite (index_lookup _ _ _ Hti).
  unfold mbind at 1, M_bind at 1, mret at 1, M_ret at 1.
  replace (Z.of_nat i + 1) with (Z.of_nat (S i)) by lia.
  destruct (AnOpenTrade.Timestamp ti =? timestamp) eqn:Hts;
    [| apply IH; lia].
  apply Z.eqb_eq in Hts.
  destruct (Hall ti (proj1 (list_elem_of_In _ _) (list_elem_of_lookup_2 _ _ _ Hti)) Hts)
    as [Hmeet Hnone].
  rewrite (index_nat args 2 2 a2 eq_refl Ha2).
  unfold mbind at 1, M_bind at 1, mret at 1, M_ret at 1.
  unfold mbind at 1, M_bind at 1, GetState at 1.
  fold (bet_at s a2). rewrite Hmeet.
  rewrite (index_nat args 4 4 a4 eq_refl Ha4).
  unfold mbind at 1, M_bind at 1, mret at 1, M_ret at 1.
  destruct (attempt_findBet4Trade s (AnOpenTrade.User ti) (Description.mk a4 size))
    as (r & Hr & Hres).
  cbn [Description.Color Description.Size] in Hr.
  unfold mbind at 1, M_bind at 1. rewrite Hr.
  rewrite Hnone in Hres. destruct Hres as [e ->].
  apply IH. lia.
Qed.

(** C4. A [perform_trade] with well-formed arguments returns success
    and leaves the whole stub (bets, index, book, write log) as it was
    whenever every open order with the cited id - there may be none -
    is one whose wanted description the closer's bet meets and whose
    creator owns no bet of the requested colour and size.  In
    particular such an order stays in the book. *)
Theorem perform_trade_silent_noop (s : stub)
    (a0 a1 a2 a3 a4 a5 : string) (rest : list string) (timestamp size : Z) :
  ParseInt a0 = Some timestamp ->
  Atoi a5 = Some size ->
  (forall o, In o (order_book s) -> AnOpenTrade.Timestamp o = timestamp ->
     requirements_unmet (bet_at s a2) (AnOpenTrade.Want o) = false
     /\ resolves s (AnOpenTrade.User o) (Description.mk a4 size) = false) ->
  perform_trade (a0 :: a1 :: a2 :: a3 :: a4 :: a5 :: rest) s = (Ok "", s).
Proof.
  intros Hts Hsize Hall. unfold perform_trade.
  replace (len (a0 :: a1 :: a2 :: a3 :: a4 :: a5 :: rest) <? 6) with false
    by (symmetry; len_solve).
  set (args := a0 :: a1 :: a2 :: a3 :: a4 :: a5 :: rest).
  rewrite (index_nat args 0 0 a0 eq_refl eq_refl).
  unfold mbind at 1, M_bind at 1, mret at 1, M_ret at 1. rewrite Hts.
  rewrite (index_nat args 5 5 a5 eq_refl eq_refl).
  unfold mbind at 1, M_bind at 1, mret at 1, M_ret at 1. rewrite Hsize.
  unfold mbind at 1, M_bind at 1, GetState at 1.
  unfold mbind at 1, M_bind at 1.
  fold (order_book s).
  pose proof (perform_trade_range_noop s args a2 a4 timestamp size (order_book s)
                eq_refl eq_refl Hall (length (order_book s)) 0 eq_refl) as Hloop.
  change (Z.of_nat 0) with 0 in Hloop. rewrite Hloop.
  reflexivity.
Qed.

End PerformTrade.

Lemma perform_trade_silent_noop_witness :
  perform_trade ["1234567"; "1"; "A"; "2"; "green"; "7"] one_order
  = (Ok "", one_order)
  /\ perform_trade ["42"; "1"; "A"; "2"; "red"; "5"] one_order
     = (Ok "", one_order).
Proof.
  split.
  - apply (perform_trade_silent_noop one_order "1234567" "1" "A" "2" "green" "7"
             [] 1234567 7); [reflexivity | reflexivity |].
    intros o Hin _. vm_compute in Hin. destruct Hin as [<- | []].
    vm_compute. split; reflexivity.
  - apply (perform_trade_silent_noop one_order "42" "1" "A" "2" "red" "5"
             [] 42 5); [reflexivity | reflexivity |].
    intros o Hin Hts. vm_compute in Hin. destruct Hin as [<- | []].
    vm_compute in Hts. discriminate Hts.
Defined.

(** ** Errors and the writes issued before them *)

Section Errors.
Context `{L : GoLib}.












(** *** [open_trade] *)

Lemma only_debug_writes_refl (s : stub) : only_debug_writes s s.
Proof.
  split; [reflexivity |]. exists []. rewrite app_nil_r. split; reflexivity.
Qed.

Lemma only_debug_writes_trans (s1 s2 s3 : stub) :
  only_debug_writes s1 s2 -> only_debug_writes s2 s3 -> only_debug_writes s1 s3.
Proof.
  intros [Hl1 (w1 & Hw1 & Hd1)] [Hl2 (w2 & Hw2 & Hd2)]. split.
  - intros key H1 H2. rewrite Hl2, Hl1 by assumption. reflexivity.
  - exists (w1 ++ w2). rewrite Hw2, Hw1, <- app_assoc. split; [reflexivity |].
    rewrite forallb_app, Hd1, Hd2. reflexivity.
Qed.

Lemma only_debug_writes_put (s : stub) (key : string) (v : bytes) :
  debug_write (Put key v) = true -> only_debug_writes s (put key v s).
Proof.
  intros Hd. split.
  - intros k H1 H2. cbn [put ledger]. apply lookup_insert_ne.
    cbn in Hd. apply orb_true_iff in Hd as [Hd | Hd];
      apply String.eqb_eq in Hd; congruence.
  - exists [Put key v]. split; [reflexivity |]. cbn [forallb]. rewrite Hd. reflexivity.
Qed.



(** *** [perform_trade] *)

Lemma set_user_pair (a b : string) (s : stub) :
  set_user [a; b] s
  = (Ok "", put a (MarshalBet (Bet.set_User (bet_at s a) b)) s).
Proof. reflexivity. Qed.

Lemma NoDup_map_lookup {A B : Type} (f : A -> B) (l : list A) :
  List.NoDup (List.map f l) ->
  forall (i j : nat) (a b : A),
    l !! i = Some a -> l !! j = Some b -> f a = f b -> i = j.
Proof.
  induction l as [|x l IH]; intros Hnd i j a b Hi Hj Hf; [discriminate |].
  cbn [List.map] in Hnd. apply NoDup_cons_iff in Hnd as [Hx Hnd].
  destruct i as [|i], j as [|j]; cbn in Hi, Hj.
  - reflexivity.
  - exfalso. apply Hx. injection Hi as ->. rewrite Hf.
    apply in_map, list_elem_of_In. eapply list_elem_of_lookup_2. exact Hj.
  - exfalso. apply Hx. injection Hj as ->. rewrite <- Hf.
    apply in_map, list_elem_of_In. eapply list_elem_of_lookup_2. exact Hi.
  - f_equal. exact (IH Hnd i j a b Hi Hj Hf).
Qed.

Lemma splice_lookup_after {A : Type} (l : list A) (i j : nat) :
  (i < length l)%nat -> (i <= j)%nat ->
  splice l (Z.of_nat i) !! j = l !! S j.
Proof.
  intros Hi Hj. unfold splice.
  replace (Z.to_nat (Z.of_nat i + 1)) with (S i) by lia.
  rewrite Nat2Z.id.
  rewrite lookup_app_r by (rewrite length_take; lia).
  rewrite length_take, lookup_drop. f_equal. lia.
Qed.




End Errors.




(** Why [perform_trade] needs distinct ids above: with a repeated id the
    loop goes on after the swap and can report a mismatch for the second
    order, the swap's writes already issued. *)
Example perform_trade_error_after_writes :
  fst (perform_trade ["1000"; "1"; "A"; "2"; "red"; "5"] duplicate_ids)
  = Err "bet in input does not meet trade requriements"
  /\ length (writes (after (perform_trade ["1000"; "1"; "A"; "2"; "red"; "5"])
                       duplicate_ids))
     = (length (writes duplicate_ids) + 3)%nat.
Proof. split; vm_compute; reflexivity. Qed.

(** ** The item repository *)

Section Items.
Context `{L : GoLib}.

(** C8. [set_user] never checks that the bet exists: on every ledger
    it succeeds and rewrites the record under [name] with the new
    owner.  When nothing is stored under [name] (and decoding no bytes
    leaves the zero [Bet], as [json.Unmarshal] does), the record
    written has an empty name, an empty colour, size 0 and the
    requested owner. *)
Theorem set_user_no_validation (name newOwner : string) (rest : list string)
    (s : stub) :
  ledger s !! name = None ->
  UnmarshalBet "" = Bet.zero ->
  set_user (name :: newOwner :: rest) s
  = (Ok "", put name (MarshalBet (Bet.mk "" "" 0 newOwner)) s)
  /\ forall s0 : stub,
       set_user (name :: newOwner :: rest) s0
       = (Ok "", put name (MarshalBet (Bet.set_User (bet_at s0 name) newOwner)) s0).
Proof.
  intros Habsent Hnil.
  assert (forall s0 : stub,
            set_user (name :: newOwner :: rest) s0
            = (Ok "", put name (MarshalBet (Bet.set_User (bet_at s0 name) newOwner)) s0))
    as Hany.
  { intros s0. unfold set_user.
    replace (len (name :: newOwner :: rest) <? 2) with false by (symmetry; len_solve).
    rewrite (index_nat (name :: newOwner :: rest) 0 0 name eq_refl eq_refl).
    rewrite (index_nat (name :: newOwner :: rest) 1 1 newOwner eq_refl eq_refl).
    reflexivity. }
  split; [| exact Hany].
  rewrite Hany. unfold bet_at. rewrite Habsent. cbn [default]. rewrite Hnil.
  reflexivity.
Qed.

(** C9. The dispatcher's ["write"] stores the value as given under
    the key as given and does nothing else: one [PutState], no check,
    no index update, no reconciliation.  The key may be the index key
    or the book key, after which the index or the book is whatever
    the value decodes to. *)
Theorem Invoke_write_is_raw_put (now : Z) (name value : string) (s : stub) :
  Invoke now "write" [name; value] s = (Ok "", put name value s)
  /\ bet_index (put betIndexStr value s) = UnmarshalIndex value
  /\ order_book (put openTradesStr value s)
     = AllTrades.OpenTrades (UnmarshalTrades value).
Proof.
  split; [reflexivity |]. split.
  - unfold bet_index, put. cbn [ledger]. rewrite lookup_insert_eq. reflexivity.
  - apply order_book_put.
Qed.

(** C10. When the owner argument is not a decimal integer [init_bet]
    returns an argument error and the stub is untouched.  When it is,
    the call either fails without a write or stores, under the name,
    the record text whose ["user"] member is the decimal print of the
    parsed integer, and then the index. *)
Theorem init_bet_owner_is_numeric (name kind quantity owner : string)
    (s : stub) :
  match Atoi owner with
  | None =>
      exists msg,
        init_bet [name; kind; quantity; owner] s = (Err msg, s)
        /\ (msg = "1st argument must be a non-empty string"
            \/ msg = "2nd argument must be a non-empty string"
            \/ msg = "3rd argument must be a non-empty string"
            \/ msg = "4th argument must be a non-empty string"
            \/ msg = "4th argument must be a numeric string, 1 or 2")
  | Some user =>
      (exists msg, init_bet [name; kind; quantity; owner] s = (Err msg, s))
      \/ (exists size,
            Atoi quantity = Some size
            /\ let record := bet_json name (ToLower kind) size user in
               init_bet [name; kind; quantity; owner] s
               = (Ok "",
                  put betIndexStr
                    (MarshalIndex (bet_index (put name record s) ++ [name]))
                    (put name record s)))
  end.
Proof.
  unfold init_bet.
  change (negb (len [name; kind; quantity; owner] =? 4)) with false.
  cbn iota.
  change (index [name; kind; quantity; owner] 0) with (mret (M := M) name).
  change (index [name; kind; quantity; owner] 1) with (mret (M := M) kind).
  change (index [name; kind; quantity; owner] 2) with (mret (M := M) quantity).
  change (index [name; kind; quantity; owner] 3) with (mret (M := M) owner).
  unfold mbind, M_bind, mret, M_ret, throw, GetState, PutState.
  destruct (Atoi owner) as [user|] eqn:Howner.
  - repeat (case_match; try (left; eexists; reflexivity)).
    right. eexists. split; [reflexivity |]. reflexivity.
  - repeat (case_match; try (eexists; split; [reflexivity | tauto])).
Qed.


End Items.

Lemma set_user_no_validation_witness :
  set_user ["ghost"; "bob"] fresh
  = (Ok "", put "ghost" (MarshalBet (Bet.mk "" "" 0 "bob")) fresh).
Proof.
  apply (set_user_no_validation "ghost" "bob" [] fresh).
  - vm_compute. reflexivity.
  - vm_compute. reflexivity.
Defined.


(** The owner ["+007"] is accepted and stored as ["7"]; ["alice"] is not. *)
Example init_bet_owner_examples :
  Bet.User (bet_at (after (init_bet ["C"; "Green"; "3"; "+007"]) fresh) "C") = "7"
  /\ init_bet ["C"; "Green"; "3"; "alice"] fresh
     = (Err "4th argument must be a numeric string, 1 or 2", fresh).
Proof. split; vm_compute; reflexivity. Qed.

(** One ["write"] can leave an index that lists a name twice and names
    no stored bet, and a book with an order that offers nothing. *)
Example write_breaks_the_invariants :
  bet_index (after (Invoke 0 "write" [betIndexStr; MarshalIndex ["ghost"; "ghost"]])
               two_bets)
  = ["ghost"; "ghost"]
  /\ order_book
       (after (Invoke 0 "write"
                 [openTradesStr;
                  MarshalTrades
                    (AllTrades.mk
                       [AnOpenTrade.mk "2" 7 (Description.mk "blue" 10) []])])
          two_bets)
     = [AnOpenTrade.mk "2" 7 (Description.mk "blue" 10) []].
Proof. split; vm_compute; reflexivity. Qed.

(** ** Matching and the swap scenario *)

(** [findBet4Trade] returns a bet only if it passed the test of the
    loop: user and colour equal after lower-casing, size equal. *)
Lemma findBet4Trade_matches `{L : GoLib} (s s' : stub) (user color : string)
    (size : Z) (b : Bet.t) :
  findBet4Trade user color size s = (Ok b, s') ->
  ToLower (Bet.User b) = ToLower user
  /\ ToLower (Bet.Color b) = ToLower color
  /\ Bet.Size b = size.
Proof.
  unfold findBet4Trade. unfold mbind, M_bind, GetState.
  generalize (UnmarshalIndex (default "" (ledger s !! betIndexStr))).
  intros rng. induction rng as [|name rng IH];
    cbn [findBet4Trade_range]; [discriminate |].
  unfold mbind, M_bind, GetState, mret, M_ret.
  destruct (bet_matches (UnmarshalBet (default "" (ledger s !! name)))
              user color size) eqn:Hm; [| exact IH].
  intros [= <- _]. unfold bet_matches in Hm.
  apply andb_true_iff in Hm as [[Hu Hc]%andb_true_iff Hs].
  apply String.eqb_eq in Hu, Hc. apply Z.eqb_eq in Hs. auto.
Qed.

(** C1 at the failing input.  Bet [A] is blue (stored lower-cased by
    [init_bet]); the order wants ["Blue"], size 10.  The two colours are
    equal after lower-casing and the sizes are equal, yet [perform_trade]
    rejects the closer's bet: its test compares the colours as they are.
    [findBet4Trade], on the same ledger, does match ["RED"] with red. *)
Theorem perform_trade_compares_colour_exactly :
  ToLower (Bet.Color (bet_at wants_capital_blue "A")) = ToLower "Blue"
  /\ Bet.Size (bet_at wants_capital_blue "A") = 10
  /\ perform_trade ["1234567"; "1"; "A"; "2"; "red"; "5"] wants_capital_blue
     = (Err "bet in input does not meet trade requriements", wants_capital_blue)
  /\ findBet4Trade "2" "RED" 5 wants_capital_blue
     = (Ok (Bet.mk "B" "red" 5 "2"), wants_capital_blue).
Proof. repeat split; vm_compute; reflexivity. Qed.

(** C2 as stated fails: [init_bet] refuses the owners ["alice"] and
    ["bob"], so neither bet exists and the swap is rejected. *)
Lemma scenario_with_named_owners_fails :
  let s1 := Invoke 0 "init_bet" ["A"; "blue"; "10"; "alice"] fresh in
  let s2 := Invoke 0 "init_bet" ["B"; "red"; "5"; "bob"] (snd s1) in
  let s3 := Invoke 1234567000000 "open_trade" ["bob"; "blue"; "10"; "red"; "5"]
              (snd s2) in
  let s4 := Invoke 0 "perform_trade" ["1234567"; "alice"; "A"; "bob"; "red"; "5"]
              (snd s3) in
  fst s1 = Err "4th argument must be a numeric string, 1 or 2"
  /\ fst s2 = Err "4th argument must be a numeric string, 1 or 2"
  /\ fst s4 = Err "bet in input does not meet trade requriements"
  /\ Bet.User (bet_at (snd s4) "A") <> "bob"
  /\ Bet.User (bet_at (snd s4) "B") <> "alice".
Proof.
  cbv zeta. repeat split; try (vm_compute; reflexivity);
    vm_compute; intros H; discriminate H.
Qed.

(** C2 (as amended): the scenario with the owners written as the
    decimal tags [init_bet] accepts, "1" for alice and "2" for bob.
    Every invocation succeeds; afterwards [A] belongs to 2, [B] to 1 and
    the book is empty. *)
Theorem swap_scenario :
  let s1 := Invoke 0 "init_bet" ["A"; "blue"; "10"; "1"] fresh in
  let s2 := Invoke 0 "init_bet" ["B"; "red"; "5"; "2"] (snd s1) in
  let s3 := Invoke 1234567000000 "open_trade" ["2"; "blue"; "10"; "red"; "5"]
              (snd s2) in
  let s4 := Invoke 0 "perform_trade" ["1234567"; "1"; "A"; "2"; "red"; "5"]
              (snd s3) in
  fst s1 = Ok "" /\ fst s2 = Ok "" /\ fst s3 = Ok "" /\ fst s4 = Ok ""
  /\ bet_at (snd s2) "A" = Bet.mk "A" "blue" 10 "1"
  /\ bet_at (snd s2) "B" = Bet.mk "B" "red" 5 "2"
  /\ order_book (snd s3)
     = [AnOpenTrade.mk "2" 1234567 (Description.mk "blue" 10)
          [Description.mk "red" 5]]
  /\ bet_at (snd s4) "A" = Bet.mk "A" "blue" 10 "2"
  /\ bet_at (snd s4) "B" = Bet.mk "B" "red" 5 "1"
  /\ order_book (snd s4) = [].
Proof. repeat split; vm_compute; reflexivity. Qed.

(** * Further properties of the code *)

(** ** [Delete] *)

Section DeleteProps.
Context `{L : GoLib}.

Lemma Delete_range_remove_first (name : string) (rng : list string) :
  forall P : list string,
    Delete_range name rng (len P) (P ++ rng) = P ++ remove_first name rng.
Proof.
  induction rng as [|val rng IH]; intros P; cbn [Delete_range remove_first].
  - reflexivity.
  - destruct (String.eqb val name).
    + apply splice_middle.
    + replace (len P + 1) with (len (P ++ [val])) by len_solve.
      replace (P ++ val :: rng) with ((P ++ [val]) ++ rng)
        by (rewrite <- app_assoc; reflexivity).
      rewrite IH, <- app_assoc. reflexivity.
Qed.

Lemma Delete_run (name : string) (s : stub) :
  Delete [name] s
  = (Ok "",
     put betIndexStr
       (MarshalIndex (remove_first name (bet_index (del name s))))
       (del name s)).
Proof.
  unfold Delete.
  change (negb (len [name] =? 1)) with false. cbn iota.
  change (index [name] 0) with (mret (M := M) name).
  unfold mbind, M_bind, mret, M_ret, DelState, GetState, PutState.
  cbn [ledger writes].
  pose proof (Delete_range_remove_first name
                (UnmarshalIndex (default "" (delete name (ledger s) !! betIndexStr)))
                []) as Hloop.
  cbn [app] in Hloop. change (len []) with 0 in Hloop. rewrite Hloop.
  reflexivity.
Qed.

Lemma bet_index_put (v : bytes) (s : stub) :
  bet_index (put betIndexStr v s) = UnmarshalIndex v.
Proof.
  unfold bet_index, put. cbn [ledger]. rewrite lookup_insert_eq. reflexivity.
Qed.

Lemma bet_index_del (name : string) (s : stub) :
  name <> betIndexStr -> bet_index (del name s) = bet_index s.
Proof.
  intros Hname. unfold bet_index, del. cbn [ledger].
  rewrite lookup_delete_ne by congruence. reflexivity.
Qed.


(** X1. [Delete] with one argument always succeeds.  It removes the
    record stored under the name and rewrites the index without the
    first entry equal to the name - whether or not there was such a
    record or such an entry - and touches no other key.  (The name is
    not the index key itself, and the new index survives its round trip
    through JSON.) *)
Theorem Delete_removes_record_and_first_entry (name : string) (s : stub) :
  name <> betIndexStr ->
  UnmarshalIndex (MarshalIndex (remove_first name (bet_index s)))
  = remove_first name (bet_index s) ->
  exists s',
    Delete [name] s = (Ok "", s')
    /\ ledger s' !! name = None
    /\ bet_index s' = remove_first name (bet_index s)
    /\ (forall key, key <> name -> key <> betIndexStr ->
          ledger s' !! key = ledger s !! key)
    /\ writes s'
       = writes s
         ++ [Del name;
             Put betIndexStr (MarshalIndex (remove_first name (bet_index s)))].
Proof.
  intros Hname Hcodec.
  eexists. split; [apply Delete_run |].
  rewrite (bet_index_del name s Hname).
  split; [| split; [| split]].
  - cbn [put del ledger]. rewrite lookup_insert_ne by congruence.
    apply lookup_delete_eq.
  - rewrite bet_index_put. exact Hcodec.
  - intros key H1 H2. cbn [put del ledger].
    rewrite lookup_insert_ne by congruence. apply lookup_delete_ne. congruence.
  - cbn [put del writes]. rewrite <- app_assoc. reflexivity.
Qed.


(** X3. [Delete] does not protect the index key: deleting ["_betindex"]
    leaves an empty index, whatever it listed, while every bet record
    stays stored.  (Decoding no bytes gives the empty list, and the
    empty list survives its round trip.) *)
Theorem Delete_of_index_key_empties_index (s : stub) :
  UnmarshalIndex "" = [] ->
  UnmarshalIndex (MarshalIndex []) = [] ->
  exists s',
    Delete [betIndexStr] s = (Ok "", s')
    /\ bet_index s' = []
    /\ forall key, key <> betIndexStr -> ledger s' !! key = ledger s !! key.
Proof.
  intros Hnil Hcodec. eexists. split; [apply Delete_run |].
  assert (bet_index (del betIndexStr s) = []) as Hidx.
  { unfold bet_index, del. cbn [ledger]. rewrite lookup_delete_eq. exact Hnil. }
  rewrite Hidx. cbn [remove_first]. split.
  - rewrite bet_index_put. exact Hcodec.
  - intros key Hkey. cbn [put del ledger].
    rewrite lookup_insert_ne by congruence. apply lookup_delete_ne. congruence.
Qed.

End DeleteProps.

Lemma Delete_removes_record_and_first_entry_witness :
  exists s',
    Delete ["A"] two_bets = (Ok "", s')
    /\ ledger s' !! "A" = None
    /\ bet_index s' = ["B"].
Proof.
  destruct (Delete_removes_record_and_first_entry "A" two_bets)
    as (s' & Hrun & Hgone & Hidx & _).
  - discriminate.
  - vm_compute. reflexivity.
  - exists s'. split; [exact Hrun |]. split; [exact Hgone |].
    rewrite Hidx. vm_compute. reflexivity.
Defined.


Lemma Delete_of_index_key_empties_index_witness :
  exists s',
    Delete [betIndexStr] two_bets = (Ok "", s')
    /\ bet_index s' = []
    /\ ledger s' !! "A" = ledger two_bets !! "A".
Proof.
  destruct (Delete_of_index_key_empties_index two_bets) as (s' & Hrun & Hidx & Hrest).
  - vm_compute. reflexivity.
  - vm_compute. reflexivity.
  - exists s'. split; [exact Hrun |]. split; [exact Hidx |].
    apply Hrest. discriminate.
Defined.

(** ** [remove_trade] *)

Section RemoveTradeProps.
Context `{L : GoLib}.

Lemma remove_trade_range_first (timestamp : Z) (s : stub)
    (R : list AnOpenTrade.t) :
  forall P : list AnOpenTrade.t,
    remove_trade_range timestamp (length R) (len P) (P ++ R) s
    = (Ok tt,
       if existsb (has_id timestamp) R then
         put openTradesStr
           (MarshalTrades (AllTrades.mk (P ++ remove_first_id timestamp R))) s
       else s).
Proof.
  induction R as [|o R IH]; intros P;
    cbn [length remove_trade_range existsb remove_first_id].
  - reflexivity.
  - rewrite index_middle.
    unfold mbind at 1, M_bind at 1, mret at 1, M_ret at 1.
    unfold has_id at 1.
    destruct (AnOpenTrade.Timestamp o =? timestamp); cbn [orb].
    + rewrite splice_middle. reflexivity.
    + replace (len P + 1) with (len (P ++ [o])) by len_solve.
      replace (P ++ o :: R) with ((P ++ [o]) ++ R)
        by (rewrite <- app_assoc; reflexivity).
      rewrite IH, <- app_assoc. reflexivity.
Qed.

(** X4. [remove_trade] with a numeric id always succeeds.  If no open
    order has the id it writes nothing; otherwise it rewrites the book
    without the first order that has the id, keeping the others in
    order (a second order with the same id stays).  Arguments after
    the first are ignored. *)
Theorem remove_trade_removes_first_or_nothing (a0 : string)
    (rest : list string) (timestamp : Z) (s : stub) :
  ParseInt a0 = Some timestamp ->
  remove_trade (a0 :: rest) s
  = (Ok "",
     if existsb (has_id timestamp) (order_book s) then
       put openTradesStr
         (MarshalTrades
            (AllTrades.mk (remove_first_id timestamp (order_book s)))) s
     else s).
Proof.
  intros Hts. unfold remove_trade.
  replace (len (a0 :: rest) <? 1) with false by (symmetry; len_solve).
  rewrite (index_nat (a0 :: rest) 0 0 a0 eq_refl eq_refl).
  unfold mbind at 1, M_bind at 1, mret at 1, M_ret at 1. rewrite Hts.
  unfold mbind at 1, M_bind at 1, GetState at 1.
  unfold mbind at 1, M_bind at 1.
  fold (order_book s).
  pose proof (remove_trade_range_first timestamp s (order_book s) []) as Hloop.
  cbn [app] in Hloop. change (len []) with 0 in Hloop. rewrite Hloop.
  reflexivity.
Qed.

End RemoveTradeProps.

Lemma remove_trade_removes_first_or_nothing_witness :
  order_book (after (remove_trade ["1000"; "ignored"]) duplicate_ids)
  = remove_first_id 1000 (order_book duplicate_ids)
  /\ List.map AnOpenTrade.Timestamp
       (order_book (after (remove_trade ["1000"; "ignored"]) duplicate_ids))
     = [2000; 1000]
  /\ after (remove_trade ["77"]) duplicate_ids = duplicate_ids.
Proof.
  unfold after.
  rewrite (remove_trade_removes_first_or_nothing "1000" ["ignored"] 1000
             duplicate_ids eq_refl).
  rewrite (remove_trade_removes_first_or_nothing "77" [] 77 duplicate_ids eq_refl).
  repeat split; vm_compute; reflexivity.
Defined.

(** ** [findBet4Trade] *)

Section FindProps.
Context `{L : GoLib}.

Lemma findBet4Trade_range_find (s : stub) (user color : string) (size : Z)
    (rng : list string) :
  findBet4Trade_range rng user color size s
  = match List.find (fun name => bet_matches (bet_at s name) user color size) rng with
    | Some name => (Ok (bet_at s name), s)
    | None => (Err "Did not find bet to use in this trade", s)
    end.
Proof.
  induction rng as [|name rng IH]; cbn [findBet4Trade_range List.find].
  - reflexivity.
  - unfold mbind, M_bind, GetState, mret, M_ret. fold (bet_at s name).
    destruct (bet_matches (bet_at s name) user color size); [reflexivity | exact IH].
Qed.

Lemma findBet4Trade_find (s : stub) (user color : string) (size : Z) :
  findBet4Trade user color size s
  = match List.find (fun name => bet_matches (bet_at s name) user color size)
            (bet_index s) with
    | Some name => (Ok (bet_at s name), s)
    | None => (Err "Did not find bet to use in this trade", s)
    end.
Proof.
  unfold findBet4Trade. unfold mbind, M_bind, GetState.
  apply findBet4Trade_range_find.
Qed.

(** X5. [findBet4Trade] succeeds exactly when some name listed in the
    index holds a record that passes the test (user and colour equal
    after lower-casing, size equal); it then returns the record of the
    first such name in index order.  Bets that are stored but not
    listed are never found.  The stub is never changed. *)
Theorem findBet4Trade_first_listed_match (s : stub) (user color : string)
    (size : Z) :
  ((exists pre name post,
      bet_index s = pre ++ name :: post
      /\ (forall n, In n pre -> bet_matches (bet_at s n) user color size = false)
      /\ bet_matches (bet_at s name) user color size = true
      /\ findBet4Trade user color size s = (Ok (bet_at s name), s))
   \/ ((forall n, In n (bet_index s) ->
          bet_matches (bet_at s n) user color size = false)
       /\ findBet4Trade user color size s
          = (Err "Did not find bet to use in this trade", s))).
Proof.
  rewrite findBet4Trade_find.
  induction (bet_index s) as [|n idx IH]; cbn [List.find].
  - right. split; [intros n [] | reflexivity].
  - destruct (bet_matches (bet_at s n) user color size) eqn:Hn.
    + left. exists [], n, idx. split; [reflexivity |].
      split; [intros x [] |]. split; [exact Hn | reflexivity].
    + destruct IH as [(pre & name & post & -> & Hpre & Hm & Hrun) | [Hnone Hrun]].
      * left. exists (n :: pre), name, post. split; [reflexivity |].
        split; [| split; [exact Hm | exact Hrun]].
        intros x [<- | Hx]; [exact Hn | exact (Hpre x Hx)].
      * right. split; [| exact Hrun].
        intros x [<- | Hx]; [exact Hn | exact (Hnone x Hx)].
Qed.

End FindProps.

(** ** [perform_trade]: the swap *)

Section SwapProps.
Context `{L : GoLib}.

Lemma index_beyond {A : Type} (l : list A) (i : nat) (s : stub) :
  (length l <= i)%nat ->
  index l (Z.of_nat i) s = (Panic "index out of range", s).
Proof.
  intros Hi. unfold index.
  replace (Z.of_nat i <? len l) with false
    by (symmetry; apply Z.ltb_ge; unfold len; lia).
  rewrite andb_false_r. reflexivity.
Qed.

Lemma no_id_lookup (timestamp : Z) (T : list AnOpenTrade.t) (j : nat)
    (o : AnOpenTrade.t) :
  existsb (has_id timestamp) T = false ->
  T !! j = Some o -> (AnOpenTrade.Timestamp o =? timestamp) = false.
Proof.
  intros Hno Hj.
  destruct (AnOpenTrade.Timestamp o =? timestamp) eqn:Ho; [| reflexivity].
  assert (existsb (has_id timestamp) T = true) as Hyes.
  { apply existsb_exists. exists o. split; [| exact Ho].
    apply list_elem_of_In. eapply list_elem_of_lookup_2. exact Hj. }
  congruence.
Qed.

(** Past the last order with the id, the loop only walks; it ends well
    if its range ends within the slice and panics otherwise. *)
Lemma perform_trade_range_walk (args : list string) (timestamp size : Z)
    (T : list AnOpenTrade.t) (s : stub) (n : nat) :
  forall i : nat,
    (forall j o, (i <= j)%nat -> T !! j = Some o ->
       (AnOpenTrade.Timestamp o =? timestamp) = false) ->
    perform_trade_range args timestamp size n (Z.of_nat i) T s
    = (if (n =? 0)%nat || (i + n <=? length T)%nat then Ok tt
       else Panic "index out of range", s).
Proof.
  induction n as [|n IH]; intros i Hno; cbn [perform_trade_range].
  - reflexivity.
  - cbn [Nat.eqb orb].
    destruct (le_lt_dec (length T) i) as [Hout | Hin].
    + unfold mbind, M_bind. rewrite (index_beyond T i s Hout).
      replace (i + S n <=? length T)%nat with false
        by (symmetry; apply Nat.leb_gt; lia).
      reflexivity.
    + destruct (lookup_lt_is_Some_2 T i Hin) as [ti Hti].
      rewrite (index_lookup _ _ _ Hti).
      unfold mbind at 1, M_bind at 1, mret at 1, M_ret at 1.
      rewrite (Hno i ti (Nat.le_refl i) Hti).
      replace (Z.of_nat i + 1) with (Z.of_nat (S i)) by lia.
      rewrite IH by (intros j o Hj; apply Hno; lia).
      replace (S i + n <=? length T)%nat with (i + S n <=? length T)%nat
        by (f_equal; lia).
      destruct n as [|n]; [| reflexivity].
      cbn [Nat.eqb orb].
      replace (i + 1 <=? length T)%nat with true
        by (symmetry; apply Nat.leb_le; lia).
      reflexivity.
Qed.

(** Orders before the first one with the id are walked over. *)
Lemma perform_trade_range_skip (args : list string) (timestamp size : Z)
    (X : list AnOpenTrade.t) (s : stub) (m : nat) (P : list AnOpenTrade.t) :
  forall Q : list AnOpenTrade.t,
    existsb (has_id timestamp) P = false ->
    perform_trade_range args timestamp size (length P + m) (len Q)
      (Q ++ P ++ X) s
    = perform_trade_range args timestamp size m (len (Q ++ P))
        (Q ++ P ++ X) s.
Proof.
  induction P as [|o P IH]; intros Q Hno.
  - rewrite app_nil_r. reflexivity.
  - cbn [existsb] in Hno. apply orb_false_iff in Hno as [Ho HP].
    cbn [length Nat.add perform_trade_range app].
    rewrite index_middle.
    unfold mbind at 1, M_bind at 1, mret at 1, M_ret at 1.
    unfold has_id in Ho. rewrite Ho.
    replace (len Q + 1) with (len (Q ++ [o])) by len_solve.
    replace (Q ++ o :: P ++ X) with ((Q ++ [o]) ++ P ++ X)
      by (rewrite <- app_assoc; reflexivity).
    rewrite (IH (Q ++ [o]) HP).
    rewrite <- !app_assoc. reflexivity.
Qed.

(** X6. The swap.  With well-formed arguments, let [o] be the only
    order with the cited id.  If the closer's bet has exactly the
    wanted colour and size and [findBet4Trade] finds a bet of the
    order's creator with the requested colour and size, then
    [perform_trade] rewrites the closer's bet with the creator as
    owner, rewrites the record named by the found bet with the closer
    as owner, and rewrites the book without [o] - whether or not the
    found bet is among the order's offers.  It returns success only if
    [o] was the last order of the book: the loop does not stop after
    the removal, so with any order behind [o] it runs past the end of
    the shortened slice and panics after the three writes. *)
Theorem perform_trade_swaps (s : stub) (a0 a1 a2 a3 a4 a5 : string)
    (rest : list string) (timestamp size : Z)
    (P R : list AnOpenTrade.t) (o : AnOpenTrade.t) (bet : Bet.t) :
  ParseInt a0 = Some timestamp ->
  Atoi a5 = Some size ->
  order_book s = P ++ o :: R ->
  AnOpenTrade.Timestamp o = timestamp ->
  existsb (has_id timestamp) P = false ->
  existsb (has_id timestamp) R = false ->
  requirements_unmet (bet_at s a2) (AnOpenTrade.Want o) = false ->
  findBet4Trade (AnOpenTrade.User o) a4 size s = (Ok bet, s) ->
  let s1 := put a2 (MarshalBet (Bet.set_User (bet_at s a2) (AnOpenTrade.User o))) s in
  let s2 :=
    put (Bet.Name bet)
      (MarshalBet (Bet.set_User (bet_at s1 (Bet.Name bet)) a1)) s1 in
  let s3 := put openTradesStr (MarshalTrades (AllTrades.mk (P ++ R))) s2 in
  perform_trade (a0 :: a1 :: a2 :: a3 :: a4 :: a5 :: rest) s
  = (match R with
     | [] => Ok ""
     | _ :: _ => Panic "index out of range"
     end, s3).
Proof.
  intros Hts Hsize Hbook Hid HP HR Hmeet Hfind s1 s2 s3.
  unfold perform_trade.
  replace (len (a0 :: a1 :: a2 :: a3 :: a4 :: a5 :: rest) <? 6) with false
    by (symmetry; len_solve).
  set (args := a0 :: a1 :: a2 :: a3 :: a4 :: a5 :: rest).
  rewrite (index_nat args 0 0 a0 eq_refl eq_refl).
  unfold mbind at 1, M_bind at 1, mret at 1, M_ret at 1. rewrite Hts.
  rewrite (index_nat args 5 5 a5 eq_refl eq_refl).
  unfold mbind at 1, M_bind at 1, mret at 1, M_ret at 1. rewrite Hsize.
  unfold mbind at 1, M_bind at 1, GetState at 1.
  unfold mbind at 1, M_bind at 1.
  fold (order_book s). rewrite Hbook.
  assert (perform_trade_range args timestamp size (length (P ++ o :: R)) 0
            (P ++ o :: R) s
          = (if (length R =? 0)%nat then Ok tt else Panic "index out of range", s3))
    as Hloop.
  { rewrite length_app. cbn [length].
    pose proof (perform_trade_range_skip args timestamp size (o :: R) s
                  (S (length R)) P [] HP) as Hskip.
    cbn [app] in Hskip. change (len []) with 0 in Hskip. rewrite Hskip.
    cbn [perform_trade_range].
    rewrite index_middle.
    unfold mbind at 1, M_bind at 1, mret at 1, M_ret at 1.
    rewrite Hid, Z.eqb_refl.
    rewrite (index_nat args 2 2 a2 eq_refl eq_refl).
    unfold mbind at 1, M_bind at 1, mret at 1, M_ret at 1.
    unfold mbind at 1, M_bind at 1, GetState at 1.
    fold (bet_at s a2). rewrite Hmeet.
    rewrite (index_nat args 4 4 a4 eq_refl eq_refl).
    unfold mbind at 1, M_bind at 1, mret at 1, M_ret at 1.
    unfold mbind at 1, M_bind at 1, attempt at 1. rewrite Hfind.
    rewrite (index_nat args 1 1 a1 eq_refl eq_refl).
    unfold mbind at 1, M_bind at 1, mret at 1, M_ret at 1.
    unfold mbind at 1, M_bind at 1, attempt at 1. rewrite set_user_pair.
    unfold mbind at 1, M_bind at 1, attempt at 1. rewrite set_user_pair.
    unfold mbind at 1, M_bind at 1, PutState at 1.
    rewrite splice_middle.
    replace (len P + 1) with (Z.of_nat (S (length P))) by (unfold len; lia).
    rewrite perform_trade_range_walk.
    - fold s1. fold s2. fold (put openTradesStr (MarshalTrades (AllTrades.mk (P ++ R))) s2).
      fold s3. rewrite length_app.
      destruct R as [|o' R]; cbn [length Nat.eqb orb]; [reflexivity |].
      replace (S (length P) + S (length R) <=? length P + S (length R))%nat
        with false by (symmetry; apply Nat.leb_gt; lia).
      reflexivity.
    - intros j o' Hj Ho'.
      rewrite lookup_app_r in Ho' by lia.
      exact (no_id_lookup timestamp R _ o' HR Ho'). }
  rewrite Hloop. destruct R; reflexivity.
Qed.

End SwapProps.

Lemma perform_trade_swaps_witness :
  fst (perform_trade ["1234567"; "1"; "A"; "2"; "red"; "5"] one_order) = Ok ""
  /\ fst (perform_trade ["1234567"; "1"; "A"; "2"; "red"; "5"] two_orders)
     = Panic "index out of range"
  /\ length (writes (after (perform_trade ["1234567"; "1"; "A"; "2"; "red"; "5"])
                       two_orders))
     = (length (writes two_orders) + 3)%nat.
Proof.
  pose proof (perform_trade_swaps one_order "1234567" "1" "A" "2" "red" "5" []
                1234567 5 [] []
                (AnOpenTrade.mk "2" 1234567 (Description.mk "blue" 10)
                   [Description.mk "red" 5])
                (Bet.mk "B" "red" 5 "2")
                eq_refl eq_refl) as Hone.
  pose proof (perform_trade_swaps two_orders "1234567" "1" "A" "2" "red" "5" []
                1234567 5 []
                [AnOpenTrade.mk "1" 2000 (Description.mk "red" 5)
                   [Description.mk "blue" 10]]
                (AnOpenTrade.mk "2" 1234567 (Description.mk "blue" 10)
                   [Description.mk "red" 5])
                (Bet.mk "B" "red" 5 "2")
                eq_refl eq_refl) as Htwo.
  cbv zeta in Hone, Htwo. unfold after.
  rewrite Hone, Htwo; try (vm_compute; reflexivity).
  repeat split.
Defined.

(** ** [open_trade]: the order it appends *)

Section OpenTradeProps.
Context `{L : GoLib}.

Lemma offer_args_length (pairs : list (string * string)) :
  length (offer_args pairs) = (2 * length pairs)%nat.
Proof.
  induction pairs as [|[c q] pairs IH]; cbn [offer_args length]; lia.
Qed.

Lemma set_Willing_same (o : AnOpenTrade.t) :
  AnOpenTrade.set_Willing o (AnOpenTrade.Willing o ++ []) = o.
Proof. destruct o. unfold AnOpenTrade.set_Willing. cbn. rewrite app_nil_r. reflexivity. Qed.

Lemma open_trade_loop_offers (pairs : list (string * string)) :
  forall (pre : list string) (open : AnOpenTrade.t) (s : stub) (fuel : nat)
         (W : list Description.t),
    (length pairs < fuel)%nat ->
    parse_offers pairs = Some W ->
    exists s',
      open_trade_loop fuel (pre ++ offer_args pairs) (len pre) open s
      = (Ok (AnOpenTrade.set_Willing open (AnOpenTrade.Willing open ++ W)), s')
      /\ only_debug_writes s s'.
Proof.
  induction pairs as [|[c q] pairs IH]; intros pre open s fuel W Hfuel HW;
    (destruct fuel as [|fuel]; [cbn in Hfuel; lia |]);
    cbn [offer_args open_trade_loop].
  - injection HW as <-. rewrite app_nil_r, Z.ltb_irrefl, set_Willing_same.
    eexists. split; [reflexivity | apply only_debug_writes_refl].
  - cbn [parse_offers] in HW.
    destruct (Atoi q) as [n|] eqn:Hq; [| discriminate].
    destruct (parse_offers pairs) as [W'|] eqn:HW'; [| discriminate].
    injection HW as <-.
    replace (len pre <? len (pre ++ c :: q :: offer_args pairs)) with true
      by (symmetry; len_solve).
    assert (index (pre ++ c :: q :: offer_args pairs) (len pre + 1) = mret q) as Hiq.
    { replace (len pre + 1) with (len (pre ++ [c])) by len_solve.
      replace (pre ++ c :: q :: offer_args pairs)
        with ((pre ++ [c]) ++ q :: offer_args pairs)
        by (rewrite <- app_assoc; reflexivity).
      apply index_middle. }
    rewrite Hiq, index_middle.
    unfold mbind at 1, M_bind at 1, mret at 1, M_ret at 1. rewrite Hq.
    unfold mbind at 1, M_bind at 1, mret at 1, M_ret at 1.
    unfold mbind at 1, M_bind at 1, PutState at 1.
    replace (len pre + 1 + 1) with (len (pre ++ [c; q])) by len_solve.
    replace (pre ++ c :: q :: offer_args pairs)
      with ((pre ++ [c; q]) ++ offer_args pairs)
      by (rewrite <- app_assoc; reflexivity).
    destruct (IH (pre ++ [c; q])
                (AnOpenTrade.set_Willing open
                   (AnOpenTrade.Willing open ++ [Description.mk c n]))
                (put "_debug2" (MarshalDescription (Description.mk c n)) s)
                fuel W' ltac:(cbn in Hfuel; lia) eq_refl)
      as (s' & Hrun & Hdbg).
    exists s'. split.
    + unfold put in Hrun. rewrite Hrun. f_equal. f_equal.
      destruct open. unfold AnOpenTrade.set_Willing. cbn.
      rewrite <- app_assoc. reflexivity.
    + eapply only_debug_writes_trans; [| exact Hdbg].
      apply (only_debug_writes_put s "_debug2"). reflexivity.
Qed.

(** X7. [open_trade] with a numeric wanted quantity and one or more
    offers whose quantities are all numeric succeeds: apart from its
    debug records it writes only the book, which is the book it read
    with one order appended - creator, wanted pair and offers as given
    (colours as typed, not lower-cased), id the clock reading in
    milliseconds.  Nothing is checked against the inventory or against
    the ids already in the book. *)
Theorem open_trade_appends_order (now : Z) (user wantColor wantSize : string)
    (pairs : list (string * string)) (size1 : Z) (W : list Description.t)
    (s : stub) :
  pairs <> [] ->
  Atoi wantSize = Some size1 ->
  parse_offers pairs = Some W ->
  exists s_debug,
    only_debug_writes s s_debug
    /\ open_trade now (user :: wantColor :: wantSize :: offer_args pairs) s
       = (Ok "",
          put openTradesStr
            (MarshalTrades
               (AllTrades.mk
                  (order_book s
                   ++ [AnOpenTrade.mk user (Z.quot now 1000000)
                         (Description.mk wantColor size1) W])))
            s_debug).
Proof.
  intros Hpairs Hsize HW. unfold open_trade.
  set (args := user :: wantColor :: wantSize :: offer_args pairs).
  assert (len args = 3 + 2 * len pairs) as Hlen.
  { unfold args, len. cbn [length]. rewrite offer_args_length. lia. }
  assert (1 <= len pairs) as Hk.
  { destruct pairs; [congruence |]. rewrite len_cons.
    pose proof (len_nonneg pairs). lia. }
  replace (len args <? 5) with false by (symmetry; apply Z.ltb_ge; lia).
  replace (len args mod 2 =? 0) with false.
  2:{ symmetry. apply Z.eqb_neq. rewrite Hlen.
      replace (3 + 2 * len pairs) with (1 + (1 + len pairs) * 2) by lia.
      rewrite Z.mod_add by lia. discriminate. }
  rewrite (index_nat args 2 2 wantSize eq_refl eq_refl).
  unfold mbind at 1, M_bind at 1, mret at 1, M_ret at 1. rewrite Hsize.
  rewrite (index_nat args 0 0 user eq_refl eq_refl).
  unfold mbind at 1, M_bind at 1, mret at 1, M_ret at 1.
  rewrite (index_nat args 1 1 wantColor eq_refl eq_refl).
  unfold mbind at 1, M_bind at 1, mret at 1, M_ret at 1.
  unfold mbind at 1, M_bind at 1, PutState at 1.
  set (open := AnOpenTrade.mk user (makeTimestamp now)
                 (Description.mk wantColor size1) []).
  set (s0 := mkStub _ _).
  destruct (open_trade_loop_offers pairs [user; wantColor; wantSize] open s0
              (length args) W) as (s' & Hrun & Hdbg).
  { unfold args. cbn [length]. rewrite offer_args_length. lia. }
  { exact HW. }
  change (len [user; wantColor; wantSize]) with 3 in Hrun.
  change ([user; wantColor; wantSize] ++ offer_args pairs) with args in Hrun.
  unfold mbind at 1, M_bind at 1. rewrite Hrun.
  assert (only_debug_writes s s') as Hall.
  { eapply only_debug_writes_trans; [| exact Hdbg].
    apply (only_debug_writes_put s "_debug1"). reflexivity. }
  exists s'. split; [exact Hall |].
  unfold mbind, M_bind, GetState, PutState, mret, M_ret.
  assert (ledger s' !! openTradesStr = ledger s !! openTradesStr) as Hbook
    by (apply Hall; discriminate).
  unfold order_book, put. rewrite Hbook. reflexivity.
Qed.

End OpenTradeProps.

Lemma open_trade_appends_order_witness :
  exists s_debug,
    only_debug_writes two_bets s_debug
    /\ open_trade 1999999 ["2"; "Blue"; "10"; "Red"; "5"; "green"; "7"] two_bets
       = (Ok "",
          put openTradesStr
            (MarshalTrades
               (AllTrades.mk
                  (order_book two_bets
                   ++ [AnOpenTrade.mk "2" 1 (Description.mk "Blue" 10)
                         [Description.mk "Red" 5; Description.mk "green" 7]])))
            s_debug).
Proof.
  apply (open_trade_appends_order 1999999 "2" "Blue" "10"
           [("Red", "5"); ("green", "7")] 10
           [Description.mk "Red" 5; Description.mk "green" 7] two_bets);
    [discriminate | reflexivity | reflexivity].
Defined.

(** ** [cleanTrades] never rewrites an order's identity *)

Section ReconcileKeeps.
Context `{L : GoLib}.

Lemma filter_sublist {A : Type} (f : A -> bool) (l : list A) :
  sublist (List.filter f l) l.
Proof.
  induction l as [|a l IH]; cbn [List.filter]; [constructor |].
  destruct (f a); [apply sublist_skip | apply sublist_cons]; exact IH.
Qed.

Lemma reconcile_spec_keys_sublist (s : stub) (T : list AnOpenTrade.t) :
  sublist (List.map order_key (reconcile_spec s T)) (List.map order_key T).
Proof.
  unfold reconcile_spec.
  induction T as [|o T IH]; cbn [List.map List.filter]; [constructor |].
  destruct (has_offers (prune_offers s o)); cbn [List.map].
  - change (order_key (prune_offers s o)) with (order_key o).
    apply sublist_skip. exact IH.
  - apply sublist_cons. exact IH.
Qed.

Lemma reconcile_spec_origin (s : stub) (T : list AnOpenTrade.t)
    (o' : AnOpenTrade.t) :
  In o' (reconcile_spec s T) ->
  exists o, In o T /\ o' = prune_offers s o.
Proof.
  unfold reconcile_spec. intros Hin.
  apply filter_In in Hin as [Hin _].
  apply in_map_iff in Hin as (o & <- & Ho). eauto.
Qed.

(** X8. The pass of [cleanTrades] only drops: the orders it leaves are
    orders of the book it read, in the same relative order, each with
    the same creator, id and wanted pair, and each with offers that are
    the order's own offers in the same relative order with some left
    out. *)
Theorem cleanTrades_only_drops (s : stub) :
  exists T' didWork,
    cleanTrades_scan s = (Ok (T', didWork), s)
    /\ sublist (List.map order_key T') (List.map order_key (order_book s))
    /\ Forall (fun o' =>
                 exists o, In o (order_book s)
                           /\ order_key o' = order_key o
                           /\ sublist (AnOpenTrade.Willing o') (AnOpenTrade.Willing o))
         T'.
Proof.
  eexists. eexists. split; [apply cleanTrades_scan_spec |].
  split; [apply reconcile_spec_keys_sublist |].
  apply List.Forall_forall. intros o' Ho'.
  apply reconcile_spec_origin in Ho' as (o & Ho & ->).
  exists o. split; [exact Ho |]. split; [reflexivity |].
  apply filter_sublist.
Qed.

End ReconcileKeeps.

(** ** The dispatcher *)

Section InvokeProps.
Context `{L : GoLib}.

(** The stub [cleanTrades] leaves. *)
Lemma and_then_always_cleanTrades {A : Type} (m : M A) (s s1 : stub)
    (r : outcome A) :
  m s = (r, s1) ->
  (exists a, r = Ok a) \/ (exists msg, r = Err msg) ->
  and_then_always m cleanTrades s
  = (r,
     if book_settled s1 (order_book s1) then s1
     else put openTradesStr
            (MarshalTrades (AllTrades.mk (reconcile_spec s1 (order_book s1)))) s1).
Proof.
  intros Hm Hr. unfold and_then_always. rewrite Hm.
  destruct Hr as [[a ->] | [msg ->]]; rewrite cleanTrades_spec; reflexivity.
Qed.

(** X9. For ["delete"], ["set_user"] and ["perform_trade"] the
    dispatcher returns what the operation returned and then has run
    [cleanTrades] on the stub the operation left - also when the
    operation returned an error.  So an invocation that fails (say, for
    a wrong number of arguments) can still rewrite the book. *)
Theorem Invoke_reconciles_even_after_error (now : Z) (function : string)
    (args : list string) (s s1 : stub) (r : outcome bytes) :
  (function = "delete" /\ Delete args s = (r, s1))
  \/ (function = "set_user" /\ set_user args s = (r, s1))
  \/ (function = "perform_trade" /\ perform_trade args s = (r, s1)) ->
  (exists a, r = Ok a) \/ (exists msg, r = Err msg) ->
  Invoke now function args s
  = (r,
     if book_settled s1 (order_book s1) then s1
     else put openTradesStr
            (MarshalTrades (AllTrades.mk (reconcile_spec s1 (order_book s1)))) s1).
Proof.
  intros [[-> Hop] | [[-> Hop] | [-> Hop]]] Hr; unfold Invoke; cbn [String.eqb Ascii.eqb Bool.eqb];
    exact (and_then_always_cleanTrades _ s s1 r Hop Hr).
Qed.

End InvokeProps.

Lemma Invoke_reconciles_even_after_error_witness :
  fst (Invoke 0 "delete" [] stale_book)
  = Err "Incorrect number of arguments. Expecting 1"
  /\ length (order_book (after (Invoke 0 "delete" []) stale_book)) = 1%nat
  /\ length (order_book stale_book) = 2%nat.
Proof.
  rewrite (surjective_pairing (Invoke 0 "delete" [] stale_book)).
  unfold after.
  rewrite (Invoke_reconciles_even_after_error 0 "delete" [] stale_book stale_book
             (Err "Incorrect number of arguments. Expecting 1")).
  - repeat split; vm_compute; reflexivity.
  - left. split; reflexivity.
  - right. eexists. reflexivity.
Defined.

(** ** [perform_trade] reads four of its arguments *)

Section IgnoredArgs.
Context `{L : GoLib}.

Lemma bind_ext_at {A B : Type} (m : M A) (k k' : A -> M B) (s : stub) :
  (forall a t, k a t = k' a t) -> (m ≫= k) s = (m ≫= k') s.
Proof.
  intros Hk. unfold mbind, M_bind.
  destruct (m s) as [[a|e|e|] t]; [apply Hk | reflexivity | reflexivity | reflexivity].
Qed.

Lemma perform_trade_range_args (args args' : list string) (a1 a2 a4 : string)
    (timestamp size : Z) (n : nat) :
  args !! 1%nat = Some a1 -> args' !! 1%nat = Some a1 ->
  args !! 2%nat = Some a2 -> args' !! 2%nat = Some a2 ->
  args !! 4%nat = Some a4 -> args' !! 4%nat = Some a4 ->
  forall (i : Z) (T : list AnOpenTrade.t) (s : stub),
    perform_trade_range args timestamp size n i T s
    = perform_trade_range args' timestamp size n i T s.
Proof.
  intros H1 H1' H2 H2' H4 H4'.
  induction n as [|n IH]; intros i T s; cbn [perform_trade_range]; [reflexivity |].
  rewrite (index_nat args 1 1 a1 eq_refl H1), (index_nat args' 1 1 a1 eq_refl H1').
  rewrite (index_nat args 2 2 a2 eq_refl H2), (index_nat args' 2 2 a2 eq_refl H2').
  rewrite (index_nat args 4 4 a4 eq_refl H4), (index_nat args' 4 4 a4 eq_refl H4').
  apply bind_ext_at. intros ti t.
  destruct (AnOpenTrade.Timestamp ti =? timestamp); [| apply IH].
  apply bind_ext_at. intros x2 t2.
  apply bind_ext_at. intros betAsBytes t3.
  destruct (requirements_unmet _ _); [reflexivity |].
  apply bind_ext_at. intros x4 t4.
  apply bind_ext_at. intros r t5.
  destruct r as [bet | e]; [| apply IH].
  apply bind_ext_at. intros x1 t6.
  apply bind_ext_at. intros u1 t7.
  apply bind_ext_at. intros u2 t8.
  apply bind_ext_at. intros u3 t9.
  apply IH.
Qed.

(** X10. [perform_trade] never reads its fourth argument (the opener's
    user) nor anything after the sixth: the candidate bet is looked up
    for the user recorded in the order.  Two calls that differ only
    there behave alike. *)
Theorem perform_trade_ignores_opener_argument (a0 a1 a2 a3 a3' a4 a5 : string)
    (rest rest' : list string) (s : stub) :
  perform_trade (a0 :: a1 :: a2 :: a3 :: a4 :: a5 :: rest) s
  = perform_trade (a0 :: a1 :: a2 :: a3' :: a4 :: a5 :: rest') s.
Proof.
  unfold perform_trade.
  replace (len (a0 :: a1 :: a2 :: a3 :: a4 :: a5 :: rest) <? 6) with false
    by (symmetry; len_solve).
  replace (len (a0 :: a1 :: a2 :: a3' :: a4 :: a5 :: rest') <? 6) with false
    by (symmetry; len_solve).
  set (args := a0 :: a1 :: a2 :: a3 :: a4 :: a5 :: rest).
  set (args' := a0 :: a1 :: a2 :: a3' :: a4 :: a5 :: rest').
  rewrite (index_nat args 0 0 a0 eq_refl eq_refl),
    (index_nat args' 0 0 a0 eq_refl eq_refl).
  rewrite (index_nat args 5 5 a5 eq_refl eq_refl),
    (index_nat args' 5 5 a5 eq_refl eq_refl).
  unfold mbind, M_bind, mret, M_ret, GetState.
  destruct (ParseInt a0) as [timestamp|]; [| reflexivity].
  destruct (Atoi a5) as [size|]; [| reflexivity].
  rewrite (perform_trade_range_args args args' a1 a2 a4 timestamp size _
             eq_refl eq_refl eq_refl eq_refl eq_refl eq_refl).
  reflexivity.
Qed.

End IgnoredArgs.

(** ** How the item operations compose *)

Section ItemComposition.
Context `{L : GoLib}.

Lemma init_bet_run (name kind quantity owner : string) (size user : Z)
    (s : stub) :
  name <> "" -> kind <> "" ->
  Atoi quantity = Some size -> Atoi owner = Some user ->
  init_bet [name; kind; quantity; owner] s
  = if String.eqb (Bet.Name (bet_at s name)) name then
      (Err "This bet arleady exists", s)
    else
      (Ok "",
       put betIndexStr
         (MarshalIndex
            (bet_index (put name (bet_json name (ToLower kind) size user) s)
             ++ [name]))
         (put name (bet_json name (ToLower kind) size user) s)).
Proof.
  intros Hname Hkind Hq Ho.
  assert (forall a : string, a <> "" -> (String.length a <=? 0)%nat = false)
    as Hne.
  { intros [|c a] Ha; [congruence | reflexivity]. }
  assert (quantity <> "") as Hquantity by (intros ->; discriminate Hq).
  assert (owner <> "") as Howner by (intros ->; discriminate Ho).
  unfold init_bet.
  change (negb (len [name; kind; quantity; owner] =? 4)) with false.
  cbn iota.
  change (index [name; kind; quantity; owner] 0) with (mret (M := M) name).
  change (index [name; kind; quantity; owner] 1) with (mret (M := M) kind).
  change (index [name; kind; quantity; owner] 2) with (mret (M := M) quantity).
  change (index [name; kind; quantity; owner] 3) with (mret (M := M) owner).
  unfold mbind, M_bind, mret, M_ret, throw, GetState, PutState.
  rewrite (Hne name Hname), (Hne kind Hkind), (Hne quantity Hquantity),
    (Hne owner Howner), Ho, Hq.
  fold (bet_at s name).
  destruct (String.eqb (Bet.Name (bet_at s name)) name); reflexivity.
Qed.

Lemma Init_run (a : string) (n : Z) (s : stub) :
  Atoi a = Some n ->
  Init [a] s
  = (Ok "",
     put openTradesStr (MarshalTrades AllTrades.zero)
       (put betIndexStr (MarshalIndex []) (put "abc" (Itoa n) s))).
Proof.
  intros Ha. unfold Init.
  change (negb (len [a] =? 1)) with false. cbn iota.
  change (index [a] 0) with (mret (M := M) a).
  unfold mbind, M_bind, mret, M_ret. rewrite Ha. reflexivity.
Qed.

(** X11. [Init] resets the index and the book but deletes no bet: the
    records stay stored under their names.  A bet that existed before
    the reset is therefore no longer listed, yet creating it again
    still fails with "This bet arleady exists".  (The bet's name is
    none of the three keys [Init] writes; the empty index survives its
    round trip.) *)
Theorem Init_keeps_bet_records (a name kind quantity owner : string)
    (n size user : Z) (s : stub) :
  Atoi a = Some n ->
  UnmarshalIndex (MarshalIndex []) = [] ->
  name <> "abc" -> name <> betIndexStr -> name <> openTradesStr ->
  Bet.Name (bet_at s name) = name ->
  name <> "" -> kind <> "" ->
  Atoi quantity = Some size -> Atoi owner = Some user ->
  exists s',
    Init [a] s = (Ok "", s')
    /\ bet_index s' = []
    /\ ledger s' !! name = ledger s !! name
    /\ init_bet [name; kind; quantity; owner] s'
       = (Err "This bet arleady exists", s').
Proof.
  intros Ha Hcodec H1 H2 H3 Hex Hname Hkind Hq Ho.
  eexists. split; [apply (Init_run a n s Ha) |].
  set (s' := put openTradesStr _ _).
  assert (ledger s' !! name = ledger s !! name) as Hkeep.
  { unfold s', put. cbn [ledger].
    rewrite !lookup_insert_ne by congruence. reflexivity. }
  split; [| split; [exact Hkeep |]].
  - unfold bet_index, s', put. cbn [ledger].
    rewrite lookup_insert_ne by discriminate.
    rewrite lookup_insert_eq. exact Hcodec.
  - rewrite (init_bet_run name kind quantity owner size user s' Hname Hkind Hq Ho).
    unfold bet_at. rewrite Hkeep. fold (bet_at s name). rewrite Hex.
    rewrite String.eqb_refl. reflexivity.
Qed.

(** X12. Delete, then create again: after [Delete] of a name, an
    [init_bet] of the same name with well-formed arguments succeeds
    whatever was stored before, stores the new record, and lists the
    name last in the index.  (The name is not the index key; decoding
    no bytes leaves the zero bet; the two indices written survive
    their round trips.) *)
Theorem Delete_then_init_bet (name kind quantity owner : string)
    (size user : Z) (s : stub) :
  name <> betIndexStr -> name <> "" -> kind <> "" ->
  Atoi quantity = Some size -> Atoi owner = Some user ->
  UnmarshalBet "" = Bet.zero ->
  UnmarshalIndex (MarshalIndex (remove_first name (bet_index s)))
  = remove_first name (bet_index s) ->
  UnmarshalIndex (MarshalIndex (remove_first name (bet_index s) ++ [name]))
  = remove_first name (bet_index s) ++ [name] ->
  exists s',
    init_bet [name; kind; quantity; owner] (after (Delete [name]) s) = (Ok "", s')
    /\ ledger s' !! name = Some (bet_json name (ToLower kind) size user)
    /\ bet_index s' = remove_first name (bet_index s) ++ [name].
Proof.
  intros Hres Hname Hkind Hq Ho Hnil Hc1 Hc2.
  unfold after. rewrite Delete_run. cbn [snd].
  rewrite (bet_index_del name s Hres).
  set (sd := put betIndexStr _ (del name s)).
  assert (ledger sd !! name = None) as Hgone.
  { unfold sd, put, del. cbn [ledger].
    rewrite lookup_insert_ne by congruence. apply lookup_delete_eq. }
  rewrite (init_bet_run name kind quantity owner size user sd Hname Hkind Hq Ho).
  unfold bet_at at 1. rewrite Hgone. cbn [default]. rewrite Hnil.
  cbn [Bet.zero Bet.Name].
  replace (String.eqb "" name) with false
    by (symmetry; apply String.eqb_neq; congruence).
  eexists. split; [reflexivity |].
  assert (bet_index (put name (bet_json name (ToLower kind) size user) sd)
          = remove_first name (bet_index s)) as Hidx.
  { unfold bet_index at 1, put at 1. cbn [ledger].
    rewrite lookup_insert_ne by congruence.
    change (bet_index sd = remove_first name (bet_index s)).
    unfold sd. rewrite bet_index_put. exact Hc1. }
  split.
  - cbn [put ledger]. rewrite lookup_insert_ne by congruence.
    apply lookup_insert_eq.
  - rewrite bet_index_put, Hidx. exact Hc2.
Qed.

Lemma find_finds {A : Type} (f : A -> bool) (l : list A) (x : A) :
  In x l -> f x = true -> exists y, List.find f l = Some y.
Proof.
  intros Hin Hx. destruct (List.find f l) as [y|] eqn:Hfind; [eauto |].
  pose proof (find_none f l Hfind x Hin). congruence.
Qed.

(** X13. Transfer, then offer: after [set_user] has given a listed bet
    to a new owner, [findBet4Trade] for that owner with the bet's
    colour and size finds a bet.  (The bet's name is not the index key,
    and the rewritten record survives its round trip through JSON.) *)
Theorem set_user_then_findBet4Trade (name newOwner : string) (s : stub) :
  In name (bet_index s) ->
  name <> betIndexStr ->
  UnmarshalBet (MarshalBet (Bet.set_User (bet_at s name) newOwner))
  = Bet.set_User (bet_at s name) newOwner ->
  exists b,
    findBet4Trade newOwner (Bet.Color (bet_at s name)) (Bet.Size (bet_at s name))
      (after (set_user [name; newOwner]) s)
    = (Ok b, after (set_user [name; newOwner]) s).
Proof.
  intros Hin Hres Hcodec. unfold after. rewrite set_user_pair. cbn [snd].
  set (s' := put name _ s).
  assert (bet_index s' = bet_index s) as Hidx.
  { unfold bet_index, s', put. cbn [ledger].
    rewrite lookup_insert_ne by congruence. reflexivity. }
  assert (bet_at s' name = Bet.set_User (bet_at s name) newOwner) as Hbet.
  { unfold bet_at at 1, s', put. cbn [ledger]. rewrite lookup_insert_eq.
    exact Hcodec. }
  rewrite findBet4Trade_find, Hidx.
  destruct (find_finds
              (fun n => bet_matches (bet_at s' n) newOwner
                          (Bet.Color (bet_at s name)) (Bet.Size (bet_at s name)))
              (bet_index s) name Hin) as [y ->].
  - rewrite Hbet. unfold bet_matches, Bet.set_User. cbn.
    rewrite !String.eqb_refl, Z.eqb_refl. reflexivity.
  - eauto.
Qed.

End ItemComposition.

Lemma Init_keeps_bet_records_witness :
  exists s',
    Init ["0"] two_bets = (Ok "", s')
    /\ bet_index s' = []
    /\ ledger s' !! "A" = ledger two_bets !! "A"
    /\ init_bet ["A"; "green"; "3"; "1"] s' = (Err "This bet arleady exists", s').
Proof.
  apply (Init_keeps_bet_records "0" "A" "green" "3" "1" 0 3 1 two_bets);
    try discriminate; vm_compute; reflexivity.
Defined.

Lemma Delete_then_init_bet_witness :
  exists s',
    init_bet ["A"; "Green"; "3"; "2"] (after (Delete ["A"]) two_bets) = (Ok "", s')
    /\ ledger s' !! "A" = Some (bet_json "A" (ToLower "Green") 3 2)
    /\ bet_index s' = remove_first "A" (bet_index two_bets) ++ ["A"].
Proof.
  apply (Delete_then_init_bet "A" "Green" "3" "2" 3 2 two_bets);
    try discriminate; vm_compute; reflexivity.
Defined.

Lemma set_user_then_findBet4Trade_witness :
  exists b,
    findBet4Trade "carol" (Bet.Color (bet_at two_bets "A"))
      (Bet.Size (bet_at two_bets "A")) (after (set_user ["A"; "carol"]) two_bets)
    = (Ok b, after (set_user ["A"; "carol"]) two_bets).
Proof.
  apply (set_user_then_findBet4Trade "A" "carol" two_bets).
  - vm_compute. left. reflexivity.
  - discriminate.
  - vm_compute. reflexivity.
Defined.

(** ** Reading back *)

(** X14. What ["write"] stores, ["read"] returns: after the dispatcher
    has written a value under a key, a query for that key returns the
    value byte for byte, and a query for any other key returns what it
    returned before - no bytes, and no error, if nothing is stored
    there.  Queries never change the stub. *)
Theorem write_then_read `{L : GoLib} (now : Z) (name value other : string)
    (s : stub) :
  let s' := after (Invoke now "write" [name; value]) s in
  Query "read" [name] s' = (Ok value, s')
  /\ (other <> name ->
      Query "read" [other] s' = (Ok (default "" (ledger s !! other)), s')).
Proof.
  cbv zeta. unfold after.
  change (Invoke now "write" [name; value] s) with (Ok "", put name value s).
  cbn [snd]. split.
  - change (Query "read" [name] (put name value s))
      with (Ok (default "" (ledger (put name value s) !! name)), put name value s).
    cbn [put ledger]. rewrite lookup_insert_eq. reflexivity.
  - intros Hother.
    change (Query "read" [other] (put name value s))
      with (Ok (default "" (ledger (put name value s) !! other)), put name value s).
    cbn [put ledger]. rewrite lookup_insert_ne by congruence. reflexivity.
Qed.

Lemma write_then_read_witness :
  Query "read" ["ghost"] (after (Invoke 0 "write" ["k"; "v"]) fresh)
  = (Ok "", after (Invoke 0 "write" ["k"; "v"]) fresh).
Proof.
  destruct (write_then_read 0 "k" "v" "ghost" fresh) as [_ Hother].
  rewrite Hother by discriminate. vm_compute. reflexivity.
Defined.

(** * The store that can fail, when it does not

    With no failure scheduled, each operation of [HostErrors] is the
    operation of the same name above. *)

Section HostRefines.
Context `{L : GoLib}.

Lemma agrees_ret {A : Type} (a : A) : agrees (mret a) (mret a).
Proof. intros s n. reflexivity. Qed.

Lemma agrees_throw {A : Type} (msg : string) :
  agrees (HostErrors.throw (A := A) msg) (throw msg).
Proof. intros s n. reflexivity. Qed.

Lemma agrees_index {A : Type} (l : list A) (i : Z) :
  agrees (HostErrors.index l i) (index l i).
Proof.
  intros s n. unfold HostErrors.index, index.
  destruct ((0 <=? i) && (i <? len l)); [| reflexivity].
  destruct (l !! Z.to_nat i); reflexivity.
Qed.

Lemma agrees_bind {A B : Type} (mh : HostErrors.H A) (m : M A)
    (kh : A -> HostErrors.H B) (k : A -> M B) :
  agrees mh m -> (forall a, agrees (kh a) (k a)) ->
  agrees (mh ≫= kh) (m ≫= k).
Proof.
  intros Hm Hk s n. unfold mbind, HostErrors.H_bind, M_bind.
  rewrite (Hm s n). destruct (m s) as [[a | e | e |] s1]; cbn [fst snd];
    try reflexivity.
  apply Hk.
Qed.

Lemma agrees_attempt {A : Type} (mh : HostErrors.H A) (m : M A) :
  agrees mh m -> agrees (HostErrors.attempt mh) (attempt m).
Proof.
  intros Hm s n. unfold HostErrors.attempt, attempt. rewrite (Hm s n).
  destruct (m s) as [[a | e | e |] s1]; reflexivity.
Qed.

Lemma agrees_GetState {B : Type} (key msg : string)
    (kh : bytes -> HostErrors.H B) (k : bytes -> M B) :
  (forall v, agrees (kh v) (k v)) ->
  agrees ('(v, err) ← HostErrors.GetState key;
          HostErrors.fail_with err msg;; kh v)
         (v ← GetState key; k v).
Proof. intros Hk s n. apply Hk. Qed.

Lemma agrees_PutState_relay {B : Type} (key : string) (value : bytes)
    (kh : HostErrors.H B) (k : M B) :
  agrees kh k ->
  agrees (err ← HostErrors.PutState key value; HostErrors.relay err;; kh)
         (PutState key value;; k).
Proof. intros Hk s n. apply Hk. Qed.

Lemma agrees_PutState_ignored {B : Type} (key : string) (value : bytes)
    (kh : HostErrors.H B) (k : M B) :
  agrees kh k ->
  agrees (_ ← HostErrors.PutState key value; kh) (PutState key value;; k).
Proof. intros Hk s n. apply Hk. Qed.

Lemma agrees_DelState {B : Type} (key msg : string)
    (kh : HostErrors.H B) (k : M B) :
  agrees kh k ->
  agrees (err ← HostErrors.DelState key; HostErrors.fail_with err msg;; kh)
         (DelState key;; k).
Proof. intros Hk s n. apply Hk. Qed.

Ltac agree :=
  repeat first
    [ assumption
    | apply agrees_ret
    | apply agrees_throw
    | apply agrees_index
    | apply agrees_GetState; intros
    | apply agrees_PutState_relay
    | apply agrees_PutState_ignored
    | apply agrees_DelState
    | apply agrees_attempt
    | apply agrees_bind; [| intros]
    | match goal with
      | |- agrees (if ?b then _ else _) _ => destruct b
      | |- agrees (match ?x with _ => _ end) _ => destruct x
      end ].

Lemma agrees_Init (args : list string) :
  agrees (HostErrors.Init args) (Init args).
Proof. unfold HostErrors.Init, Init. agree. Qed.

Lemma agrees_read (args : list string) :
  agrees (HostErrors.read args) (read args).
Proof. unfold HostErrors.read, read. agree. Qed.

Lemma agrees_Delete (args : list string) :
  agrees (HostErrors.Delete args) (Delete args).
Proof. unfold HostErrors.Delete, Delete. agree. Qed.

Lemma agrees_Write (args : list string) :
  agrees (HostErrors.Write args) (Write args).
Proof. unfold HostErrors.Write, Write. agree. Qed.

Lemma agrees_init_bet (args : list string) :
  agrees (HostErrors.init_bet args) (init_bet args).
Proof. unfold HostErrors.init_bet, init_bet. agree. Qed.

Lemma agrees_set_user (args : list string) :
  agrees (HostErrors.set_user args) (set_user args).
Proof. unfold HostErrors.set_user, set_user. agree. Qed.

Lemma agrees_out_of_fuel {A : Type} :
  agrees (HostErrors.out_of_fuel (A := A)) out_of_fuel.
Proof. intros s n. reflexivity. Qed.

Lemma agrees_PutState_last (key : string) (value : bytes) :
  agrees (err ← HostErrors.PutState key value; HostErrors.relay err)
         (PutState key value).
Proof. intros s n. reflexivity. Qed.

Lemma agrees_open_trade_loop (fuel : nat) (args : list string) :
  forall (i : Z) (open : AnOpenTrade.t),
    agrees (HostErrors.open_trade_loop fuel args i open)
           (open_trade_loop fuel args i open).
Proof.
  induction fuel as [| fuel IH]; intros i open;
    cbn [HostErrors.open_trade_loop open_trade_loop].
  - apply agrees_out_of_fuel.
  - agree. apply IH.
Qed.

Lemma agrees_open_trade (now : Z) (args : list string) :
  agrees (HostErrors.open_trade now args) (open_trade now args).
Proof.
  unfold HostErrors.open_trade, open_trade. agree.
  apply agrees_open_trade_loop.
Qed.

Lemma agrees_findBet4Trade_range (rng : list string) (user color : string)
    (size : Z) :
  agrees (HostErrors.findBet4Trade_range rng user color size)
         (findBet4Trade_range rng user color size).
Proof.
  induction rng as [| name rng IH];
    cbn [HostErrors.findBet4Trade_range findBet4Trade_range]; agree.
Qed.

Lemma agrees_findBet4Trade (user color : string) (size : Z) :
  agrees (HostErrors.findBet4Trade user color size)
         (findBet4Trade user color size).
Proof.
  unfold HostErrors.findBet4Trade, findBet4Trade. agree.
  apply agrees_findBet4Trade_range.
Qed.

Lemma agrees_perform_trade_range (args : list string) (timestamp size : Z)
    (n : nat) :
  forall (i : Z) (OpenTrades : list AnOpenTrade.t),
    agrees (HostErrors.perform_trade_range args timestamp size n i OpenTrades)
           (perform_trade_range args timestamp size n i OpenTrades).
Proof.
  induction n as [| n IH]; intros i OpenTrades;
    cbn [HostErrors.perform_trade_range perform_trade_range].
  - apply agrees_ret.
  - agree; first [apply IH | apply agrees_findBet4Trade_range].
Qed.

Lemma agrees_perform_trade (args : list string) :
  agrees (HostErrors.perform_trade args) (perform_trade args).
Proof.
  unfold HostErrors.perform_trade, perform_trade. agree.
  apply agrees_perform_trade_range.
Qed.

Lemma agrees_remove_trade_range (timestamp : Z) (n : nat) :
  forall (i : Z) (OpenTrades : list AnOpenTrade.t),
    agrees (HostErrors.remove_trade_range timestamp n i OpenTrades)
           (remove_trade_range timestamp n i OpenTrades).
Proof.
  induction n as [| n IH]; intros i OpenTrades;
    cbn [HostErrors.remove_trade_range remove_trade_range].
  - apply agrees_ret.
  - agree; first [apply agrees_PutState_last | apply IH].
Qed.

Lemma agrees_remove_trade (args : list string) :
  agrees (HostErrors.remove_trade args) (remove_trade args).
Proof.
  unfold HostErrors.remove_trade, remove_trade. agree.
  apply agrees_remove_trade_range.
Qed.

(** On a host that does not fail the operations are those of the
    stub that cannot fail: same result, same ledger, same writes. *)
Lemma working_host_refines (op : operation) (s : stub) :
  HostErrors.run_operation op (HostErrors.working s)
  = (fst (run_operation op s),
     HostErrors.working (snd (run_operation op s))).
Proof.
  unfold HostErrors.working.
  destruct op; cbn [HostErrors.run_operation run_operation].
  - apply agrees_Init.
  - apply agrees_read.
  - apply agrees_Delete.
  - apply agrees_Write.
  - apply agrees_init_bet.
  - apply agrees_set_user.
  - apply agrees_open_trade.
  - apply agrees_perform_trade.
  - apply agrees_remove_trade.
Qed.

End HostRefines.

(** * Errors and writes when the host store can fail *)

Section HostErrorProps.
Context `{L : GoLib}.

Ltac hunfold :=
  unfold mbind, HostErrors.H_bind, mret, HostErrors.H_ret, HostErrors.throw,
    HostErrors.panic, HostErrors.relay, HostErrors.fail_with,
    HostErrors.GetState, HostErrors.PutState, HostErrors.DelState,
    HostErrors.host_call, HostErrors.index in *.

Ltac host_cases :=
  repeat first
    [ progress cbv beta iota zeta delta
        [mbind mret HostErrors.H_bind HostErrors.H_ret HostErrors.throw
         HostErrors.panic HostErrors.relay HostErrors.fail_with
         HostErrors.GetState HostErrors.PutState HostErrors.DelState
         HostErrors.host_call HostErrors.index HostErrors.base
         HostErrors.faults HostErrors.failures]
    | match goal with
      | |- context [match ?x with _ => _ end] =>
          lazymatch x with
          | context [match _ with _ => _ end] => fail
          | _ => destruct x
          end
      end ];
  intros; simplify_eq; try reflexivity; try (exfalso; lia).

Lemma host_read_error (args : list string) (h h' : HostErrors.host)
    (msg : string) :
  HostErrors.read args h = (Err msg, h') ->
  HostErrors.base h' = HostErrors.base h.
Proof. destruct h as [s fs n], h' as [s' fs' n']. unfold HostErrors.read. host_cases. Qed.

Lemma host_Write_error (args : list string) (h h' : HostErrors.host)
    (msg : string) :
  HostErrors.Write args h = (Err msg, h') ->
  HostErrors.base h' = HostErrors.base h.
Proof. destruct h as [s fs n], h' as [s' fs' n']. unfold HostErrors.Write. host_cases. Qed.

Lemma host_set_user_error (args : list string) (h h' : HostErrors.host)
    (msg : string) :
  HostErrors.set_user args h = (Err msg, h') ->
  HostErrors.base h' = HostErrors.base h.
Proof. destruct h as [s fs n], h' as [s' fs' n']. unfold HostErrors.set_user. host_cases. Qed.

Lemma host_Init_error (args : list string) (h h' : HostErrors.host)
    (msg : string) :
  HostErrors.Init args h = (Err msg, h') ->
  HostErrors.failures h' = HostErrors.failures h ->
  HostErrors.base h' = HostErrors.base h.
Proof. destruct h as [s fs n], h' as [s' fs' n']. unfold HostErrors.Init. host_cases. Qed.

Lemma host_Delete_error (args : list string) (h h' : HostErrors.host)
    (msg : string) :
  HostErrors.Delete args h = (Err msg, h') ->
  HostErrors.failures h' = HostErrors.failures h ->
  HostErrors.base h' = HostErrors.base h.
Proof. destruct h as [s fs n], h' as [s' fs' n']. unfold HostErrors.Delete. host_cases. Qed.

Lemma host_init_bet_error (args : list string) (h h' : HostErrors.host)
    (msg : string) :
  HostErrors.init_bet args h = (Err msg, h') ->
  HostErrors.failures h' = HostErrors.failures h ->
  HostErrors.base h' = HostErrors.base h.
Proof. destruct h as [s fs n], h' as [s' fs' n']. unfold HostErrors.init_bet. host_cases. Qed.

(** *** What a computation does to the failure count and to the stub *)

Lemma both_ret {A : Type} (a : A) : mono (mret a) /\ keeps (mret a).
Proof. split; intros h r h' [= _ <-]; reflexivity. Qed.

Lemma both_throw {A : Type} (msg : string) :
  mono (HostErrors.throw (A := A) msg) /\ keeps (HostErrors.throw (A := A) msg).
Proof. split; intros h r h' [= _ <-]; reflexivity. Qed.

Lemma both_index {A : Type} (l : list A) (i : Z) :
  mono (HostErrors.index l i) /\ keeps (HostErrors.index l i).
Proof.
  split; intros h r h'; destruct h as [s fs n], h' as [s' fs' n'];
    host_cases.
Qed.

Lemma both_GetState (key : string) :
  mono (HostErrors.GetState key) /\ keeps (HostErrors.GetState key).
Proof.
  split; intros h r h'; destruct h as [s fs n], h' as [s' fs' n'];
    host_cases; cbn; lia.
Qed.

Lemma mono_PutState (key : string) (v : bytes) : mono (HostErrors.PutState key v).
Proof.
  intros h r h'; destruct h as [s fs n], h' as [s' fs' n']; host_cases; cbn; lia.
Qed.

Lemma both_relay (err : option string) :
  mono (HostErrors.relay err) /\ keeps (HostErrors.relay err).
Proof. destruct err; [apply both_throw | apply both_ret]. Qed.

Lemma both_fail_with (err : option string) (msg : string) :
  mono (HostErrors.fail_with err msg) /\ keeps (HostErrors.fail_with err msg).
Proof. destruct err; [apply both_throw | apply both_ret]. Qed.

Lemma mono_bind {A B : Type} (m : HostErrors.H A) (k : A -> HostErrors.H B) :
  mono m -> (forall a, mono (k a)) -> mono (m ≫= k).
Proof.
  intros Hm Hk h r h'. unfold mbind, HostErrors.H_bind.
  destruct (m h) as [[a|e|e|] h1] eqn:Hrun; intros Hr;
    pose proof (Hm _ _ _ Hrun) as H1.
  - pose proof (Hk a _ _ _ Hr). lia.
  - injection Hr as _ <-. exact H1.
  - injection Hr as _ <-. exact H1.
  - injection Hr as _ <-. exact H1.
Qed.

Lemma keeps_bind {A B : Type} (m : HostErrors.H A) (k : A -> HostErrors.H B) :
  keeps m -> (forall a, keeps (k a)) -> keeps (m ≫= k).
Proof.
  intros Hm Hk h r h'. unfold mbind, HostErrors.H_bind.
  destruct (m h) as [[a|e|e|] h1] eqn:Hrun; intros Hr;
    pose proof (Hm _ _ _ Hrun) as H1.
  - pose proof (Hk a _ _ _ Hr). congruence.
  - injection Hr as _ <-. exact H1.
  - injection Hr as _ <-. exact H1.
  - injection Hr as _ <-. exact H1.
Qed.

Lemma mono_attempt {A : Type} (m : HostErrors.H A) :
  mono m -> mono (HostErrors.attempt m).
Proof.
  intros Hm h r h'. unfold HostErrors.attempt.
  destruct (m h) as [[a|e|e|] h1] eqn:Hrun; intros [= _ <-];
    exact (Hm _ _ _ Hrun).
Qed.

Lemma keeps_attempt {A : Type} (m : HostErrors.H A) :
  keeps m -> keeps (HostErrors.attempt m).
Proof.
  intros Hm h r h'. unfold HostErrors.attempt.
  destruct (m h) as [[a|e|e|] h1] eqn:Hrun; intros [= _ <-];
    exact (Hm _ _ _ Hrun).
Qed.

Ltac mono_solve :=
  repeat first
    [ assumption
    | apply both_ret | apply both_throw | apply both_index
    | apply both_GetState | apply mono_PutState
    | apply both_relay | apply both_fail_with
    | apply mono_bind; [| intros ?]
    | progress cbv beta
    | match goal with
      | |- mono (match ?x with _ => _ end) => destruct x
      end ].

Ltac keeps_solve :=
  repeat first
    [ assumption
    | apply both_ret | apply both_throw | apply both_index
    | apply both_GetState
    | apply both_relay | apply both_fail_with
    | apply keeps_bind; [| intros ?]
    | progress cbv beta
    | match goal with
      | |- keeps (match ?x with _ => _ end) => destruct x
      end ].

Lemma mono_set_user (args : list string) : mono (HostErrors.set_user args).
Proof. unfold HostErrors.set_user. mono_solve. Qed.

Lemma mono_findBet4Trade_range (rng : list string) (user color : string)
    (size : Z) :
  mono (HostErrors.findBet4Trade_range rng user color size).
Proof.
  induction rng as [|name rng IH]; cbn [HostErrors.findBet4Trade_range];
    mono_solve.
Qed.

Lemma keeps_findBet4Trade_range (rng : list string) (user color : string)
    (size : Z) :
  keeps (HostErrors.findBet4Trade_range rng user color size).
Proof.
  induction rng as [|name rng IH]; cbn [HostErrors.findBet4Trade_range];
    keeps_solve.
Qed.

Lemma mono_findBet4Trade (user color : string) (size : Z) :
  mono (HostErrors.findBet4Trade user color size).
Proof.
  unfold HostErrors.findBet4Trade. mono_solve.
  apply mono_findBet4Trade_range.
Qed.

Lemma keeps_findBet4Trade (user color : string) (size : Z) :
  keeps (HostErrors.findBet4Trade user color size).
Proof.
  unfold HostErrors.findBet4Trade. keeps_solve.
  apply keeps_findBet4Trade_range.
Qed.

Lemma mono_perform_trade_range (args : list string) (timestamp size : Z)
    (n : nat) :
  forall (i : Z) (T : list AnOpenTrade.t),
    mono (HostErrors.perform_trade_range args timestamp size n i T).
Proof.
  induction n as [|n IH]; intros i T; cbn [HostErrors.perform_trade_range].
  - apply both_ret.
  - pose proof mono_set_user. pose proof mono_findBet4Trade.
    mono_solve; try (apply IH); try (apply mono_attempt; auto).
Qed.

(** *** One host call *)

Ltac hsimpl :=
  cbv beta iota zeta delta
    [mbind mret HostErrors.H_bind HostErrors.H_ret HostErrors.throw
     HostErrors.panic HostErrors.relay HostErrors.fail_with].

Lemma host_index_cases {A : Type} (l : list A) (i : Z) (h : HostErrors.host) :
  (exists a, l !! Z.to_nat i = Some a /\ HostErrors.index l i h = (Ok a, h))
  \/ HostErrors.index l i h = (Panic "index out of range", h).
Proof.
  unfold HostErrors.index.
  destruct ((0 <=? i) && (i <? len l)); [| right; reflexivity].
  destruct (l !! Z.to_nat i) eqn:Hl; [left; eauto | right; reflexivity].
Qed.

Lemma host_index_lookup {A : Type} (l : list A) (n : nat) (i : Z) (a : A) :
  i = Z.of_nat n -> l !! n = Some a -> HostErrors.index l i = mret a.
Proof.
  intros -> Hl. unfold HostErrors.index.
  pose proof (lookup_lt_Some _ _ _ Hl) as Hlt.
  replace (0 <=? Z.of_nat n) with true by (symmetry; apply Z.leb_le; lia).
  replace (Z.of_nat n <? len l) with true
    by (symmetry; apply Z.ltb_lt; unfold len; lia).
  cbn. rewrite Nat2Z.id, Hl. reflexivity.
Qed.

Lemma host_GetState_run (key : string) (h : HostErrors.host) :
  exists h1,
    HostErrors.base h1 = HostErrors.base h
    /\ ((exists e,
           HostErrors.GetState key h = (Ok (EmptyString, Some e), h1)
           /\ HostErrors.failures h1 = S (HostErrors.failures h))
        \/ (HostErrors.GetState key h
            = (Ok (default "" (ledger (HostErrors.base h) !! key), None), h1)
            /\ HostErrors.failures h1 = HostErrors.failures h)).
Proof.
  destruct h as [s fs n]. unfold HostErrors.GetState, HostErrors.host_call.
  cbn [HostErrors.faults HostErrors.base HostErrors.failures].
  destruct fs as [|[e|] fs]; eexists (HostErrors.mkHost _ _ _);
    (split; [reflexivity |]).
  - right. split; reflexivity.
  - left. exists e. split; reflexivity.
  - right. split; reflexivity.
Qed.

Lemma host_PutState_run (key : string) (v : bytes) (h : HostErrors.host) :
  exists h1,
    (exists e,
       HostErrors.PutState key v h = (Ok (Some e), h1)
       /\ HostErrors.base h1 = HostErrors.base h
       /\ HostErrors.failures h1 = S (HostErrors.failures h))
    \/ (HostErrors.PutState key v h = (Ok None, h1)
        /\ HostErrors.base h1 = put key v (HostErrors.base h)
        /\ HostErrors.failures h1 = HostErrors.failures h).
Proof.
  destruct h as [s fs n]. unfold HostErrors.PutState, HostErrors.host_call.
  cbn [HostErrors.faults HostErrors.base HostErrors.failures].
  destruct fs as [|[e|] fs]; eexists (HostErrors.mkHost _ _ _).
  - right. repeat split.
  - left. exists e. repeat split.
  - right. repeat split.
Qed.

Lemma accepted_nil (ws : list write) : HostErrors.accepted [] ws = ws.
Proof. destruct ws; reflexivity. Qed.

(** The writes accepted from a list are those accepted after its first
    write has been issued, and that write if the host took it. *)
Lemma host_PutState_accepted (key : string) (v : bytes) (h : HostErrors.host) :
  exists err h1,
    HostErrors.PutState key v h = (Ok err, h1)
    /\ forall ws,
         writes (HostErrors.base h1)
         ++ HostErrors.accepted (HostErrors.faults h1) ws
         = writes (HostErrors.base h)
           ++ HostErrors.accepted (HostErrors.faults h) (Put key v :: ws).
Proof.
  destruct h as [s fs n]. unfold HostErrors.PutState, HostErrors.host_call.
  cbn [HostErrors.faults HostErrors.base HostErrors.failures].
  destruct fs as [|[e|] fs]; eexists; eexists; (split; [reflexivity |]);
    intros ws; destruct ws;
    cbn [HostErrors.base HostErrors.faults HostErrors.accepted put writes];
    rewrite <- ?app_assoc; reflexivity.
Qed.

(** *** [remove_trade] *)

Lemma host_remove_trade_range_error (timestamp : Z) (T : list AnOpenTrade.t)
    (n : nat) :
  forall (i : Z) (h h' : HostErrors.host) (msg : string),
    HostErrors.remove_trade_range timestamp n i T h = (Err msg, h') ->
    HostErrors.base h' = HostErrors.base h.
Proof.
  induction n as [|n IH]; intros i h h' msg; cbn [HostErrors.remove_trade_range].
  - discriminate.
  - unfold mbind at 1, HostErrors.H_bind at 1.
    destruct (host_index_cases T i h) as [(ti & _ & ->) | ->]; [| discriminate].
    destruct (AnOpenTrade.Timestamp ti =? timestamp); [| apply IH].
    unfold mbind, HostErrors.H_bind.
    destruct (host_PutState_run openTradesStr
                (MarshalTrades (AllTrades.mk (splice T i))) h)
      as (h1 & [(e & -> & Hb & _) | (-> & _ & _)]); hsimpl.
    + intros [= _ <-]. exact Hb.
    + discriminate.
Qed.

Lemma host_remove_trade_error (args : list string) (h h' : HostErrors.host)
    (msg : string) :
  HostErrors.remove_trade args h = (Err msg, h') ->
  HostErrors.base h' = HostErrors.base h.
Proof.
  unfold HostErrors.remove_trade.
  destruct (len args <? 1); [intros [= _ <-]; reflexivity |].
  unfold mbind at 1, HostErrors.H_bind at 1.
  destruct (host_index_cases args 0 h) as [(a0 & _ & ->) | ->]; [| discriminate].
  destruct (ParseInt a0) as [timestamp|]; [| intros [= _ <-]; reflexivity].
  unfold mbind at 1, HostErrors.H_bind at 1.
  destruct (host_GetState_run openTradesStr h)
    as (h1 & Hb & [(e & -> & _) | (-> & _)]); hsimpl.
  - intros [= _ <-]. exact Hb.
  - destruct (HostErrors.remove_trade_range _ _ _ _ h1) as [[u|e|e|] t] eqn:Hloop;
      try discriminate.
    intros [= _ <-].
    rewrite (host_remove_trade_range_error _ _ _ _ _ _ _ Hloop). exact Hb.
Qed.

(** *** [open_trade] *)

Lemma host_open_trade_loop_debug (args : list string) (fuel : nat) :
  forall (i : Z) (open : AnOpenTrade.t) (h h' : HostErrors.host)
         (r : outcome AnOpenTrade.t),
    HostErrors.open_trade_loop fuel args i open h = (r, h') ->
    only_debug_writes (HostErrors.base h) (HostErrors.base h').
Proof.
  induction fuel as [|fuel IH]; intros i open h h' r;
    cbn [HostErrors.open_trade_loop].
  - intros [= _ <-]. apply only_debug_writes_refl.
  - destruct (i <? len args); [| intros [= _ <-]; apply only_debug_writes_refl].
    unfold mbind at 1, HostErrors.H_bind at 1.
    destruct (host_index_cases args (i + 1) h) as [(a & _ & ->) | ->];
      [| intros [= _ <-]; apply only_debug_writes_refl].
    destruct (Atoi a) as [will_size|];
      [| intros [= _ <-]; apply only_debug_writes_refl].
    unfold mbind at 1, HostErrors.H_bind at 1.
    destruct (host_index_cases args i h) as [(c & _ & ->) | ->];
      [| intros [= _ <-]; apply only_debug_writes_refl].
    unfold mbind at 1, HostErrors.H_bind at 1.
    destruct (host_PutState_run "_debug2"
                (MarshalDescription (Description.mk c will_size)) h)
      as (h1 & [(e & -> & Hb & _) | (-> & Hb & _)]);
      intros Hrec; apply IH in Hrec; rewrite Hb in Hrec.
    + exact Hrec.
    + eapply only_debug_writes_trans; [| exact Hrec].
      apply only_debug_writes_put. reflexivity.
Qed.

Lemma host_open_trade_error (now : Z) (args : list string)
    (h h' : HostErrors.host) (msg : string) :
  HostErrors.open_trade now args h = (Err msg, h') ->
  only_debug_writes (HostErrors.base h) (HostErrors.base h').
Proof.
  unfold HostErrors.open_trade.
  destruct (len args <? 5); [intros [= _ <-]; apply only_debug_writes_refl |].
  destruct (len args mod 2 =? 0); [intros [= _ <-]; apply only_debug_writes_refl |].
  unfold mbind at 1, HostErrors.H_bind at 1.
  destruct (host_index_cases args 2 h) as [(a2 & _ & ->) | ->]; [| discriminate].
  destruct (Atoi a2) as [size1|]; [| intros [= _ <-]; apply only_debug_writes_refl].
  unfold mbind at 1, HostErrors.H_bind at 1.
  destruct (host_index_cases args 0 h) as [(a0 & _ & ->) | ->]; [| discriminate].
  unfold mbind at 1, HostErrors.H_bind at 1.
  destruct (host_index_cases args 1 h) as [(a1 & _ & ->) | ->]; [| discriminate].
  unfold mbind at 1, HostErrors.H_bind at 1.
  match goal with
  | |- context [HostErrors.PutState ?k ?v h] =>
      destruct (host_PutState_run k v h) as (h1 & Hput)
  end.
  assert (only_debug_writes (HostErrors.base h) (HostErrors.base h1)) as H01.
  { destruct Hput as [(e & _ & -> & _) | (_ & -> & _)];
      [apply only_debug_writes_refl | apply only_debug_writes_put; reflexivity]. }
  assert (exists err, HostErrors.PutState "_debug1"
            (MarshalTrade
               (AnOpenTrade.mk a0 (makeTimestamp now) (Description.mk a1 size1) []))
            h = (Ok err, h1)) as [err ->]
    by (destruct Hput as [(e & -> & _) | (-> & _)]; eauto).
  unfold mbind at 1, HostErrors.H_bind at 1.
  destruct (HostErrors.open_trade_loop _ _ _ _ h1) as [r h2] eqn:Hloop.
  apply host_open_trade_loop_debug in Hloop.
  assert (only_debug_writes (HostErrors.base h) (HostErrors.base h2)) as H02
    by (eapply only_debug_writes_trans; eassumption).
  destruct r as [open|e|e|]; [| intros [= _ <-]; exact H02 | discriminate | discriminate].
  unfold mbind at 1, HostErrors.H_bind at 1.
  destruct (host_GetState_run openTradesStr h2)
    as (h3 & Hb3 & [(e & -> & _) | (-> & _)]); hsimpl.
  - intros [= _ <-]. rewrite Hb3. exact H02.
  - match goal with
    | |- context [HostErrors.PutState ?k ?v h3] =>
        destruct (host_PutState_run k v h3)
          as (h4 & [(e & -> & Hb4 & _) | (-> & _ & _)]); hsimpl
    end.
    + intros [= _ <-]. rewrite Hb4, Hb3. exact H02.
    + discriminate.
Qed.

End HostErrorProps.

Section HostErrorLoops.
Context `{L : GoLib}.

Ltac hsimpl :=
  cbv beta iota zeta delta
    [mbind mret HostErrors.H_bind HostErrors.H_ret HostErrors.throw
     HostErrors.panic HostErrors.relay HostErrors.fail_with].

(** *** [open_trade]: what is written before an offered quantity is rejected *)

Lemma host_open_trade_loop_rejects (c q : string) (rest : list string)
    (pairs : list (string * string)) :
  Atoi q = None ->
  forall (W : list Description.t) (pre : list string) (open : AnOpenTrade.t)
         (h : HostErrors.host) (fuel : nat),
    parse_offers pairs = Some W ->
    (length pairs < fuel)%nat ->
    exists h',
      HostErrors.open_trade_loop fuel
        (pre ++ offer_args pairs ++ c :: q :: rest) (len pre) open h
      = (Err ("is not a numeric string " +:+ q), h')
      /\ writes (HostErrors.base h')
         = writes (HostErrors.base h)
           ++ HostErrors.accepted (HostErrors.faults h) (debug2_writes W).
Proof.
  intros Hq.
  induction pairs as [|[c0 q0] pairs IH]; intros W pre open h fuel HW Hfuel;
    (destruct fuel as [|fuel]; [cbn in Hfuel; lia |]);
    cbn [offer_args app HostErrors.open_trade_loop].
  - injection HW as <-.
    replace (len pre <? len (pre ++ c :: q :: rest)) with true
      by (symmetry; len_solve).
    rewrite (host_index_lookup (pre ++ c :: q :: rest) (S (length pre))
               (len pre + 1) q)
      by (first [unfold len; lia
                | rewrite lookup_app_r by lia;
                  replace (S (length pre) - length pre)%nat with 1%nat by lia;
                  reflexivity]).
    hsimpl. rewrite Hq.
    eexists. split; [reflexivity |].
    unfold debug2_writes. cbn [List.map HostErrors.accepted].
    rewrite app_nil_r. reflexivity.
  - cbn [parse_offers] in HW.
    destruct (Atoi q0) as [n0|] eqn:Hq0; [| discriminate].
    destruct (parse_offers pairs) as [W'|] eqn:HW'; [| discriminate].
    injection HW as <-.
    set (args := pre ++ c0 :: q0 :: offer_args pairs ++ c :: q :: rest).
    replace (len pre <? len args) with true by (symmetry; unfold args; len_solve).
    rewrite (host_index_lookup args (S (length pre)) (len pre + 1) q0)
      by (first [unfold len; lia
                | unfold args; rewrite lookup_app_r by lia;
                  replace (S (length pre) - length pre)%nat with 1%nat by lia;
                  reflexivity]).
    hsimpl. rewrite Hq0.
    rewrite (host_index_lookup args (length pre) (len pre) c0)
      by (first [reflexivity
                | unfold args; rewrite lookup_app_r by lia;
                  rewrite Nat.sub_diag; reflexivity]).
    hsimpl.
    destruct (host_PutState_accepted "_debug2"
                (MarshalDescription (Description.mk c0 n0)) h)
      as (err & h1 & -> & Hacc).
    replace (len pre + 1 + 1) with (len (pre ++ [c0; q0])) by len_solve.
    assert (args = (pre ++ [c0; q0]) ++ offer_args pairs ++ c :: q :: rest) as ->
      by (unfold args; rewrite <- app_assoc; reflexivity).
    destruct (IH W' (pre ++ [c0; q0])
                (AnOpenTrade.set_Willing open
                   (AnOpenTrade.Willing open ++ [Description.mk c0 n0]))
                h1 fuel eq_refl ltac:(cbn in Hfuel; lia))
      as (h' & -> & Hw).
    exists h'. split; [reflexivity |].
    rewrite Hw. unfold debug2_writes. cbn [List.map]. apply Hacc.
Qed.

Lemma host_open_trade_rejects (now : Z) (user wantColor wantSize c q : string)
    (size1 : Z) (pairs : list (string * string)) (W : list Description.t)
    (rest : list string) (h : HostErrors.host) :
  Atoi wantSize = Some size1 ->
  parse_offers pairs = Some W ->
  Atoi q = None ->
  Nat.even (length rest) = true ->
  exists h',
    HostErrors.open_trade now
      (user :: wantColor :: wantSize :: offer_args pairs ++ c :: q :: rest) h
    = (Err ("is not a numeric string " +:+ q), h')
    /\ writes (HostErrors.base h')
       = writes (HostErrors.base h)
         ++ HostErrors.accepted (HostErrors.faults h)
              (Put "_debug1"
                 (MarshalTrade
                    (AnOpenTrade.mk user (makeTimestamp now)
                       (Description.mk wantColor size1) []))
               :: debug2_writes W).
Proof.
  intros Hsize HW Hq Heven. unfold HostErrors.open_trade.
  set (args := user :: wantColor :: wantSize :: offer_args pairs ++ c :: q :: rest).
  apply Nat.even_spec in Heven as [k Hk].
  assert (len args = 1 + 2 * (2 + len pairs + Z.of_nat k)) as Hlen.
  { unfold args, len. cbn [length]. rewrite length_app, offer_args_length.
    cbn [length]. lia. }
  pose proof (len_nonneg pairs) as Hp.
  replace (len args <? 5) with false by (symmetry; apply Z.ltb_ge; lia).
  replace (len args mod 2 =? 0) with false.
  2:{ symmetry. apply Z.eqb_neq. rewrite Hlen.
      replace (1 + 2 * (2 + len pairs + Z.of_nat k))
        with (1 + (2 + len pairs + Z.of_nat k) * 2) by lia.
      rewrite Z.mod_add by lia. discriminate. }
  rewrite (host_index_lookup args 2 2 wantSize eq_refl eq_refl).
  hsimpl. rewrite Hsize.
  rewrite (host_index_lookup args 0 0 user eq_refl eq_refl).
  rewrite (host_index_lookup args 1 1 wantColor eq_refl eq_refl).
  hsimpl.
  match goal with
  | |- context [HostErrors.PutState ?k ?v h] =>
      destruct (host_PutState_accepted k v h) as (err & h1 & -> & Hacc)
  end.
  destruct (host_open_trade_loop_rejects c q rest pairs Hq W
              [user; wantColor; wantSize]
              (AnOpenTrade.mk user (makeTimestamp now)
                 (Description.mk wantColor size1) [])
              h1 (length args) HW)
    as (h' & Hrun & Hw).
  { unfold args. cbn [length]. rewrite length_app, offer_args_length. lia. }
  change (len [user; wantColor; wantSize]) with 3 in Hrun.
  change ([user; wantColor; wantSize] ++ offer_args pairs ++ c :: q :: rest)
    with args in Hrun.
  rewrite Hrun. exists h'. split; [reflexivity |].
  rewrite Hw. apply Hacc.
Qed.

(** *** [perform_trade] *)

Lemma host_perform_trade_range_no_match (args : list string)
    (timestamp size : Z) (T : list AnOpenTrade.t) (h : HostErrors.host)
    (n : nat) :
  forall i : nat,
    (forall j o, (i <= j)%nat -> T !! j = Some o ->
       AnOpenTrade.Timestamp o <> timestamp) ->
    exists r,
      HostErrors.perform_trade_range args timestamp size n (Z.of_nat i) T h
      = (r, h)
      /\ forall msg, r <> Err msg.
Proof.
  induction n as [|n IH]; intros i Hno; cbn [HostErrors.perform_trade_range].
  - eexists. split; [reflexivity | discriminate].
  - unfold mbind at 1, HostErrors.H_bind at 1.
    destruct (host_index_cases T (Z.of_nat i) h) as [(ti & Hti & ->) | ->].
    + rewrite Nat2Z.id in Hti.
      replace (AnOpenTrade.Timestamp ti =? timestamp) with false
        by (symmetry; apply Z.eqb_neq; exact (Hno i ti (Nat.le_refl i) Hti)).
      replace (Z.of_nat i + 1) with (Z.of_nat (S i)) by lia.
      apply IH. intros j o Hj. apply Hno. lia.
    + eexists. split; [reflexivity | discriminate].
Qed.

Lemma host_attempt_no_error {A : Type} (m : HostErrors.H A)
    (h h' : HostErrors.host) (e : string) :
  HostErrors.attempt m h <> (Err e, h').
Proof.
  unfold HostErrors.attempt. destruct (m h) as [[a|e'|e'|] t]; discriminate.
Qed.

Lemma host_perform_trade_range_error (args : list string)
    (timestamp size : Z) (T : list AnOpenTrade.t) (msg : string) (n : nat) :
  List.NoDup (List.map AnOpenTrade.Timestamp T) ->
  forall (i : nat) (h h' : HostErrors.host),
    HostErrors.perform_trade_range args timestamp size n (Z.of_nat i) T h
    = (Err msg, h') ->
    HostErrors.failures h' = HostErrors.failures h ->
    HostErrors.base h' = HostErrors.base h.
Proof.
  intros Hnd. induction n as [|n IH]; intros i h h';
    cbn [HostErrors.perform_trade_range].
  - discriminate.
  - unfold mbind at 1, HostErrors.H_bind at 1.
    destruct (host_index_cases T (Z.of_nat i) h) as [(ti & Hti & ->) | ->];
      [| discriminate].
    rewrite Nat2Z.id in Hti.
    replace (Z.of_nat i + 1) with (Z.of_nat (S i)) by lia.
    destruct (AnOpenTrade.Timestamp ti =? timestamp) eqn:Hts; [| apply IH].
    apply Z.eqb_eq in Hts.
    unfold mbind at 1, HostErrors.H_bind at 1.
    destruct (host_index_cases args 2 h) as [(a2 & _ & ->) | ->]; [| discriminate].
    unfold mbind at 1, HostErrors.H_bind at 1.
    destruct (host_GetState_run a2 h) as (h1 & Hb1 & [(e & -> & Hf1) | (-> & Hf1)]).
    { hsimpl. intros [= _ <-] Hf. lia. }
    hsimpl.
    destruct (requirements_unmet _ _); [intros [= _ <-] _; exact Hb1 |].
    destruct (host_index_cases args 4 h1) as [(a4 & _ & ->) | ->]; [| discriminate].
    destruct (HostErrors.attempt
                (HostErrors.findBet4Trade (AnOpenTrade.User ti) a4 size) h1)
      as [r h2] eqn:Hfind.
    pose proof (mono_attempt _ (mono_findBet4Trade _ _ _) _ _ _ Hfind) as Hm2.
    pose proof (keeps_attempt _ (keeps_findBet4Trade _ _ _) _ _ _ Hfind) as Hb2.
    destruct r as [[bet | e] | e | e | ]; hsimpl; try discriminate;
      try (exfalso; exact (host_attempt_no_error _ _ _ _ Hfind)).
    + (* a candidate: the swap *)
      destruct (host_index_cases args 1 h2) as [(a1 & _ & ->) | ->]; [| discriminate].
      hsimpl.
      destruct (HostErrors.attempt
                  (HostErrors.set_user [a2; AnOpenTrade.User ti]) h2)
        as [r3 h3] eqn:Hs3.
      pose proof (mono_attempt _ (mono_set_user _) _ _ _ Hs3) as Hm3.
      destruct r3 as [x3 | e | e | ]; hsimpl; try discriminate;
        try (exfalso; exact (host_attempt_no_error _ _ _ _ Hs3)).
      destruct (HostErrors.attempt (HostErrors.set_user [Bet.Name bet; a1]) h3)
        as [r4 h4] eqn:Hs4.
      pose proof (mono_attempt _ (mono_set_user _) _ _ _ Hs4) as Hm4.
      destruct r4 as [x4 | e | e | ]; hsimpl; try discriminate;
        try (exfalso; exact (host_attempt_no_error _ _ _ _ Hs4)).
      match goal with
      | |- context [HostErrors.PutState ?k ?v h4] =>
          destruct (host_PutState_run k v h4)
            as (h5 & [(e & -> & _ & Hf5) | (-> & _ & _)])
      end.
      * intros [= _ <-] Hf. lia.
      * intros Herr _. exfalso.
        destruct (host_perform_trade_range_no_match args timestamp size
                    (splice T (Z.of_nat i)) h5 n (S i)) as (r & Hrun & Hne).
        { intros j o Hj Ho.
          rewrite splice_lookup_after in Ho
            by (try (apply lookup_lt_Some with (x := ti); exact Hti); lia).
          intros Heq.
          pose proof (NoDup_map_lookup AnOpenTrade.Timestamp T Hnd (S j) i o ti
                        Ho Hti (eq_trans Heq (eq_sym Hts))).
          lia. }
        rewrite Hrun in Herr. injection Herr as Hr' _. exact (Hne msg Hr').
    + (* no candidate: the loop goes on *)
      intros Hrun Hf.
      pose proof (mono_perform_trade_range args timestamp size n _ T _ _ _ Hrun)
        as Hm.
      rewrite (IH (S i) h2 h' Hrun) by lia. congruence.
Qed.

Lemma host_perform_trade_error (args : list string) (h h' : HostErrors.host)
    (msg : string) :
  HostErrors.perform_trade args h = (Err msg, h') ->
  HostErrors.failures h' = HostErrors.failures h ->
  List.NoDup
    (List.map AnOpenTrade.Timestamp (order_book (HostErrors.base h))) ->
  HostErrors.base h' = HostErrors.base h.
Proof.
  unfold HostErrors.perform_trade.
  destruct (len args <? 6); [intros [= _ <-]; reflexivity |].
  unfold mbind at 1, HostErrors.H_bind at 1.
  destruct (host_index_cases args 0 h) as [(a0 & _ & ->) | ->]; [| discriminate].
  destruct (ParseInt a0) as [timestamp|]; [| intros [= _ <-]; reflexivity].
  unfold mbind at 1, HostErrors.H_bind at 1.
  destruct (host_index_cases args 5 h) as [(a5 & _ & ->) | ->]; [| discriminate].
  destruct (Atoi a5) as [size|]; [| intros [= _ <-]; reflexivity].
  unfold mbind at 1, HostErrors.H_bind at 1.
  destruct (host_GetState_run openTradesStr h)
    as (h1 & Hb1 & [(e & -> & Hf1) | (-> & Hf1)]); hsimpl.
  - intros [= _ <-] Hf. lia.
  - fold (order_book (HostErrors.base h)).
    destruct (HostErrors.perform_trade_range _ _ _ _ _ _ h1)
      as [[u|e|e|] t] eqn:Hloop; try discriminate.
    intros [= -> <-] Hf Hnd.
    rewrite (host_perform_trade_range_error args timestamp size _ msg _ Hnd
               0 h1 t Hloop) by lia.
    exact Hb1.
Qed.

End HostErrorLoops.

(** C5 (as amended).  An operation that returns an error has issued no
    write before it, except as follows.  [Init], [Delete], [init_bet]
    and [perform_trade] make several host calls in turn and return a
    host failure as it comes, so they can fail after an earlier write
    of theirs was accepted; when no host call fails during the
    operation they return an error only before any write -
    [perform_trade] provided the ids of the open orders are pairwise
    distinct.  [read], [Write], [set_user] and [remove_trade] never
    return an error after a write, host failures included.
    [open_trade] writes its debug records before it looks at the
    offered quantities: whenever it returns an error it has written
    under no key other than ["_debug1"] and ["_debug2"], and when it
    rejects a non-numeric offered quantity it has issued [PutState] for
    ["_debug1"] and then for ["_debug2"] once per earlier offer, each
    written unless the host refused it. *)
Theorem errors_and_writes `{L : GoLib} :
  (forall (op : operation) (h h' : HostErrors.host) (msg : string),
     HostErrors.run_operation op h = (Err msg, h') ->
     match op with
     | OpRead _ | OpWrite _ | OpSetUser _ | OpRemoveTrade _ =>
         HostErrors.base h' = HostErrors.base h
     | OpInit _ | OpDelete _ | OpInitBet _ =>
         HostErrors.failures h' = HostErrors.failures h ->
         HostErrors.base h' = HostErrors.base h
     | OpPerformTrade _ =>
         HostErrors.failures h' = HostErrors.failures h ->
         List.NoDup
           (List.map AnOpenTrade.Timestamp (order_book (HostErrors.base h))) ->
         HostErrors.base h' = HostErrors.base h
     | OpOpenTrade _ _ =>
         only_debug_writes (HostErrors.base h) (HostErrors.base h')
     end)
  /\ (forall (now : Z) (user wantColor wantSize c q : string) (size1 : Z)
             (pairs : list (string * string)) (W : list Description.t)
             (rest : list string) (h : HostErrors.host),
        Atoi wantSize = Some size1 ->
        parse_offers pairs = Some W ->
        Atoi q = None ->
        Nat.even (length rest) = true ->
        exists h',
          HostErrors.open_trade now
            (user :: wantColor :: wantSize :: offer_args pairs ++ c :: q :: rest) h
          = (Err ("is not a numeric string " +:+ q), h')
          /\ writes (HostErrors.base h')
             = writes (HostErrors.base h)
               ++ HostErrors.accepted (HostErrors.faults h)
                    (Put "_debug1"
                       (MarshalTrade
                          (AnOpenTrade.mk user (makeTimestamp now)
                             (Description.mk wantColor size1) []))
                     :: debug2_writes W)).
Proof.
  split.
  - intros op h h' msg. destruct op; cbn [HostErrors.run_operation]; intros Hrun.
    + exact (host_Init_error _ _ _ _ Hrun).
    + exact (host_read_error _ _ _ _ Hrun).
    + exact (host_Delete_error _ _ _ _ Hrun).
    + exact (host_Write_error _ _ _ _ Hrun).
    + exact (host_init_bet_error _ _ _ _ Hrun).
    + exact (host_set_user_error _ _ _ _ Hrun).
    + exact (host_open_trade_error _ _ _ _ _ Hrun).
    + exact (host_perform_trade_error _ _ _ _ Hrun).
    + exact (host_remove_trade_error _ _ _ _ Hrun).
  - intros. apply host_open_trade_rejects; assumption.
Qed.

Lemma errors_and_writes_witness :
  HostErrors.base
    (snd (HostErrors.init_bet ["A"; "green"; "3"; "1"]
            (HostErrors.working two_bets)))
  = two_bets
  /\ HostErrors.base
       (snd (HostErrors.perform_trade ["1234567"; "1"; "B"; "2"; "red"; "5"]
               (HostErrors.working one_order)))
     = one_order
  /\ exists h',
       HostErrors.open_trade 0 ["2"; "blue"; "10"; "red"; "5"; "green"; "x"]
         (HostErrors.mkHost two_bets [None; Some "ledger down"] 0)
       = (Err "is not a numeric string x", h')
       /\ writes (HostErrors.base h')
          = writes two_bets
            ++ [Put "_debug1"
                  (MarshalTrade
                     (AnOpenTrade.mk "2" 0 (Description.mk "blue" 10) []))].
Proof.
  destruct errors_and_writes as [Hops Hreject].
  split; [| split].
  - apply (Hops (OpInitBet ["A"; "green"; "3"; "1"]) (HostErrors.working two_bets)
             _ "This bet arleady exists").
    + vm_compute. reflexivity.
    + vm_compute. reflexivity.
  - apply (Hops (OpPerformTrade ["1234567"; "1"; "B"; "2"; "red"; "5"])
             (HostErrors.working one_order) _
             "bet in input does not meet trade requriements").
    + vm_compute. reflexivity.
    + vm_compute. reflexivity.
    + vm_compute. repeat constructor. intros [].
  - destruct (Hreject 0 "2" "blue" "10" "green" "x" 10 [("red", "5")]
                [Description.mk "red" 5] []
                (HostErrors.mkHost two_bets [None; Some "ledger down"] 0)
                eq_refl eq_refl eq_refl eq_refl) as (h' & Hrun & Hw).
    exists h'. split; [exact Hrun |]. rewrite Hw. reflexivity.
Defined.

(** C5 as stated fails.  [open_trade] has written its debug record
    when it rejects the offered quantity ["five"]; where the host
    fails in the middle of an operation, [Init], [Delete], [init_bet]
    and [perform_trade] return the error with their earlier writes
    issued; and with an order id that is listed twice [perform_trade]
    returns an error after the writes of its swap, no host call having
    failed. *)
Lemma errors_after_writes :
  (let r := HostErrors.open_trade 0 ["2"; "blue"; "10"; "red"; "five"]
              (HostErrors.working fresh) in
   fst r = Err "is not a numeric string five"
   /\ writes (HostErrors.base (snd r))
      = writes fresh
        ++ [Put "_debug1"
              (MarshalTrade (AnOpenTrade.mk "2" 0 (Description.mk "blue" 10) []))])
  /\ (let r := HostErrors.Init ["0"]
                 (HostErrors.failing_after 1 "ledger down" emptyStub) in
      fst r = Err "ledger down"
      /\ writes (HostErrors.base (snd r)) = [Put "abc" "0"])
  /\ (let r := HostErrors.Delete ["A"]
                 (HostErrors.failing_after 1 "ledger down" two_bets) in
      fst r = Err "Failed to get bet index"
      /\ writes (HostErrors.base (snd r)) = writes two_bets ++ [Del "A"])
  /\ (let r := HostErrors.init_bet ["C"; "green"; "3"; "1"]
                 (HostErrors.failing_after 2 "ledger down" two_bets) in
      fst r = Err "Failed to get bet index"
      /\ writes (HostErrors.base (snd r))
         = writes two_bets ++ [Put "C" (bet_json "C" "green" 3 1)])
  /\ (let r := HostErrors.perform_trade ["1234567"; "1"; "A"; "2"; "red"; "5"]
                 (HostErrors.failing_after 9 "ledger down" one_order) in
      fst r = Err "ledger down"
      /\ length (writes (HostErrors.base (snd r)))
         = (length (writes one_order) + 2)%nat)
  /\ (let r := HostErrors.perform_trade ["1000"; "1"; "A"; "2"; "red"; "5"]
                 (HostErrors.working duplicate_ids) in
      fst r = Err "bet in input does not meet trade requriements"
      /\ HostErrors.failures (snd r) = 0%nat
      /\ length (writes (HostErrors.base (snd r)))
         = (length (writes duplicate_ids) + 3)%nat).
Proof. cbv zeta. repeat split; vm_compute; reflexivity. Qed.

(** C7 as stated fails for the reserved name: [init_bet] of
    ["_betindex"] succeeds, but the record it stored is overwritten by
    the index it writes next; what is read back under the name is that
    index, which lists the new name only. *)
Lemma init_bet_of_index_key_is_overwritten :
  let r := init_bet [betIndexStr; "blue"; "10"; "1"] two_bets in
  fst r = Ok ""
  /\ ledger (snd r) !! betIndexStr <> Some (bet_json betIndexStr "blue" 10 1)
  /\ read [betIndexStr] (snd r) = (Ok (MarshalIndex [betIndexStr]), snd r)
  /\ bet_index (snd r) = [betIndexStr]
  /\ bet_index two_bets = ["A"; "B"].
Proof.
  cbv zeta. repeat split; try (vm_compute; reflexivity).
  vm_compute. discriminate.
Qed.
